(** * The tiered agent memory of [agent_memory_system/memory_system.py]

    A shallow embedding of the short-term / long-term memory store, its
    summarizer, its retriever and the orchestrating [LongShortTermMemory],
    followed by the properties the specification states about them.

    Conventions of the embedding.
    - Python [str] is [string]; the text functions ([lower], [split]) are the
      ASCII ones, so the development speaks about ASCII text.
    - The relevance score is computed in IEEE doubles, Rocq's primitive
      [float] with the operations of [PrimFloat], in the order in which the
      source adds the terms.  A timestamp is kept as the exact rational that
      its double denotes, in [Q], and [Py.float_of_Q] gives the double back
      where the score needs it.  The two float products with a capacity,
      [capacity * 0.8] and [int(capacity * 0.3)], are the integer comparisons
      [4 * capacity < 5 * n] and the quotient [3 * capacity / 10] truncated
      towards zero; the doubles 0.8 and 0.3 are close enough to 4/5 and 3/10
      for the float results to be these for every capacity below 2^50.
    - A Python [dict] is an association list in insertion order with unique
      keys, because iteration order decides ties of the stable sorts.
    - [uuid.uuid4()], [time.time()], [print] and the file system live in a
      [World] that every effectful method threads. *)

From Stdlib Require Import List String Ascii ZArith QArith Qminmax Qround Lia Bool
  Permutation Sorted DecimalString Decimal Floats.
Import ListNotations.

Set Implicit Arguments.

Set Warnings "-register-all,-inexact-float".

Open Scope string_scope.
Open Scope list_scope.
Open Scope Z_scope.

(** ** Python built-ins used by the module *)

Module Py.

(** [str.lower] on ASCII text. *)
Definition lower_char (c : ascii) : ascii :=
  let n := nat_of_ascii c in
  if andb (Nat.leb 65 n) (Nat.leb n 90) then ascii_of_nat (n + 32) else c.

Fixpoint lower (s : string) : string :=
  match s with
  | EmptyString => EmptyString
  | String c s' => String (lower_char c) (lower s')
  end.

(** The ASCII characters for which [str.isspace] holds. *)
Definition isspace (c : ascii) : bool :=
  let n := nat_of_ascii c in
  orb (andb (Nat.leb 9 n) (Nat.leb n 13))
      (andb (Nat.leb 28 n) (Nat.leb n 32)).

Definition is_empty (s : string) : bool :=
  match s with EmptyString => true | _ => false end.

(** [s.split()]: maximal runs of non-space characters; [cur] is the word
    being read. *)
Fixpoint split_ws_from (cur s : string) : list string :=
  match s with
  | EmptyString => if is_empty cur then [] else [cur]
  | String c s' =>
      if isspace c
      then (if is_empty cur then split_ws_from "" s'
            else cur :: split_ws_from "" s')
      else split_ws_from (cur ++ String c "")%string s'
  end.

Definition split_ws (s : string) : list string := split_ws_from "" s.

(** [s.split(sep)] for a non-empty [sep] (Python raises ValueError on an
    empty one): scan left to right, cut at every non-overlapping
    occurrence.  [skip] counts the characters of a matched separator that
    are still to be dropped. *)
Fixpoint split_from (sep cur : string) (skip : nat) (s : string)
  : list string :=
  match s with
  | EmptyString => [cur]
  | String c s' =>
      match skip with
      | S k => split_from sep cur k s'
      | O =>
          if String.prefix sep s
          then cur :: split_from sep "" (String.length sep - 1) s'
          else split_from sep (cur ++ String c "")%string 0 s'
      end
  end.

Definition split (sep s : string) : list string := split_from sep "" 0 s.

(** [sep.join(l)]. *)
Fixpoint join (sep : string) (l : list string) : string :=
  match l with
  | [] => ""
  | [x] => x
  | x :: rest => (x ++ sep ++ join sep rest)%string
  end.

(** [a in b] on strings. *)
Fixpoint contains (a b : string) : bool :=
  if String.prefix a b then true
  else match b with
       | EmptyString => false
       | String _ b' => contains a b'
       end.

(** [str(n)] for a non-negative length. *)
Definition str_of_nat (n : nat) : string :=
  NilEmpty.string_of_uint (Nat.to_uint n).

(** [len(l)] as a Python int. *)
Definition len {A} (l : list A) : Z := Z.of_nat (List.length l).

(** [l[:n]]: a negative stop counts from the end. *)
Definition slice_to {A} (n : Z) (l : list A) : list A :=
  if 0 <=? n then firstn (Z.to_nat n) l
  else firstn (Z.to_nat (len l + n)) l.

(** [l[-1]] with a default for the empty list. *)
Definition last_item (l : list string) : string := List.last l "".

(** [list.sort(key=...)] is stable.  [leb x y] says that [x] may stand
    before [y]: [key x <= key y] for an ascending sort, [key y <= key x]
    with [reverse=True].  Insertion from the right keeps equal keys in
    their original order in both cases. *)
Section Sort.
Variable A : Type.
Variable leb : A -> A -> bool.

Fixpoint insert (x : A) (l : list A) : list A :=
  match l with
  | [] => [x]
  | y :: t => if leb x y then x :: y :: t else y :: insert x t
  end.

Fixpoint sort (l : list A) : list A :=
  match l with
  | [] => []
  | x :: t => insert x (sort t)
  end.
End Sort.

(** Dictionaries with string keys, in insertion order. *)
Section Dict.
Variable V : Type.
Definition dict := list (string * V).

Fixpoint get (k : string) (d : dict) : option V :=
  match d with
  | [] => None
  | (k', v) :: t => if String.eqb k k' then Some v else get k t
  end.

(** [d[k] = v]: an existing key keeps its place. *)
Fixpoint set (k : string) (v : V) (d : dict) : dict :=
  match d with
  | [] => [(k, v)]
  | (k', v') :: t =>
      if String.eqb k k' then (k, v) :: t else (k', v') :: set k v t
  end.

Definition mem (k : string) (d : dict) : bool :=
  match get k d with Some _ => true | None => false end.

(** [del d[k]]. *)
Fixpoint del (k : string) (d : dict) : dict :=
  match d with
  | [] => []
  | (k', v') :: t => if String.eqb k k' then t else (k', v') :: del k t
  end.

Definition keys (d : dict) : list string := map fst d.
Definition values (d : dict) : list V := map snd d.
End Dict.

(** Floats are IEEE doubles.  [float_of_int] is the conversion that Python
    applies to an int operand of a float operation, for the ints from 0 up
    to 2^63 - 1; this covers every [len(...)] and every value of an
    enumeration below. *)
Definition float_of_int (n : Z) : float :=
  PrimFloat.of_uint63 (Uint63.of_Z n).

Definition int_to_SF (z : Z) : spec_float :=
  match z with
  | Z0 => S754_zero false
  | Zpos p => S754_finite false p 0
  | Zneg p => S754_finite true p 0
  end.

(** [a / b] on two ints, [b] not zero: the double nearest to the quotient,
    ties to even, for ints of any size.  Python raises OverflowError
    where the quotient is beyond the doubles; here it is an infinity. *)
Definition true_div (a b : Z) : float :=
  SF2Prim (SFdiv prec emax (int_to_SF a) (int_to_SF b)).

(** The double of a timestamp: the one that the rational denotes, and for a
    rational that no double denotes the nearest one. *)
Definition float_of_Q (q : Q) : float := true_div (Qnum q) (Zpos (Qden q)).

(** [max(a, b)] and [min(a, b)] return the first argument unless the second
    is greater, respectively less. *)
Definition max (a b : float) : float := if PrimFloat.ltb a b then b else a.
Definition min (a b : float) : float := if PrimFloat.ltb b a then b else a.

End Py.

(** ** Data model *)

Inductive MemoryType :=
| SHORT_TERM | LONG_TERM | WORKING | EPISODIC | SEMANTIC | PROCEDURAL.

Definition MemoryType_value (t : MemoryType) : string :=
  match t with
  | SHORT_TERM => "short_term"
  | LONG_TERM => "long_term"
  | WORKING => "working"
  | EPISODIC => "episodic"
  | SEMANTIC => "semantic"
  | PROCEDURAL => "procedural"
  end.

Definition MemoryType_eqb (a b : MemoryType) : bool :=
  String.eqb (MemoryType_value a) (MemoryType_value b).

Inductive MemoryPriority := LOW | MEDIUM | HIGH | CRITICAL.

Definition MemoryPriority_value (p : MemoryPriority) : Z :=
  match p with LOW => 1 | MEDIUM => 2 | HIGH => 3 | CRITICAL => 4 end.

(** The values a context dictionary holds in this repository: strings,
    booleans, integers and [None]. *)
Inductive ctx_val :=
| VStr (s : string)
| VBool (b : bool)
| VInt (n : Z)
| VNone.

(** Python's [==] on these values: [True == 1] and [False == 0]. *)
Definition ctx_val_eqb (a b : ctx_val) : bool :=
  match a, b with
  | VStr s, VStr t => String.eqb s t
  | VBool x, VBool y => Bool.eqb x y
  | VInt n, VInt m => Z.eqb n m
  | VBool x, VInt m => Z.eqb (if x then 1 else 0) m
  | VInt n, VBool y => Z.eqb n (if y then 1 else 0)
  | VNone, VNone => true
  | _, _ => false
  end.

Definition context_dict := Py.dict ctx_val.

Record MemoryEntry := mkMemoryEntry {
  id : string;
  content : string;
  memory_type : MemoryType;
  priority : MemoryPriority;
  timestamp : Q;
  access_count : Z;
  last_accessed : Q;
  context : context_dict;
  embedding : option (list Q);
  summary : option string;
  tags : list string
}.

(** The dataclass constructor followed by [__post_init__]: a missing context
    or tag list becomes an empty one, and a zero [last_accessed] becomes the
    timestamp. *)
Definition MemoryEntry_init (id content : string) (memory_type : MemoryType)
  (priority : MemoryPriority) (timestamp : Q) (access_count : Z)
  (last_accessed : Q) (context : option context_dict)
  (embedding : option (list Q)) (summary : option string)
  (tags : option (list string)) : MemoryEntry :=
  {| id := id;
     content := content;
     memory_type := memory_type;
     priority := priority;
     timestamp := timestamp;
     access_count := access_count;
     last_accessed := if Qeq_bool last_accessed 0 then timestamp
                      else last_accessed;
     context := match context with Some c => c | None => [] end;
     embedding := embedding;
     summary := summary;
     tags := match tags with Some t => t | None => [] end |}.

Definition set_memory_type (t : MemoryType) (e : MemoryEntry) : MemoryEntry :=
  {| id := id e; content := content e; memory_type := t;
     priority := priority e; timestamp := timestamp e;
     access_count := access_count e; last_accessed := last_accessed e;
     context := context e; embedding := embedding e; summary := summary e;
     tags := tags e |}.

Definition touch (now : Q) (e : MemoryEntry) : MemoryEntry :=
  {| id := id e; content := content e; memory_type := memory_type e;
     priority := priority e; timestamp := timestamp e;
     access_count := access_count e + 1; last_accessed := now;
     context := context e; embedding := embedding e; summary := summary e;
     tags := tags e |}.

(** ** JSON documents

    [json.dump] followed by [json.load] is the identity on documents built
    from dictionaries with string keys, lists, strings, integers, floats,
    booleans and [None]; a file therefore holds a document. *)

Inductive json :=
| JNull
| JBool (b : bool)
| JInt (n : Z)
| JFloat (q : Q)
| JStr (s : string)
| JArr (l : list json)
| JObj (o : list (string * json)).

(** ** The world outside the memory object *)

Record World := mkWorld {
  uuids : nat -> string;
  clock : nat -> Q;
  stdout : list string;
  files : string -> option json
}.

Definition M (A : Type) : Type := World -> A * World.

Definition ret {A} (a : A) : M A := fun w => (a, w).

Definition bind {A B} (m : M A) (k : A -> M B) : M B :=
  fun w => let (a, w') := m w in k a w'.

Notation "x <- m ;; k" := (bind m (fun x => k))
  (at level 61, m at next level, right associativity).
Notation "m ;;; k" := (bind m (fun _ => k))
  (at level 61, right associativity).

(** [str(uuid.uuid4())] *)
Definition uuid4 : M string :=
  fun w => (uuids w 0%nat,
            {| uuids := fun n => uuids w (S n); clock := clock w;
               stdout := stdout w; files := files w |}).

(** [time.time()] *)
Definition time_time : M Q :=
  fun w => (clock w 0%nat,
            {| uuids := uuids w; clock := fun n => clock w (S n);
               stdout := stdout w; files := files w |}).

Definition print (line : string) : M unit :=
  fun w => (tt,
            {| uuids := uuids w; clock := clock w;
               stdout := stdout w ++ [line]; files := files w |}).

Definition write_file (path : string) (doc : json) : M unit :=
  fun w => (tt,
            {| uuids := uuids w; clock := clock w; stdout := stdout w;
               files := fun p => if String.eqb p path then Some doc
                                 else files w p |}).

Definition read_file (path : string) : M (option json) :=
  fun w => (files w path, w).

(** [for x in l: acc = body x acc] *)
Fixpoint for_each {A S} (l : list A) (body : A -> S -> M S) (s : S) : M S :=
  match l with
  | [] => ret s
  | x :: t => s' <- body x s ;; for_each t body s'
  end.

(** ** InMemoryStore *)

Record InMemoryStore := mkStore {
  memories : Py.dict MemoryEntry;
  index : Py.dict (list string)
}.

Definition InMemoryStore_init : InMemoryStore :=
  {| memories := []; index := [] |}.

Definition str_in_list (s : string) (l : list string) : bool :=
  existsb (String.eqb s) l.

(** [_update_index]: every lower-cased word of the content points to the
    entry id, once. *)
Definition index_word (entry_id : string) (idx : Py.dict (list string))
  (word : string) : Py.dict (list string) :=
  let idx1 := if Py.mem word idx then idx else Py.set word [] idx in
  let ids := match Py.get word idx1 with Some l => l | None => [] end in
  if str_in_list entry_id ids then idx1
  else Py.set word (ids ++ [entry_id]) idx1.

Definition update_index (entry : MemoryEntry) (idx : Py.dict (list string))
  : Py.dict (list string) :=
  fold_left (index_word (id entry)) (Py.split_ws (Py.lower (content entry)))
            idx.

Definition store_add (entry : MemoryEntry) (s : InMemoryStore)
  : bool * InMemoryStore :=
  (true, {| memories := Py.set (id entry) entry (memories s);
            index := update_index entry (index s) |}).

Definition store_get (memory_id : string) (s : InMemoryStore)
  : M (option MemoryEntry * InMemoryStore) :=
  match Py.get memory_id (memories s) with
  | Some entry =>
      now <- time_time ;;
      let entry' := touch now entry in
      ret (Some entry',
           {| memories := Py.set memory_id entry' (memories s);
              index := index s |})
  | None => ret (None, s)
  end.

Definition search_key_geb (x y : MemoryEntry) : bool :=
  let px := MemoryPriority_value (priority x) in
  let py := MemoryPriority_value (priority y) in
  orb (py <? px) (andb (py =? px) (access_count y <=? access_count x)).

Definition matches (query_lower : string) (entry : MemoryEntry) : bool :=
  orb (Py.contains query_lower (Py.lower (content entry)))
      (existsb (fun tag => Py.contains query_lower (Py.lower tag))
               (tags entry)).

Definition store_search (query : string) (limit : Z) (s : InMemoryStore)
  : list MemoryEntry :=
  let query_lower := Py.lower query in
  let results := filter (matches query_lower) (Py.values (memories s)) in
  let results := Py.sort search_key_geb results in
  Py.slice_to limit results.

Definition store_delete (memory_id : string) (s : InMemoryStore)
  : bool * InMemoryStore :=
  if Py.mem memory_id (memories s)
  then (true, {| memories := Py.del memory_id (memories s);
                 index := index s |})
  else (false, s).

(** ** MemorySummarizer *)

Record MemorySummarizer := mkSummarizer { max_length : Z }.

Definition MemorySummarizer_init : MemorySummarizer :=
  {| max_length := 500 |}.

Definition summarize (self : MemorySummarizer) (content : string) : string :=
  if Z.of_nat (String.length content) <=? max_length self then content
  else
    let sentences := Py.split ". " content in
    if Py.len sentences <=? 2 then content
    else (hd "" sentences ++ ". [...] " ++ Py.last_item sentences ++ ".")%string.

(** [memory.context.get('session', 'default')] *)
Definition session_key (memory : MemoryEntry) : ctx_val :=
  match Py.get "session" (context memory) with
  | Some v => v
  | None => VStr "default"
  end.

(** The local dictionary [groups] of [compress_memories]; its keys are
    context values, compared with Python's [==]. *)
Definition groups_dict := list (ctx_val * list MemoryEntry).

Definition groups_mem (key : ctx_val) (groups : groups_dict) : bool :=
  existsb (fun kv => ctx_val_eqb (fst kv) key) groups.

Fixpoint groups_append (key : ctx_val) (memory : MemoryEntry)
  (groups : groups_dict) : groups_dict :=
  match groups with
  | [] => []
  | (k, g) :: t =>
      if ctx_val_eqb k key then (k, g ++ [memory]) :: t
      else (k, g) :: groups_append key memory t
  end.

Definition group_step (groups : groups_dict) (memory : MemoryEntry)
  : groups_dict :=
  let context_key := session_key memory in
  let groups1 := if groups_mem context_key groups then groups
                 else groups ++ [(context_key, [])] in
  groups_append context_key memory groups1.

Definition group_by_session (memories : list MemoryEntry) : groups_dict :=
  fold_left group_step memories [].

Definition priority_geb (x y : MemoryEntry) : bool :=
  MemoryPriority_value (priority y) <=? MemoryPriority_value (priority x).

Definition summary_content (self : MemorySummarizer)
  (group_memories : list MemoryEntry) : string :=
  let combined_content := Py.join " | " (map content group_memories) in
  ("Summary of " ++ Py.str_of_nat (List.length group_memories)
   ++ " memories: " ++ summarize self combined_content)%string.

Definition compress_group (self : MemorySummarizer)
  (kg : ctx_val * list MemoryEntry) (compressed : list MemoryEntry)
  : M (list MemoryEntry) :=
  let (context_key, group_memories) := kg in
  if 3 <? Py.len group_memories then
    uid <- uuid4 ;;
    now <- time_time ;;
    let summary_entry :=
      MemoryEntry_init uid (summary_content self group_memories)
        LONG_TERM MEDIUM now 0 0
        (Some [("session", context_key); ("compressed", VBool true)])
        None None None in
    let compressed := compressed ++ [summary_entry] in
    let group_memories := Py.sort priority_geb group_memories in
    ret (compressed ++ Py.slice_to 2 group_memories)
  else ret (compressed ++ group_memories).

Definition compress_memories (self : MemorySummarizer)
  (memories : list MemoryEntry) : M (list MemoryEntry) :=
  if Py.len memories <=? 3 then ret memories
  else for_each (group_by_session memories) (compress_group self) [].

(** ** MemoryRetriever *)

Definition py_set (l : list string) : list string := nodup string_dec l.

Definition word_overlap (query : string) (memory : MemoryEntry) : Z :=
  let query_words := py_set (Py.split_ws (Py.lower query)) in
  let content_words := py_set (Py.split_ws (Py.lower (content memory))) in
  Py.len (filter (fun w => str_in_list w content_words) query_words).

(** [sum(1 for k, v in context.items()
          if k in memory.context and memory.context[k] == v)] *)
Definition context_match (ctx : context_dict) (memory : MemoryEntry) : Z :=
  Py.len (filter (fun kv =>
                    match Py.get (fst kv) (context memory) with
                    | Some v' => ctx_val_eqb v' (snd kv)
                    | None => false
                    end) ctx).

Definition truthy {A} (d : option (list A)) : bool :=
  match d with Some (_ :: _) => true | _ => false end.

Definition calculate_relevance_score (query : string) (memory : MemoryEntry)
  (ctx : option context_dict) : M float :=
  let score := 0%float in
  let score :=
    (score + Py.float_of_int (word_overlap query memory) * 0.3)%float in
  let score :=
    (score
     + Py.float_of_int (MemoryPriority_value (priority memory)) * 0.2)%float in
  now <- time_time ;;
  let age := (Py.float_of_Q now - Py.float_of_Q (timestamp memory))%float in
  let recency_score :=
    Py.max 0 (1 - age / Py.float_of_int (30 * 24 * 60 * 60))%float in
  let score := (score + recency_score * 0.2)%float in
  let frequency_score := Py.min 1 (Py.true_div (access_count memory) 10) in
  let score := (score + frequency_score * 0.1)%float in
  let score :=
    if andb (truthy ctx) (truthy (Some (context memory))) then
      match ctx with
      | Some c =>
          (score + Py.float_of_int (context_match c memory) * 0.2)%float
      | None => score
      end
    else score in
  ret score.

(** [sort(key=lambda x: x[1], reverse=True)]: the stable sort in descending
    order of the score, an element staying behind those it is less than. *)
Definition score_geb (x y : MemoryEntry * float) : bool :=
  negb (PrimFloat.ltb (snd x) (snd y)).

Definition retrieve_relevant (memory_store : InMemoryStore) (query : string)
  (ctx : option context_dict) (limit : Z) : M (list MemoryEntry) :=
  let candidates := store_search query (limit * 2) memory_store in
  scored_memories <-
    for_each candidates
      (fun memory scored =>
         score <- calculate_relevance_score query memory ctx ;;
         ret (scored ++ [(memory, score)]))
      [] ;;
  let scored_memories := Py.sort score_geb scored_memories in
  ret (map fst (Py.slice_to limit scored_memories)).

(** ** LongShortTermMemory *)

(** The retriever of the source holds a reference to [long_term_store]; here
    it is that field itself. *)
Record LongShortTermMemory := mkMemory {
  short_term_store : InMemoryStore;
  long_term_store : InMemoryStore;
  short_term_capacity : Z;
  long_term_capacity : Z;
  summarizer : MemorySummarizer;
  current_session : string
}.

Definition with_short (s : InMemoryStore) (self : LongShortTermMemory)
  : LongShortTermMemory :=
  {| short_term_store := s; long_term_store := long_term_store self;
     short_term_capacity := short_term_capacity self;
     long_term_capacity := long_term_capacity self;
     summarizer := summarizer self; current_session := current_session self |}.

Definition with_long (s : InMemoryStore) (self : LongShortTermMemory)
  : LongShortTermMemory :=
  {| short_term_store := short_term_store self; long_term_store := s;
     short_term_capacity := short_term_capacity self;
     long_term_capacity := long_term_capacity self;
     summarizer := summarizer self; current_session := current_session self |}.

Definition with_session (session : string) (self : LongShortTermMemory)
  : LongShortTermMemory :=
  {| short_term_store := short_term_store self;
     long_term_store := long_term_store self;
     short_term_capacity := short_term_capacity self;
     long_term_capacity := long_term_capacity self;
     summarizer := summarizer self; current_session := session |}.

Definition LongShortTermMemory_init (short_term_capacity long_term_capacity : Z)
  : M LongShortTermMemory :=
  session <- uuid4 ;;
  ret {| short_term_store := InMemoryStore_init;
         long_term_store := InMemoryStore_init;
         short_term_capacity := short_term_capacity;
         long_term_capacity := long_term_capacity;
         summarizer := MemorySummarizer_init;
         current_session := session |}.

Definition delete_all (to_remove : list MemoryEntry) (s : InMemoryStore)
  : InMemoryStore :=
  fold_left (fun s memory => snd (store_delete (id memory) s)) to_remove s.

(** Sort key [(priority.value, timestamp)], ascending. *)
Definition short_key_leb (x y : MemoryEntry) : bool :=
  let px := MemoryPriority_value (priority x) in
  let py := MemoryPriority_value (priority y) in
  orb (px <? py) (andb (px =? py) (Qle_bool (timestamp x) (timestamp y))).

(** Sort key [(priority.value, access_count, timestamp)], ascending. *)
Definition long_key_leb (x y : MemoryEntry) : bool :=
  let px := MemoryPriority_value (priority x) in
  let py := MemoryPriority_value (priority y) in
  orb (px <? py)
      (andb (px =? py)
            (orb (access_count x <? access_count y)
                 (andb (access_count x =? access_count y)
                       (Qle_bool (timestamp x) (timestamp y))))).

Definition manage_short_term_capacity (self : LongShortTermMemory)
  : LongShortTermMemory :=
  let store := short_term_store self in
  if short_term_capacity self <? Py.len (memories store) then
    let mems := Py.values (memories store) in
    let mems := Py.sort short_key_leb mems in
    let to_remove :=
      Py.slice_to (Py.len mems - short_term_capacity self) mems in
    with_short (delete_all to_remove store) self
  else self.

Definition manage_long_term_capacity (self : LongShortTermMemory)
  : LongShortTermMemory :=
  let store := long_term_store self in
  if long_term_capacity self <? Py.len (memories store) then
    let mems := Py.values (memories store) in
    let mems := Py.sort long_key_leb mems in
    let to_remove :=
      Py.slice_to (Py.len mems - long_term_capacity self) mems in
    with_long (delete_all to_remove store) self
  else self.

(** [x or default] on an optional list or dictionary. *)
Definition or_default {A} (x : option (list A)) (default : list A) : list A :=
  match x with
  | Some (a :: t) => a :: t
  | _ => default
  end.

Definition add_memory (content : string) (memory_type : MemoryType)
  (priority : MemoryPriority) (ctx : option context_dict)
  (tags : option (list string)) (self : LongShortTermMemory)
  : M (string * LongShortTermMemory) :=
  uid <- uuid4 ;;
  now <- time_time ;;
  let entry :=
    MemoryEntry_init uid content memory_type priority now 0 0
      (Some (or_default ctx [("session", VStr (current_session self))]))
      None None (Some (or_default tags [])) in
  if MemoryType_eqb memory_type SHORT_TERM then
    let self := with_short (snd (store_add entry (short_term_store self)))
                           self in
    ret (id entry, manage_short_term_capacity self)
  else
    let self := with_long (snd (store_add entry (long_term_store self)))
                          self in
    ret (id entry, manage_long_term_capacity self).

Definition retrieve_memories (query : string) (include_short_term : bool)
  (limit : Z) (self : LongShortTermMemory) : M (list MemoryEntry) :=
  let mems := [] in
  long_term_memories <-
    retrieve_relevant (long_term_store self) query None limit ;;
  let mems := mems ++ long_term_memories in
  let mems :=
    if include_short_term then
      let short_term_memories :=
        store_search query (limit / 2) (short_term_store self) in
      mems ++ short_term_memories
    else mems in
  let mems := Py.sort search_key_geb mems in
  ret (Py.slice_to limit mems).

Definition timestamp_geb (x y : MemoryEntry) : bool :=
  Qle_bool (timestamp y) (timestamp x).

Definition get_recent_memories (limit : Z) (self : LongShortTermMemory)
  : list MemoryEntry :=
  let all_memories := Py.values (memories (short_term_store self))
                      ++ Py.values (memories (long_term_store self)) in
  Py.slice_to limit (Py.sort timestamp_geb all_memories).

Definition timestamp_leb (x y : MemoryEntry) : bool :=
  Qle_bool (timestamp x) (timestamp y).

(** One turn of the loop of [consolidate_memories]. *)
Definition consolidate_step (memory : MemoryEntry)
  (self : LongShortTermMemory) : LongShortTermMemory :=
  let memory := set_memory_type LONG_TERM memory in
  let self := with_long (snd (store_add memory (long_term_store self))) self in
  with_short (snd (store_delete (id memory) (short_term_store self))) self.

(** [len(l) > capacity * 0.8] and [int(capacity * 0.3)] in integers. *)
Definition above_four_fifths (n capacity : Z) : bool :=
  4 * capacity <? 5 * n.

Definition three_tenths (capacity : Z) : Z := Z.quot (3 * capacity) 10.

Definition consolidate_memories (self : LongShortTermMemory)
  : M LongShortTermMemory :=
  let short_term_memories := Py.values (memories (short_term_store self)) in
  if above_four_fifths (Py.len short_term_memories)
                       (short_term_capacity self) then
    let short_term_memories := Py.sort timestamp_leb short_term_memories in
    let to_consolidate :=
      Py.slice_to (three_tenths (short_term_capacity self))
                  short_term_memories in
    compressed <- compress_memories (summarizer self) to_consolidate ;;
    ret (fold_left (fun self memory => consolidate_step memory self)
                   compressed self)
  else ret self.

(** ** Persistence *)

Definition ctx_val_to_json (v : ctx_val) : json :=
  match v with
  | VStr s => JStr s
  | VBool b => JBool b
  | VInt n => JInt n
  | VNone => JNull
  end.

Definition opt_to_json {A} (f : A -> json) (x : option A) : json :=
  match x with Some a => f a | None => JNull end.

(** [to_dict]: the fields in declaration order, the two enumerations as their
    values. *)
Definition to_dict (self : MemoryEntry) : json :=
  JObj [ ("id", JStr (id self));
         ("content", JStr (content self));
         ("memory_type", JStr (MemoryType_value (memory_type self)));
         ("priority", JInt (MemoryPriority_value (priority self)));
         ("timestamp", JFloat (timestamp self));
         ("access_count", JInt (access_count self));
         ("last_accessed", JFloat (last_accessed self));
         ("context",
          JObj (map (fun kv => (fst kv, ctx_val_to_json (snd kv)))
                    (context self)));
         ("embedding",
          opt_to_json (fun l => JArr (map JFloat l)) (embedding self));
         ("summary", opt_to_json JStr (summary self));
         ("tags", JArr (map JStr (tags self))) ].

(** What can end [load_from_file] early.  [OutsideModel] stands for a
    document that Python would accept but whose values have no counterpart
    in the typed record (a number as content, a nested context, ...). *)
Inductive exn :=
| FileNotFoundError
| KeyError (key : string)
| ValueError
| TypeError
| AttributeError
| OutsideModel.

Definition MemoryType_of_value (v : json) : exn + MemoryType :=
  match v with
  | JStr s =>
      if String.eqb s "short_term" then inr SHORT_TERM
      else if String.eqb s "long_term" then inr LONG_TERM
      else if String.eqb s "working" then inr WORKING
      else if String.eqb s "episodic" then inr EPISODIC
      else if String.eqb s "semantic" then inr SEMANTIC
      else if String.eqb s "procedural" then inr PROCEDURAL
      else inl ValueError
  | _ => inl ValueError
  end.

(** [MemoryPriority(value)] looks the value up with Python's [==], under
    which [True] and [1.0] are the integer 1. *)
Definition MemoryPriority_of_Z (n : Z) : exn + MemoryPriority :=
  match n with
  | 1 => inr LOW
  | 2 => inr MEDIUM
  | 3 => inr HIGH
  | 4 => inr CRITICAL
  | _ => inl ValueError
  end.

Definition MemoryPriority_of_value (v : json) : exn + MemoryPriority :=
  match v with
  | JInt n => MemoryPriority_of_Z n
  | JBool b => MemoryPriority_of_Z (if b then 1 else 0)
  | JFloat q =>
      if Qeq_bool q (inject_Z (Qfloor q)) then MemoryPriority_of_Z (Qfloor q)
      else inl ValueError
  | JStr _ | JNull | JArr _ | JObj _ => inl ValueError
  end.

Definition json_to_ctx_val (v : json) : option ctx_val :=
  match v with
  | JStr s => Some (VStr s)
  | JBool b => Some (VBool b)
  | JInt n => Some (VInt n)
  | JNull => Some VNone
  | _ => None
  end.

Fixpoint decode_list {A B} (f : A -> option B) (l : list A)
  : option (list B) :=
  match l with
  | [] => Some []
  | x :: t =>
      match f x, decode_list f t with
      | Some y, Some r => Some (y :: r)
      | _, _ => None
      end
  end.

Definition json_to_float (v : json) : option Q :=
  match v with
  | JFloat q => Some q
  | JInt n => Some (inject_Z n)
  | _ => None
  end.

Definition json_to_str (v : json) : option string :=
  match v with JStr s => Some s | _ => None end.

Definition json_to_int (v : json) : option Z :=
  match v with JInt n => Some n | _ => None end.

(** An optional field: absent or [null] gives [None]. *)
Definition decode_optional {A} (f : json -> option A) (v : option json)
  : option (option A) :=
  match v with
  | None | Some JNull => Some None
  | Some j => match f j with Some a => Some (Some a) | None => None end
  end.

Definition json_to_context (v : json) : option context_dict :=
  match v with
  | JObj o =>
      decode_list (fun kv => match json_to_ctx_val (snd kv) with
                             | Some c => Some (fst kv, c)
                             | None => None
                             end) o
  | _ => None
  end.

Definition json_to_floats (v : json) : option (list Q) :=
  match v with JArr l => decode_list json_to_float l | _ => None end.

Definition json_to_strs (v : json) : option (list string) :=
  match v with JArr l => decode_list json_to_str l | _ => None end.

Definition field_names : list string :=
  [ "id"; "content"; "memory_type"; "priority"; "timestamp"; "access_count";
    "last_accessed"; "context"; "embedding"; "summary"; "tags" ].

Definition or_outside {A} (x : option A) (k : A -> exn + MemoryEntry)
  : exn + MemoryEntry :=
  match x with Some a => k a | None => inl OutsideModel end.

Definition required (o : list (string * json)) (key : string)
  (k : json -> exn + MemoryEntry) : exn + MemoryEntry :=
  match Py.get key o with Some v => k v | None => inl TypeError end.

(** [from_dict]: the two enumerations are rebuilt first, then the dataclass
    constructor receives every key of the object as a keyword argument. *)
Definition from_dict (data : json) : exn + MemoryEntry :=
  match data with
  | JObj o =>
      match Py.get "memory_type" o with
      | None => inl (KeyError "memory_type")
      | Some mt =>
          match MemoryType_of_value mt with
          | inl e => inl e
          | inr memory_type =>
              match Py.get "priority" o with
              | None => inl (KeyError "priority")
              | Some pr =>
                  match MemoryPriority_of_value pr with
                  | inl e => inl e
                  | inr priority =>
                      if forallb (fun kv => str_in_list (fst kv) field_names) o
                      then
                        required o "id" (fun v =>
                        required o "content" (fun c =>
                        required o "timestamp" (fun t =>
                        or_outside (json_to_str v) (fun id =>
                        or_outside (json_to_str c) (fun content =>
                        or_outside (json_to_float t) (fun timestamp =>
                        or_outside (match Py.get "access_count" o with
                                    | None => Some 0
                                    | Some j => json_to_int j
                                    end) (fun access_count =>
                        or_outside (match Py.get "last_accessed" o with
                                    | None => Some 0%Q
                                    | Some j => json_to_float j
                                    end) (fun last_accessed =>
                        or_outside (decode_optional json_to_context
                                      (Py.get "context" o)) (fun context =>
                        or_outside (decode_optional json_to_floats
                                      (Py.get "embedding" o)) (fun embedding =>
                        or_outside (decode_optional json_to_str
                                      (Py.get "summary" o)) (fun summary =>
                        or_outside (decode_optional json_to_strs
                                      (Py.get "tags" o)) (fun tags =>
                        inr (MemoryEntry_init id content memory_type priority
                               timestamp access_count last_accessed context
                               embedding summary tags)))))))))))))
                      else inl TypeError
                  end
              end
          end
      end
  | _ => inl TypeError
  end.

Definition save_to_file (filepath : string) (self : LongShortTermMemory)
  : M unit :=
  let data :=
    JObj [ ("short_term",
            JArr (map to_dict (Py.values (memories (short_term_store self)))));
           ("long_term",
            JArr (map to_dict (Py.values (memories (long_term_store self)))));
           ("current_session", JStr (current_session self)) ] in
  write_file filepath data.

(** [for mem_data in ...: store.add(MemoryEntry.from_dict(mem_data))]; the
    entries added before a failure stay in the store. *)
Fixpoint load_entries (l : list json) (s : InMemoryStore)
  : option exn * InMemoryStore :=
  match l with
  | [] => (None, s)
  | mem_data :: t =>
      match from_dict mem_data with
      | inl e => (Some e, s)
      | inr entry => load_entries t (snd (store_add entry s))
      end
  end.

(** [data.get(key, [])] as the sequence the loop runs over.  A value that
    cannot be iterated, or whose first item is not a dictionary, raises
    TypeError before any entry is added. *)
Definition entries_of (o : list (string * json)) (key : string)
  : exn + list json :=
  match Py.get key o with
  | None => inr []
  | Some (JArr l) => inr l
  | Some (JStr EmptyString) | Some (JObj []) => inr []
  | Some _ => inl TypeError
  end.

(** [load_from_file]: the result is the exception that escapes, if any, and
    the object as the call leaves it.  Only [FileNotFoundError] is caught. *)
Definition load_from_file (filepath : string) (self : LongShortTermMemory)
  : M (option exn * LongShortTermMemory) :=
  opened <- read_file filepath ;;
  match opened with
  | None =>
      print ("No memory file found at " ++ filepath
             ++ ", starting with empty memory")%string ;;;
      ret (None, self)
  | Some (JObj o) =>
      match entries_of o "short_term" with
      | inl e => ret (Some e, self)
      | inr short_list =>
          match load_entries short_list (short_term_store self) with
          | (Some e, s) => ret (Some e, with_short s self)
          | (None, s) =>
              let self := with_short s self in
              match entries_of o "long_term" with
              | inl e => ret (Some e, self)
              | inr long_list =>
                  match load_entries long_list (long_term_store self) with
                  | (Some e, l) => ret (Some e, with_long l self)
                  | (None, l) =>
                      let self := with_long l self in
                      default <- uuid4 ;;
                      match Py.get "current_session" o with
                      | None => ret (None, with_session default self)
                      | Some (JStr s) => ret (None, with_session s self)
                      | Some _ => ret (Some OutsideModel, self)
                      end
                  end
              end
          end
      end
  | Some _ => ret (Some AttributeError, self)
  end.

(** ** [compress_memories] on list objects

    Python lists are mutable objects and [compress_memories] appends to and
    sorts lists in place.  This second embedding keeps every list in a heap
    and passes references, so that it shows which objects the method writes
    to.  The loop over [memories] runs over the list as it is when the loop
    starts. *)










(** ** The specification's own wording of the relevance score

    This definition follows the text of the specification, not the source;
    the theorem on the score compares it with the embedded method. *)

(** The five additive terms of the relevance score as the specification
    writes them, added from left to right in doubles, for a clock reading
    [now], [common_words] words that the query and the content share and
    [equal_keys] keys on which the two contexts agree. *)
Definition spec_relevance_score (common_words equal_keys : Z)
  (memory : MemoryEntry) (now : Q) : float :=
  (Py.float_of_int common_words * 0.3
   + Py.float_of_int (MemoryPriority_value (priority memory)) * 0.2
   + Py.max 0 (1 - (Py.float_of_Q now - Py.float_of_Q (timestamp memory))
                   / Py.float_of_int (30 * 86400)) * 0.2
   + Py.min 1 (Py.true_div (access_count memory) 10) * 0.1
   + Py.float_of_int equal_keys * 0.2)%float.

(** Python's [==] on two context values, as a relation: the values are the
    same once [True] and [False] are read as the ints 1 and 0. *)
Definition bool_as_int (v : ctx_val) : ctx_val :=
  match v with
  | VBool b => VInt (if b then 1 else 0)
  | _ => v
  end.

Definition same_value (a b : ctx_val) : Prop := bool_as_int a = bool_as_int b.

(** ** Sequences of [add_memory] calls *)

Record add_call := mkCall {
  call_content : string;
  call_type : MemoryType;
  call_priority : MemoryPriority;
  call_context : option context_dict;
  call_tags : option (list string)
}.

Definition run_call (c : add_call) (self : LongShortTermMemory)
  : M LongShortTermMemory :=
  r <- add_memory (call_content c) (call_type c) (call_priority c)
         (call_context c) (call_tags c) self ;;
  ret (snd r).

(** The object after each call of a sequence. *)
Fixpoint add_trace (calls : list add_call) (self : LongShortTermMemory)
  : M (list LongShortTermMemory) :=
  match calls with
  | [] => ret []
  | c :: rest =>
      self' <- run_call c self ;;
      after <- add_trace rest self' ;;
      ret (self' :: after)
  end.

Definition add_all (calls : list add_call) (self : LongShortTermMemory)
  : M LongShortTermMemory :=
  for_each calls run_call self.

(** The entry that [add_memory] builds in world [w], and the world it leaves
    behind: one identifier and one clock reading are consumed. *)
Definition new_entry (content : string) (memory_type : MemoryType)
  (priority : MemoryPriority) (ctx : option context_dict)
  (tags : option (list string)) (self : LongShortTermMemory) (w : World)
  : MemoryEntry :=
  MemoryEntry_init (uuids w 0%nat) content memory_type priority
    (clock w 0%nat) 0 0
    (Some (or_default ctx [("session", VStr (current_session self))]))
    None None (Some (or_default tags [])).

Definition tick (w : World) : World := snd (time_time (snd (uuid4 w))).

(** The dictionary items that a sequence of calls appends when nothing is
    evicted: one fresh entry per call, each built in the world the previous
    call left. *)
Fixpoint appended (calls : list add_call) (self : LongShortTermMemory)
  (w : World) : Py.dict MemoryEntry :=
  match calls with
  | [] => []
  | c :: rest =>
      (uuids w 0%nat,
       new_entry (call_content c) (call_type c) (call_priority c)
         (call_context c) (call_tags c) self w)
      :: appended rest self (tick w)
  end.

(** ** Invariants of the stores

    Every entry is filed under its own id, and a dictionary has no key
    twice.  The first holds because [add] is the only writer. *)

Definition dict_ok (d : Py.dict MemoryEntry) : Prop :=
  NoDup (Py.keys d) /\ Forall (fun kv => id (snd kv) = fst kv) d.

Definition store_ok (s : InMemoryStore) : Prop := dict_ok (memories s).

Definition within_capacity (self : LongShortTermMemory) : Prop :=
  Py.len (memories (short_term_store self)) <= short_term_capacity self
  /\ Py.len (memories (long_term_store self)) <= long_term_capacity self.

(** What every call of [add_memory] keeps: both stores are well formed and
    within their capacities, which are [cs] and [cl]. *)
Definition add_invariant (cs cl : Z) (self : LongShortTermMemory) : Prop :=
  store_ok (short_term_store self) /\ store_ok (long_term_store self)
  /\ short_term_capacity self = cs /\ long_term_capacity self = cl
  /\ within_capacity self.

(** The entries whose id is not the id of an entry of [removed]. *)
Definition without (removed : list MemoryEntry) (d : Py.dict MemoryEntry)
  : Py.dict MemoryEntry :=
  filter (fun kv => negb (str_in_list (fst kv) (map id removed))) d.

(** An entry as the constructor leaves it: [__post_init__] has replaced a
    zero [last_accessed] by the timestamp. *)
Definition constructed (e : MemoryEntry) : Prop :=
  Qeq_bool (last_accessed e) 0 = true -> last_accessed e = timestamp e.

(** A memory whose stores are well formed and hold constructed entries. *)
Definition persistable (self : LongShortTermMemory) : Prop :=
  store_ok (short_term_store self)
  /\ store_ok (long_term_store self)
  /\ Forall constructed (Py.values (memories (short_term_store self)))
  /\ Forall constructed (Py.values (memories (long_term_store self))).

(** ** Notions the properties are stated with *)

(** The statement that a retrieval with the given limit returns entries of the
    long-term store only, although the short-term store was asked for. *)
Definition only_long_term_results (limit : Z) : Prop :=
  forall (self : LongShortTermMemory) (query : string) (w : World)
         (e : MemoryEntry),
    In e (fst (retrieve_memories query true limit self w)) ->
    In e (Py.values (memories (long_term_store self))).

(** The entries that [consolidate_memories] hands to [compress_memories]. *)
Definition to_consolidate (self : LongShortTermMemory) : list MemoryEntry :=
  Py.slice_to (three_tenths (short_term_capacity self))
    (Py.sort timestamp_leb (Py.values (memories (short_term_store self)))).



(** ** A concrete world and concrete runs *)

Definition demo_world : World :=
  {| uuids := fun n => ("id-" ++ Py.str_of_nat n)%string;
     clock := fun n => inject_Z (1700000000 + Z.of_nat n);
     stdout := [];
     files := fun _ => None |}.

Definition note (text : string) (p : MemoryPriority) : add_call :=
  {| call_content := text; call_type := SHORT_TERM; call_priority := p;
     call_context := None; call_tags := None |}.

Definition demo_notes : list add_call :=
  [ note "User: my name is Alice" MEDIUM;
    note "User: what is my name" MEDIUM;
    note "User: a name tag" MEDIUM ].

(** [LongShortTermMemory()] followed by three short-term notes. *)
Definition demo_three_notes : M LongShortTermMemory :=
  self <- LongShortTermMemory_init 100 1000 ;;
  add_all demo_notes self.

(** Four entries of session ["s1"], as one list object. *)
Definition session_entry (name : string) (p : MemoryPriority) (t : Z)
  : MemoryEntry :=
  MemoryEntry_init name ("note " ++ name)%string SHORT_TERM p (inject_Z t)
    0 0 (Some [("session", VStr "s1")]) None None None.


(** [LongShortTermMemory(short_term_capacity=14)], twelve short-term notes of
    the session of the object, then [consolidate_memories()]. *)
Definition twelve_notes : list add_call :=
  map (fun i => note ("note " ++ Py.str_of_nat i)%string MEDIUM) (seq 1 12).

Definition demo_twelve_notes : M LongShortTermMemory :=
  self <- LongShortTermMemory_init 14 1000 ;;
  add_all twelve_notes self.

Definition demo_consolidated : M LongShortTermMemory :=
  self <- demo_twelve_notes ;;
  consolidate_memories self.

(** ** The keyword index *)

(** No word list of the index holds an id twice. *)
Definition index_ok (idx : Py.dict (list string)) : Prop :=
  forall word ids, Py.get word idx = Some ids -> NoDup ids.

(** The index lists [entry_id] under [word]. *)
Definition indexed (entry_id word : string) (idx : Py.dict (list string))
  : Prop :=
  exists ids, Py.get word idx = Some ids /\ In entry_id ids.

(** The three notes in a memory whose short-term capacity is 2, as
    [add_memory] finds it between the addition and the capacity manager. *)
Definition demo_over_capacity : LongShortTermMemory :=
  {| short_term_store := short_term_store (fst (demo_three_notes demo_world));
     long_term_store := long_term_store (fst (demo_three_notes demo_world));
     short_term_capacity := 2;
     long_term_capacity := 1000;
     summarizer := MemorySummarizer_init;
     current_session := current_session (fst (demo_three_notes demo_world)) |}.

Definition demo_note (n : nat) : MemoryEntry :=
  nth n (Py.values (memories (short_term_store demo_over_capacity)))
      (session_entry "a" LOW 1).

(** A memory whose long-term capacity is 1, holding one rule of high
    priority, and one whose short-term capacity is 1, holding one note of
    high priority. *)
Definition demo_one_rule : M LongShortTermMemory :=
  self <- LongShortTermMemory_init 100 1 ;;
  run_call (mkCall "rule: greet the user" LONG_TERM HIGH None None) self.

Definition demo_one_note : M LongShortTermMemory :=
  self <- LongShortTermMemory_init 1 1000 ;;
  run_call (note "User: my name is Alice" HIGH) self.

(** A world whose file [memory.json] lists one well-formed short-term entry
    followed by an object without [memory_type]. *)
Definition demo_broken_file : World :=
  {| uuids := uuids demo_world;
     clock := clock demo_world;
     stdout := [];
     files := fun p =>
                if String.eqb p "memory.json"
                then Some (JObj [("short_term",
                                  JArr [to_dict (session_entry "a" LOW 1);
                                        JObj [("id", JStr "b")]])])
                else None |}.

(** An entry that [compress_memories] has made: long-term, of medium
    priority, never accessed and marked as compressed in its context. *)
Definition is_summary (e : MemoryEntry) : Prop :=
  memory_type e = LONG_TERM
  /\ priority e = MEDIUM
  /\ access_count e = 0
  /\ Py.get "compressed" (context e) = Some (VBool true).

(** ** AgentWithMemory *)

Record AgentWithMemory := mkAgent {
  memory : LongShortTermMemory;
  name : string
}.

Definition AgentWithMemory_init : M AgentWithMemory :=
  memory <- LongShortTermMemory_init 100 1000 ;;
  ret {| memory := memory; name := "MemoryAgent" |}.

(** [user_id: str = None] as a context value. *)
Definition user_id_value (user_id : option string) : ctx_val :=
  match user_id with Some u => VStr u | None => VNone end.

Definition newline : string := String (ascii_of_nat 10) "".

(** [process_message]: the string [context] is built and not used. *)
Definition process_message (message : string) (user_id : option string)
  (self : AgentWithMemory) : M (string * AgentWithMemory) :=
  context_memories <- retrieve_memories message true 5 (memory self) ;;
  let context :=
    Py.join newline
      (map (fun mem => ("Memory: " ++ content mem)%string) context_memories) in
  r <- add_memory ("User said: " ++ message)%string SHORT_TERM MEDIUM
         (Some [("user_id", user_id_value user_id);
                ("type", VStr "user_message")])
         None (memory self) ;;
  let self := {| memory := snd r; name := name self |} in
  let response :=
    ("Processed: " ++ message ++ ". Context: "
     ++ Py.str_of_nat (List.length context_memories)
     ++ " memories retrieved.")%string in
  r <- add_memory ("Agent responded: " ++ response)%string SHORT_TERM MEDIUM
         (Some [("user_id", user_id_value user_id);
                ("type", VStr "agent_response")])
         None (memory self) ;;
  ret (response, {| memory := snd r; name := name self |}).

Definition learn_from_interaction (observation learning : string)
  (self : AgentWithMemory) : M AgentWithMemory :=
  r <- add_memory
         ("Learned: " ++ learning ++ " from observation: " ++ observation)%string
         LONG_TERM HIGH None (Some ["learning"; "important"]) (memory self) ;;
  ret {| memory := snd r; name := name self |}.

Definition consolidate_periodically (self : AgentWithMemory)
  : M AgentWithMemory :=
  m <- consolidate_memories (memory self) ;;
  ret {| memory := m; name := name self |}.

(** The reply of [process_message] that reports [n] retrieved memories. *)
Definition reply (message : string) (n : nat) : string :=
  ("Processed: " ++ message ++ ". Context: " ++ Py.str_of_nat n
   ++ " memories retrieved.")%string.

(** ** Matching and ranking, as the properties word them *)

(** [query] occurs in the content or in a tag of [e], letter case ignored. *)
Definition mentions (query : string) (e : MemoryEntry) : Prop :=
  Py.contains (Py.lower query) (Py.lower (content e)) = true
  \/ exists tag, In tag (tags e)
                 /\ Py.contains (Py.lower query) (Py.lower tag) = true.

(** [a] may stand before [b] in descending order of
    (priority value, access count). *)
Definition ranks_before (a b : MemoryEntry) : Prop :=
  MemoryPriority_value (priority b) < MemoryPriority_value (priority a)
  \/ (MemoryPriority_value (priority b) = MemoryPriority_value (priority a)
      /\ access_count b <= access_count a).

(** ** Notions about doubles *)

(** A double in the format of [SpecFloat] is a zero. *)
Definition is_zero_SF (x : spec_float) : Prop :=
  match x with S754_zero _ => True | _ => False end.

(** The sign bit of a double is clear, or the double is not a number. *)
Definition positive_sign (x : spec_float) : Prop :=
  match x with
  | S754_zero s | S754_infinity s | S754_finite s _ _ => s = false
  | S754_nan => True
  end.

(** Two entries have the same priority and the same number of accesses: the
    sorts of [search] and of [retrieve_memories] cannot tell them apart. *)
Definition same_rank (a b : MemoryEntry) : bool :=
  (MemoryPriority_value (priority a) =? MemoryPriority_value (priority b))
  && (access_count a =? access_count b).

(** ** Saving and loading entries whose context holds any value

    [context] is declared [Dict[str, Any]], and the record [MemoryEntry]
    above restricts it to string keys with strings, booleans, integers or
    [None] as values.  The module [Any] embeds the methods that save and
    load a memory once more, over entries whose context is a dictionary of
    arbitrary keys and values: [to_dict] followed by [json.dump], and
    [json.load] followed by [from_dict].  The index of a store plays no part
    in saving and loading and is left out. *)
Module Any.

Inductive py_value :=
| PNone
| PBool (b : bool)
| PInt (n : Z)
| PFloat (q : Q)
| PStr (s : string)
| PList (l : list py_value)
| PTuple (l : list py_value)
| PDict (items : list (py_value * py_value)).

(** [str(n)] for an int. *)
Definition str_of_int (n : Z) : string := NilZero.string_of_int (Z.to_int n).

(** The name that [json.dump] writes for a key of a dictionary: a string
    as it is, an int, a boolean or [None] converted as JSON prints them;
    any other key but a float is a TypeError.  The digits of a float key
    are not modelled. *)
Definition json_key (k : py_value) : exn + string :=
  match k with
  | PStr s => inr s
  | PInt n => inr (str_of_int n)
  | PBool true => inr "true"
  | PBool false => inr "false"
  | PNone => inr "null"
  | PFloat _ => inl OutsideModel
  | PList _ | PTuple _ | PDict _ => inl TypeError
  end.

(** [json.dump]: a list and a tuple are both written as an array. *)
Fixpoint json_dump (v : py_value) : exn + json :=
  match v with
  | PNone => inr JNull
  | PBool b => inr (JBool b)
  | PInt n => inr (JInt n)
  | PFloat q => inr (JFloat q)
  | PStr s => inr (JStr s)
  | PList l | PTuple l =>
      match (fix dump_all (l : list py_value) : exn + list json :=
               match l with
               | [] => inr []
               | x :: t =>
                   match json_dump x with
                   | inl e => inl e
                   | inr j =>
                       match dump_all t with
                       | inl e => inl e
                       | inr js => inr (j :: js)
                       end
                   end
               end) l with
      | inl e => inl e
      | inr js => inr (JArr js)
      end
  | PDict items =>
      match (fix dump_items (items : list (py_value * py_value))
               : exn + list (string * json) :=
               match items with
               | [] => inr []
               | (k, x) :: t =>
                   match json_key k with
                   | inl e => inl e
                   | inr key =>
                       match json_dump x with
                       | inl e => inl e
                       | inr j =>
                           match dump_items t with
                           | inl e => inl e
                           | inr js => inr ((key, j) :: js)
                           end
                       end
                   end
               end) items with
      | inl e => inl e
      | inr js => inr (JObj js)
      end
  end.

(** [json.load]: an array becomes a list, an object a dictionary with
    string keys in which the last value of a repeated name wins. *)
Fixpoint json_load (j : json) : py_value :=
  match j with
  | JNull => PNone
  | JBool b => PBool b
  | JInt n => PInt n
  | JFloat q => PFloat q
  | JStr s => PStr s
  | JArr l => PList (map json_load l)
  | JObj o =>
      PDict (map (fun kv => (PStr (fst kv), snd kv))
               (fold_left (fun d kv => Py.set (fst kv) (snd kv) d)
                  (map (fun kv => (fst kv, json_load (snd kv))) o) []))
  end.

Record MemoryEntry := mkMemoryEntry {
  id : string;
  content : string;
  memory_type : MemoryType;
  priority : MemoryPriority;
  timestamp : Q;
  access_count : Z;
  last_accessed : Q;
  context : list (py_value * py_value);
  embedding : option (list Q);
  summary : option string;
  tags : list string
}.

(** The constructor with [__post_init__]. *)
Definition MemoryEntry_init (id content : string) (memory_type : MemoryType)
  (priority : MemoryPriority) (timestamp : Q) (access_count : Z)
  (last_accessed : Q) (context : option (list (py_value * py_value)))
  (embedding : option (list Q)) (summary : option string)
  (tags : option (list string)) : MemoryEntry :=
  {| id := id; content := content; memory_type := memory_type;
     priority := priority; timestamp := timestamp;
     access_count := access_count;
     last_accessed :=
       if Qeq_bool last_accessed 0 then timestamp else last_accessed;
     context := match context with Some c => c | None => [] end;
     embedding := embedding; summary := summary;
     tags := match tags with Some t => t | None => [] end |}.

(** [json.dump] of [to_dict()]: the fields in declaration order, the two
    enumerations as their values. *)
Definition to_dict (self : MemoryEntry) : exn + json :=
  match json_dump (PDict (context self)) with
  | inl e => inl e
  | inr written_context =>
      inr (JObj [ ("id", JStr (id self));
                  ("content", JStr (content self));
                  ("memory_type", JStr (MemoryType_value (memory_type self)));
                  ("priority", JInt (MemoryPriority_value (priority self)));
                  ("timestamp", JFloat (timestamp self));
                  ("access_count", JInt (access_count self));
                  ("last_accessed", JFloat (last_accessed self));
                  ("context", written_context);
                  ("embedding",
                   opt_to_json (fun l => JArr (map JFloat l))
                     (embedding self));
                  ("summary", opt_to_json JStr (summary self));
                  ("tags", JArr (map JStr (tags self))) ])
  end.

Definition or_outside {A} (x : option A) (k : A -> exn + MemoryEntry)
  : exn + MemoryEntry :=
  match x with Some a => k a | None => inl OutsideModel end.

Definition required (o : list (string * json)) (key : string)
  (k : json -> exn + MemoryEntry) : exn + MemoryEntry :=
  match Py.get key o with Some v => k v | None => inl TypeError end.

(** The context that the constructor receives from a loaded document.  A
    context that is no dictionary has no counterpart in the record. *)
Definition loaded_context (v : option json)
  : option (option (list (py_value * py_value))) :=
  match v with
  | None | Some JNull => Some None
  | Some (JObj o) =>
      match json_load (JObj o) with
      | PDict items => Some (Some items)
      | _ => None
      end
  | Some _ => None
  end.

(** [from_dict] on the dictionary that [json.load] gives for [data]. *)
Definition from_dict (data : json) : exn + MemoryEntry :=
  match data with
  | JObj o =>
      match Py.get "memory_type" o with
      | None => inl (KeyError "memory_type")
      | Some mt =>
          match MemoryType_of_value mt with
          | inl e => inl e
          | inr memory_type =>
              match Py.get "priority" o with
              | None => inl (KeyError "priority")
              | Some pr =>
                  match MemoryPriority_of_value pr with
                  | inl e => inl e
                  | inr priority =>
                      if forallb (fun kv => str_in_list (fst kv) field_names) o
                      then
                        required o "id" (fun v =>
                        required o "content" (fun c =>
                        required o "timestamp" (fun t =>
                        or_outside (json_to_str v) (fun id =>
                        or_outside (json_to_str c) (fun content =>
                        or_outside (json_to_float t) (fun timestamp =>
                        or_outside (match Py.get "access_count" o with
                                    | None => Some 0
                                    | Some j => json_to_int j
                                    end) (fun access_count =>
                        or_outside (match Py.get "last_accessed" o with
                                    | None => Some 0%Q
                                    | Some j => json_to_float j
                                    end) (fun last_accessed =>
                        or_outside (loaded_context (Py.get "context" o))
                          (fun context =>
                        or_outside (decode_optional json_to_floats
                                      (Py.get "embedding" o)) (fun embedding =>
                        or_outside (decode_optional json_to_str
                                      (Py.get "summary" o)) (fun summary =>
                        or_outside (decode_optional json_to_strs
                                      (Py.get "tags" o)) (fun tags =>
                        inr (MemoryEntry_init id content memory_type priority
                               timestamp access_count last_accessed context
                               embedding summary tags)))))))))))))
                      else inl TypeError
                  end
              end
          end
      end
  | _ => inl TypeError
  end.

Record LongShortTermMemory := mkMemory {
  short_term_store : Py.dict MemoryEntry;
  long_term_store : Py.dict MemoryEntry;
  short_term_capacity : Z;
  long_term_capacity : Z;
  current_session : string
}.

Definition LongShortTermMemory_init (short_term_capacity long_term_capacity : Z)
  : M LongShortTermMemory :=
  session <- uuid4 ;;
  ret {| short_term_store := []; long_term_store := [];
         short_term_capacity := short_term_capacity;
         long_term_capacity := long_term_capacity;
         current_session := session |}.

Definition with_short (s : Py.dict MemoryEntry) (self : LongShortTermMemory)
  : LongShortTermMemory :=
  {| short_term_store := s; long_term_store := long_term_store self;
     short_term_capacity := short_term_capacity self;
     long_term_capacity := long_term_capacity self;
     current_session := current_session self |}.

Definition with_long (l : Py.dict MemoryEntry) (self : LongShortTermMemory)
  : LongShortTermMemory :=
  {| short_term_store := short_term_store self; long_term_store := l;
     short_term_capacity := short_term_capacity self;
     long_term_capacity := long_term_capacity self;
     current_session := current_session self |}.

Definition with_session (s : string) (self : LongShortTermMemory)
  : LongShortTermMemory :=
  {| short_term_store := short_term_store self;
     long_term_store := long_term_store self;
     short_term_capacity := short_term_capacity self;
     long_term_capacity := long_term_capacity self;
     current_session := s |}.

Fixpoint dump_entries (l : list MemoryEntry) : exn + list json :=
  match l with
  | [] => inr []
  | m :: t =>
      match to_dict m with
      | inl e => inl e
      | inr j =>
          match dump_entries t with
          | inl e => inl e
          | inr js => inr (j :: js)
          end
      end
  end.

(** [save_to_file]: the result is the exception that [json.dump] raises, if
    any; the file that it then leaves half written is not modelled. *)
Definition save_to_file (filepath : string) (self : LongShortTermMemory)
  : M (option exn) :=
  match dump_entries (Py.values (short_term_store self)) with
  | inl e => ret (Some e)
  | inr short_list =>
      match dump_entries (Py.values (long_term_store self)) with
      | inl e => ret (Some e)
      | inr long_list =>
          write_file filepath
            (JObj [ ("short_term", JArr short_list);
                    ("long_term", JArr long_list);
                    ("current_session", JStr (current_session self)) ]) ;;;
          ret None
      end
  end.

Fixpoint load_entries (l : list json) (s : Py.dict MemoryEntry)
  : option exn * Py.dict MemoryEntry :=
  match l with
  | [] => (None, s)
  | mem_data :: t =>
      match from_dict mem_data with
      | inl e => (Some e, s)
      | inr entry => load_entries t (Py.set (id entry) entry s)
      end
  end.

Definition load_from_file (filepath : string) (self : LongShortTermMemory)
  : M (option exn * LongShortTermMemory) :=
  opened <- read_file filepath ;;
  match opened with
  | None =>
      print ("No memory file found at " ++ filepath
             ++ ", starting with empty memory")%string ;;;
      ret (None, self)
  | Some (JObj o) =>
      match entries_of o "short_term" with
      | inl e => ret (Some e, self)
      | inr short_list =>
          match load_entries short_list (short_term_store self) with
          | (Some e, s) => ret (Some e, with_short s self)
          | (None, s) =>
              let self := with_short s self in
              match entries_of o "long_term" with
              | inl e => ret (Some e, self)
              | inr long_list =>
                  match load_entries long_list (long_term_store self) with
                  | (Some e, l) => ret (Some e, with_long l self)
                  | (None, l) =>
                      let self := with_long l self in
                      default <- uuid4 ;;
                      match Py.get "current_session" o with
                      | None => ret (None, with_session default self)
                      | Some (JStr s) => ret (None, with_session s self)
                      | Some _ => ret (Some OutsideModel, self)
                      end
                  end
              end
          end
      end
  | Some _ => ret (Some AttributeError, self)
  end.

End Any.

(** A typed entry as an entry of [Any]. *)
Definition lift_value (v : ctx_val) : Any.py_value :=
  match v with
  | VStr s => Any.PStr s
  | VBool b => Any.PBool b
  | VInt n => Any.PInt n
  | VNone => Any.PNone
  end.

Definition lift (e : MemoryEntry) : Any.MemoryEntry :=
  {| Any.id := id e; Any.content := content e;
     Any.memory_type := memory_type e; Any.priority := priority e;
     Any.timestamp := timestamp e; Any.access_count := access_count e;
     Any.last_accessed := last_accessed e;
     Any.context :=
       map (fun kv => (Any.PStr (fst kv), lift_value (snd kv))) (context e);
     Any.embedding := embedding e; Any.summary := summary e;
     Any.tags := tags e |}.



(** ** The order of the doubles, as the properties word it *)

(** A double that is a number, as a triple of integers whose lexicographic
    order is the order of the doubles: the first component separates the
    infinities, the negative numbers, the zeros and the positive numbers,
    the other two order the numbers of one sign by exponent and
    mantissa. *)
Definition SF_key (x : spec_float) : Z * Z * Z :=
  match x with
  | S754_infinity true => (-2, 0, 0)
  | S754_finite true m e => (-1, - e, - Zpos m)
  | S754_zero _ | S754_nan => (0, 0, 0)
  | S754_finite false m e => (1, e, Zpos m)
  | S754_infinity false => (2, 0, 0)
  end.

Definition key_lt (a b : Z * Z * Z) : Prop :=
  fst (fst a) < fst (fst b)
  \/ (fst (fst a) = fst (fst b)
      /\ (snd (fst a) < snd (fst b)
          \/ (snd (fst a) = snd (fst b) /\ snd a < snd b))).

(** The world after [i] readings of the clock. *)
Fixpoint after_readings (i : nat) (w : World) : World :=
  match i with
  | O => w
  | S j => after_readings j (snd (time_time w))
  end.

(** The candidates of a retrieval with their scores, each score computed at
    the next reading of the clock. *)
Fixpoint scored_at (query : string) (ctx : option context_dict)
  (candidates : list MemoryEntry) (w : World) : list (MemoryEntry * float) :=
  match candidates with
  | [] => []
  | memory :: rest =>
      (memory, fst (calculate_relevance_score query memory ctx w))
      :: scored_at query ctx rest (snd (time_time w))
  end.

(** * Properties *)

(** ** Strings and [split] *)

Lemma string_app_assoc (a b c : string) :
  ((a ++ b) ++ c = a ++ (b ++ c))%string.
Proof. induction a as [|x a IH]; simpl; [reflexivity | now rewrite IH]. Qed.

Lemma string_app_nil_r (a : string) : (a ++ "" = a)%string.
Proof. induction a as [|x a IH]; simpl; [reflexivity | now rewrite IH]. Qed.

Lemma string_length_app (a b : string) :
  String.length (a ++ b) = (String.length a + String.length b)%nat.
Proof. induction a as [|x a IH]; simpl; [reflexivity | now rewrite IH]. Qed.

Lemma prefix_split (sep s : string) :
  String.prefix sep s = true -> exists rest, s = (sep ++ rest)%string.
Proof.
  revert sep; induction s as [|c s IH]; intros [|a sep] H; simpl in *.
  - now exists "".
  - discriminate.
  - now exists (String c s).
  - destruct (ascii_dec a c) as [->|]; [|discriminate].
    destruct (IH _ H) as [rest ->]. now exists rest.
Qed.

Lemma split_from_skip (sep cur pre s : string) :
  Py.split_from sep cur (String.length pre) (pre ++ s)
  = Py.split_from sep cur 0 s.
Proof.
  induction pre as [|c pre IH]; simpl.
  - destruct s; reflexivity.
  - exact IH.
Qed.

Lemma split_from_nonempty (sep s cur : string) (skip : nat) :
  Py.split_from sep cur skip s <> [].
Proof.
  revert cur skip; induction s as [|c s IH]; intros cur skip;
    cbn [Py.split_from].
  - discriminate.
  - destruct skip; [|apply IH].
    destruct (String.prefix sep (String c s)); [discriminate | apply IH].
Qed.

Lemma join_cons (sep x : string) (l : list string) :
  l <> [] -> Py.join sep (x :: l) = (x ++ sep ++ Py.join sep l)%string.
Proof. destruct l; [congruence | reflexivity]. Qed.

(** Joining the pieces with the separator gives the text back. *)
Lemma join_split_from (sep : string) :
  sep <> "" ->
  forall n s cur, (String.length s <= n)%nat ->
    Py.join sep (Py.split_from sep cur 0 s) = (cur ++ s)%string.
Proof.
  intros Hsep; induction n as [|n IH]; intros s cur Hlen.
  - destruct s; [|simpl in Hlen; lia]. simpl. now rewrite string_app_nil_r.
  - destruct s as [|c s]; [simpl; now rewrite string_app_nil_r|].
    cbn [Py.split_from].
    destruct (String.prefix sep (String c s)) eqn:Hp.
    + destruct (prefix_split _ _ Hp) as [rest Hrest].
      destruct sep as [|a sep']; [congruence|].
      simpl in Hrest. injection Hrest as Hc Hs. subst c s.
      replace (String.length (String a sep') - 1)%nat
        with (String.length sep') by (simpl; lia).
      rewrite split_from_skip, join_cons by apply split_from_nonempty.
      rewrite IH.
      * reflexivity.
      * simpl in Hlen. rewrite string_length_app in Hlen. lia.
    + rewrite IH by (simpl in Hlen; lia).
      now rewrite string_app_assoc.
Qed.

Lemma join_split (sep s : string) :
  sep <> "" -> Py.join sep (Py.split sep s) = s.
Proof.
  intros H. unfold Py.split.
  now rewrite (join_split_from H (n := String.length s)).
Qed.

(** A list with more than two items has a first item, a last item and
    something in between. *)
Lemma first_middle_last (l : list string) :
  (2 < List.length l)%nat ->
  exists first middle last,
    l = first :: middle ++ [last] /\ middle <> []
    /\ hd "" l = first /\ Py.last_item l = last.
Proof.
  intros H. destruct l as [|first t]; [simpl in H; lia|].
  destruct (exists_last (l := t)) as [middle [last ->]].
  { destruct t; [simpl in H; lia | discriminate]. }
  exists first, middle, last. repeat split.
  - destruct middle; [simpl in H; lia | discriminate].
  - unfold Py.last_item. change (first :: middle ++ [last])
      with ((first :: middle) ++ [last]). apply last_last.
Qed.

(** ** C7: [summarize] *)

(** C7. [summarize] returns the content unchanged when it is at most
    [max_length] long (500 by default) or when splitting it at [". "] gives
    at most two sentences; otherwise the sentences, which joined by [". "]
    are the content, have a first and a last one and the result is
    [first ++ ". [...] " ++ last ++ "."].  The result is a function of the
    content, and on a content of at most [max_length] characters summarizing
    twice is summarizing once. *)
Theorem summarize_cases (self : MemorySummarizer) (content : string) :
  let sentences := Py.split ". " content in
  max_length MemorySummarizer_init = 500
  /\ Py.join ". " sentences = content
  /\ (Z.of_nat (String.length content) <= max_length self
      \/ Py.len sentences <= 2 ->
      summarize self content = content)
  /\ (max_length self < Z.of_nat (String.length content) ->
      2 < Py.len sentences ->
      exists first middle last,
        sentences = first :: middle ++ [last]
        /\ summarize self content
           = (first ++ ". [...] " ++ last ++ ".")%string)
  /\ (Z.of_nat (String.length content) <= max_length self ->
      summarize self (summarize self content) = summarize self content).
Proof.
  intros sentences. split; [reflexivity|].
  split; [apply join_split; discriminate|].
  assert (Hshort : Z.of_nat (String.length content) <= max_length self ->
                   summarize self content = content).
  { intros H. unfold summarize.
    now destruct (Z.leb_spec (Z.of_nat (String.length content))
                             (max_length self)); [|lia]. }
  split; [|split].
  - intros [H|H]; [now apply Hshort|].
    unfold summarize.
    destruct (Z.of_nat (String.length content) <=? max_length self);
      [reflexivity|].
    fold sentences.
    now destruct (Z.leb_spec (Py.len sentences) 2); [|lia].
  - intros Hlong Hmany. unfold summarize. fold sentences.
    destruct (Z.leb_spec (Z.of_nat (String.length content))
                         (max_length self)); [lia|].
    destruct (Z.leb_spec (Py.len sentences) 2); [lia|].
    destruct (@first_middle_last sentences)
      as (first & middle & last & Heq & _ & Hhd & Hlast).
    { unfold Py.len in Hmany. lia. }
    exists first, middle, last. split; [exact Heq|].
    now rewrite Hhd, Hlast.
  - intros H. now rewrite (Hshort H), (Hshort H).
Qed.

(** The three cases of C7 on a summarizer with [max_length = 10]: a short
    text, a long text of two sentences and a long text of three. *)
Lemma summarize_cases_witness :
  summarize {| max_length := 10 |} "One. Two" = "One. Two"
  /\ summarize {| max_length := 10 |} "A long one. And two" = "A long one. And two"
  /\ summarize {| max_length := 10 |} "First. Second. Third"
     = "First. [...] Third.".
Proof.
  pose proof (summarize_cases {| max_length := 10 |} "One. Two") as H1.
  pose proof (summarize_cases {| max_length := 10 |} "A long one. And two")
    as H2.
  pose proof (summarize_cases {| max_length := 10 |} "First. Second. Third")
    as H3.
  cbv zeta in H1, H2, H3.
  destruct H1 as (_ & _ & H1 & _), H2 as (_ & _ & H2 & _),
           H3 as (_ & _ & _ & H3 & _).
  split; [apply H1; left; simpl; lia|].
  split; [apply H2; right; vm_compute; discriminate|].
  destruct H3 as (first & middle & last & Heq & Hres);
    [simpl; lia | vm_compute; reflexivity |].
  rewrite Hres. vm_compute in Heq.
  destruct middle as [|m1 [|m2 middle]]; simpl in Heq.
  - discriminate.
  - now injection Heq as <- <- <-.
  - destruct middle; discriminate.
Defined.

(** ** Sorting and slicing *)

Section SortFacts.
Variable A : Type.
Variable leb : A -> A -> bool.

Lemma insert_perm (x : A) (l : list A) :
  Permutation (Py.insert leb x l) (x :: l).
Proof.
  induction l as [|y t IH]; simpl; [reflexivity|].
  destruct (leb x y); [reflexivity|].
  rewrite IH. apply perm_swap.
Qed.

Lemma sort_perm (l : list A) : Permutation (Py.sort leb l) l.
Proof.
  induction l as [|x t IH]; simpl; [reflexivity|].
  rewrite insert_perm. now constructor.
Qed.

Lemma sort_length (l : list A) : List.length (Py.sort leb l) = List.length l.
Proof. apply Permutation_length, sort_perm. Qed.

Lemma In_sort (x : A) (l : list A) : In x (Py.sort leb l) <-> In x l.
Proof.
  split; apply Permutation_in; [|symmetry]; apply sort_perm.
Qed.

(** On a total and transitive order the result is sorted. *)
Hypothesis leb_total : forall x y, leb x y = true \/ leb y x = true.
Hypothesis leb_trans :
  forall x y z, leb x y = true -> leb y z = true -> leb x z = true.

Lemma insert_sorted (x : A) (l : list A) :
  StronglySorted (fun a b => leb a b = true) l ->
  StronglySorted (fun a b => leb a b = true) (Py.insert leb x l).
Proof.
  induction 1 as [|y t Hs IH Hall]; simpl.
  - repeat constructor.
  - destruct (leb x y) eqn:Hxy.
    + constructor; [now constructor|].
      constructor; [exact Hxy|].
      rewrite Forall_forall in *. eauto.
    + constructor; [exact IH|].
      rewrite Forall_forall in *. intros z Hz.
      apply (Permutation_in _ (insert_perm x t)) in Hz.
      destruct Hz as [<-|Hz]; [|now apply Hall].
      destruct (leb_total x y) as [H|H]; congruence.
Qed.

Lemma sort_sorted (l : list A) :
  StronglySorted (fun a b => leb a b = true) (Py.sort leb l).
Proof.
  induction l as [|x t IH]; simpl; [constructor | now apply insert_sorted].
Qed.

End SortFacts.

(** A list that is already in order is left as it is. *)
Lemma sort_of_sorted {A} (leb : A -> A -> bool) (l : list A) :
  StronglySorted (fun a b => leb a b = true) l -> Py.sort leb l = l.
Proof.
  induction 1 as [|x t Hs IH Hall]; simpl; [reflexivity|].
  rewrite IH. destruct t as [|y t']; [reflexivity|].
  simpl. inversion Hall as [|? ? Hxy _]; subst. now rewrite Hxy.
Qed.

Lemma In_firstn {A} (n : nat) (l : list A) (x : A) :
  In x (firstn n l) -> In x l.
Proof.
  intros H. rewrite <- (firstn_skipn n l). apply in_or_app. now left.
Qed.

Lemma In_slice_to {A} (n : Z) (l : list A) (x : A) :
  In x (Py.slice_to n l) -> In x l.
Proof.
  unfold Py.slice_to. destruct (0 <=? n); apply In_firstn.
Qed.

Lemma slice_to_zero {A} (l : list A) : Py.slice_to 0 l = [].
Proof. reflexivity. Qed.

Lemma slice_to_nonneg {A} (n : Z) (l : list A) :
  0 <= n -> Py.slice_to n l = firstn (Z.to_nat n) l.
Proof.
  intros H. unfold Py.slice_to.
  now destruct (Z.leb_spec 0 n); [|lia].
Qed.

(** ** The world monad *)

Lemma bind_run {A B} (m : M A) (k : A -> M B) (w : World) :
  bind m k w = k (fst (m w)) (snd (m w)).
Proof. unfold bind. now destruct (m w). Qed.

(** ** C9: loading a file that does not exist *)

(** C9. When no file exists at the path, [load_from_file] ends without an
    exception, reports the condition on the standard output, and leaves the
    object (both stores and [current_session]) exactly as it was. *)
Theorem load_from_missing_file (filepath : string) (self : LongShortTermMemory)
  (w : World) :
  files w filepath = None ->
  let r := load_from_file filepath self w in
  fst (fst r) = None
  /\ snd (fst r) = self
  /\ short_term_store (snd (fst r)) = short_term_store self
  /\ long_term_store (snd (fst r)) = long_term_store self
  /\ current_session (snd (fst r)) = current_session self
  /\ stdout (snd r)
     = stdout w ++ [("No memory file found at " ++ filepath
                     ++ ", starting with empty memory")%string]
  /\ files (snd r) = files w.
Proof.
  intros Hmissing. unfold load_from_file, read_file, bind. simpl.
  rewrite Hmissing. simpl. repeat split; reflexivity.
Qed.

(** A missing file in the demo world. *)
Lemma load_from_missing_file_witness :
  let self := fst (demo_three_notes demo_world) in
  let r := load_from_file "agent_memory.json" self demo_world in
  fst (fst r) = None /\ snd (fst r) = self.
Proof.
  intros self r.
  destruct (@load_from_missing_file "agent_memory.json" self demo_world
              eq_refl) as (H1 & H2 & _).
  split; [exact H1 | exact H2].
Defined.

(** ** Retrieval *)

Lemma In_store_search (query : string) (limit : Z) (s : InMemoryStore)
  (e : MemoryEntry) :
  In e (store_search query limit s) -> In e (Py.values (memories s)).
Proof.
  unfold store_search. intros H.
  apply In_slice_to, In_sort, filter_In in H. tauto.
Qed.

(** The scoring loop keeps the candidates, in order. *)
Lemma score_loop_fst (query : string) (ctx : option context_dict)
  (candidates : list MemoryEntry) :
  forall (acc : list (MemoryEntry * float)) (w : World),
    map fst
      (fst (for_each candidates
              (fun memory scored =>
                 score <- calculate_relevance_score query memory ctx ;;
                 ret (scored ++ [(memory, score)]))
              acc w))
    = map fst acc ++ candidates.
Proof.
  induction candidates as [|m t IH]; intros acc w; simpl.
  - now rewrite app_nil_r.
  - rewrite bind_run, IH. rewrite bind_run. simpl.
    rewrite map_app, <- app_assoc. reflexivity.
Qed.

Lemma In_retrieve_relevant (s : InMemoryStore) (query : string)
  (ctx : option context_dict) (limit : Z) (w : World) (e : MemoryEntry) :
  In e (fst (retrieve_relevant s query ctx limit w)) ->
  In e (Py.values (memories s)).
Proof.
  unfold retrieve_relevant. rewrite bind_run. simpl. intros H.
  apply in_map_iff in H. destruct H as [[m q] [<- H]].
  apply In_slice_to, In_sort in H.
  apply (in_map fst) in H. rewrite score_loop_fst in H. simpl in H.
  now apply In_store_search in H.
Qed.

(** ** C10: small limits *)

(** C10 for every limit up to 1 does not hold.  At [limit = -1] Python's
    [-1 // 2] is [-1], the short-term search returns all its matches but the
    last, and with three matching short-term notes and an empty long-term
    store one of them is returned. *)
Lemma retrieve_limit_minus_one :
  ~ (forall limit, limit <= 1 -> only_long_term_results limit).
Proof.
  intros H.
  assert (Hneg : -1 <= 1) by lia.
  pose proof (H (-1) Hneg (fst (demo_three_notes demo_world)) "name"
                (snd (demo_three_notes demo_world))) as Hdemo.
  assert (Hlen : List.length
                   (fst (retrieve_memories "name" true (-1)
                           (fst (demo_three_notes demo_world))
                           (snd (demo_three_notes demo_world)))) = 1%nat)
    by (vm_compute; reflexivity).
  assert (Hlong : Py.values (memories (long_term_store
                                         (fst (demo_three_notes demo_world))))
                  = [])
    by (vm_compute; reflexivity).
  rewrite Hlong in Hdemo.
  destruct (fst (retrieve_memories "name" true (-1)
                   (fst (demo_three_notes demo_world))
                   (snd (demo_three_notes demo_world)))) as [|e t].
  - discriminate Hlen.
  - exact (Hdemo e (or_introl eq_refl)).
Qed.

(** C10, amended. With a limit of 0 or 1 the short-term search is asked
    for [limit // 2 = 0] results and contributes nothing: the call returns
    what it returns without the short-term store, and every returned entry
    is an entry of the long-term store. *)
Theorem retrieve_limit_zero_or_one (limit : Z) (self : LongShortTermMemory)
  (query : string) (w : World) :
  0 <= limit <= 1 ->
  limit / 2 = 0
  /\ store_search query (limit / 2) (short_term_store self) = []
  /\ retrieve_memories query true limit self w
     = retrieve_memories query false limit self w
  /\ forall e, In e (fst (retrieve_memories query true limit self w)) ->
               In e (Py.values (memories (long_term_store self))).
Proof.
  intros Hlimit.
  assert (Hhalf : limit / 2 = 0) by (apply Z.div_small; lia).
  assert (Hnone : store_search query (limit / 2) (short_term_store self) = []).
  { rewrite Hhalf. unfold store_search. apply slice_to_zero. }
  assert (Heq : retrieve_memories query true limit self w
                = retrieve_memories query false limit self w).
  { unfold retrieve_memories. rewrite !bind_run. cbv beta zeta.
    rewrite Hnone. now rewrite app_nil_r. }
  repeat split; try assumption.
  intros e He. rewrite Heq in He.
  unfold retrieve_memories in He. rewrite bind_run in He.
  cbv beta zeta in He. unfold ret in He. cbn [fst snd app] in He.
  apply In_slice_to, In_sort in He.
  now apply In_retrieve_relevant in He.
Qed.

Lemma retrieve_limit_zero_or_one_witness :
  retrieve_memories "name" true 1 (fst (demo_three_notes demo_world))
    (snd (demo_three_notes demo_world))
  = retrieve_memories "name" false 1 (fst (demo_three_notes demo_world))
      (snd (demo_three_notes demo_world)).
Proof.
  destruct (@retrieve_limit_zero_or_one 1
              (fst (demo_three_notes demo_world)) "name"
              (snd (demo_three_notes demo_world))) as (_ & _ & H & _).
  - lia.
  - exact H.
Defined.

(** ** The words that a query and a content share *)

Lemma str_in_list_In (s : string) (l : list string) :
  str_in_list s l = true <-> In s l.
Proof.
  unfold str_in_list. rewrite existsb_exists. split.
  - intros [x [Hin Heq]]. apply String.eqb_eq in Heq. now subst.
  - intros H. exists s. split; [exact H | apply String.eqb_refl].
Qed.

(** The keyword term counts every word that occurs in both texts once. *)
Lemma word_overlap_counts_common_words (query : string) (memory : MemoryEntry) :
  exists common : list string,
    word_overlap query memory = Py.len common
    /\ NoDup common
    /\ forall word, In word common <->
                    In word (Py.split_ws (Py.lower query))
                    /\ In word (Py.split_ws (Py.lower (content memory))).
Proof.
  unfold word_overlap, py_set. eexists. split; [reflexivity|]. split.
  - apply NoDup_filter, NoDup_nodup.
  - intros word. rewrite filter_In, str_in_list_In, !nodup_In. tauto.
Qed.

(** ** Dictionaries *)

Section DictFacts.
Variable V : Type.
Implicit Types (d : Py.dict V) (k : string) (v : V).

Lemma get_None_keys k d : Py.get k d = None <-> ~ In k (Py.keys d).
Proof.
  induction d as [|[k' v'] t IH]; simpl; [tauto|].
  destruct (String.eqb_spec k k') as [->|Hne].
  - split; [discriminate | intros H; exfalso; apply H; now left].
  - rewrite IH. split; [intros H [Heq|Hin]; [congruence | tauto] | tauto].
Qed.

Lemma mem_keys k d : Py.mem k d = true <-> In k (Py.keys d).
Proof.
  unfold Py.mem. destruct (Py.get k d) eqn:H.
  - split; [intros _ | reflexivity].
    destruct (in_dec string_dec k (Py.keys d)) as [Hin|Hout]; [exact Hin|].
    apply get_None_keys in Hout. congruence.
  - apply get_None_keys in H. split; [discriminate | tauto].
Qed.

Lemma set_keys k v d :
  Py.keys (Py.set k v d)
  = if Py.mem k d then Py.keys d else Py.keys d ++ [k].
Proof.
  induction d as [|[k' v'] t IH]; simpl; [reflexivity|].
  unfold Py.mem in *. simpl.
  destruct (String.eqb_spec k k') as [->|Hne]; simpl; [reflexivity|].
  rewrite IH. now destruct (Py.get k t).
Qed.

Lemma set_fresh k v d : ~ In k (Py.keys d) -> Py.set k v d = d ++ [(k, v)].
Proof.
  induction d as [|[k' v'] t IH]; simpl; intros H; [reflexivity|].
  destruct (String.eqb_spec k k') as [->|Hne]; [tauto|].
  rewrite IH; tauto.
Qed.

Lemma set_length k v d :
  List.length (Py.set k v d)
  = if Py.mem k d then List.length d else S (List.length d).
Proof.
  pose proof (set_keys k v d) as H.
  apply (f_equal (@List.length string)) in H.
  unfold Py.keys in H. rewrite length_map in H. rewrite H.
  destruct (Py.mem k d); rewrite ?length_app, length_map; simpl; lia.
Qed.

Lemma set_keys_NoDup k v d : NoDup (Py.keys d) -> NoDup (Py.keys (Py.set k v d)).
Proof.
  intros H. rewrite set_keys. destruct (Py.mem k d) eqn:Hm; [exact H|].
  assert (Hout : ~ In k (Py.keys d)).
  { intros Hin. apply mem_keys in Hin. congruence. }
  apply NoDup_rev in H. rewrite <- (rev_involutive (Py.keys d ++ [k])).
  apply NoDup_rev. rewrite rev_app_distr. simpl. constructor; [|exact H].
  now rewrite <- in_rev.
Qed.

Lemma In_set k v d (kv : string * V) :
  In kv (Py.set k v d) -> kv = (k, v) \/ In kv d.
Proof.
  induction d as [|[k' v'] t IH]; simpl.
  - intros [H|[]]; now left.
  - destruct (String.eqb k k'); simpl; intros [H|H]; auto.
    destruct (IH H); auto.
Qed.

Lemma filter_all {A} (f : A -> bool) (l : list A) :
  (forall x, In x l -> f x = true) -> filter f l = l.
Proof.
  induction l as [|x t IH]; simpl; intros H; [reflexivity|].
  rewrite (H x (or_introl eq_refl)), IH; auto.
Qed.

(** Without a repeated key, [del] removes what a filter on the key removes. *)
Lemma del_filter k d :
  NoDup (Py.keys d) ->
  Py.del k d = filter (fun kv => negb (String.eqb k (fst kv))) d.
Proof.
  induction d as [|[k' v'] t IH]; simpl; intros H; [reflexivity|].
  inversion H as [|? ? Hout Ht]; subst.
  destruct (String.eqb_spec k k') as [->|Hne]; simpl.
  - symmetry. apply filter_all. intros [k1 v1] Hin. simpl.
    destruct (String.eqb_spec k' k1) as [->|]; [|reflexivity].
    exfalso. apply Hout. now apply (in_map fst) in Hin.
  - now rewrite IH.
Qed.

Lemma keys_filter_NoDup (f : string * V -> bool) d :
  NoDup (Py.keys d) -> NoDup (Py.keys (filter f d)).
Proof.
  induction d as [|kv t IH]; simpl; intros H; [constructor|].
  inversion H as [|? ? Hout Ht]; subst.
  destruct (f kv); simpl; [|now apply IH].
  constructor; [|now apply IH].
  intros Hin. apply Hout. unfold Py.keys in *.
  apply in_map_iff in Hin. destruct Hin as [x [Hx Hin]].
  apply filter_In in Hin. rewrite <- Hx. apply in_map. tauto.
Qed.

Lemma filter_filter {A} (f g : A -> bool) (l : list A) :
  filter f (filter g l) = filter (fun x => andb (g x) (f x)) l.
Proof.
  induction l as [|x t IH]; simpl; [reflexivity|].
  destruct (g x); simpl; [destruct (f x)|]; now rewrite IH.
Qed.

End DictFacts.

Lemma NoDup_firstn {A} (n : nat) (l : list A) : NoDup l -> NoDup (firstn n l).
Proof.
  intros H. rewrite <- (firstn_skipn n l) in H.
  now apply NoDup_app_remove_r in H.
Qed.

(** ** Deleting entries from a store *)

Lemma store_delete_memories (k : string) (s : InMemoryStore) :
  NoDup (Py.keys (memories s)) ->
  memories (snd (store_delete k s))
  = filter (fun kv => negb (String.eqb k (fst kv))) (memories s).
Proof.
  intros H. unfold store_delete.
  destruct (Py.mem k (memories s)) eqn:Hm; simpl.
  - now apply del_filter.
  - symmetry. apply filter_all. intros [k1 v1] Hin. simpl.
    destruct (String.eqb_spec k k1) as [->|]; [|reflexivity].
    apply (in_map fst) in Hin. apply mem_keys in Hin. simpl in Hin.
    congruence.
Qed.

Lemma delete_all_memories (removed : list MemoryEntry) :
  forall s, NoDup (Py.keys (memories s)) ->
            memories (delete_all removed s) = without removed (memories s).
Proof.
  unfold delete_all, without.
  induction removed as [|m t IH]; intros s H; simpl.
  - symmetry. now apply filter_all.
  - rewrite IH.
    + rewrite (@store_delete_memories (id m) s H), filter_filter.
      apply filter_ext. intros [k v]. simpl.
      rewrite (String.eqb_sym k (id m)).
      now destruct (String.eqb (id m) k).
    + rewrite (@store_delete_memories (id m) s H). now apply keys_filter_NoDup.
Qed.

Lemma delete_all_index (removed : list MemoryEntry) :
  forall s, index (delete_all removed s) = index s.
Proof.
  unfold delete_all. induction removed as [|m t IH]; intros s; simpl;
    [reflexivity|].
  rewrite IH. unfold store_delete. now destruct (Py.mem (id m) (memories s)).
Qed.

Lemma dict_ok_filter (f : string * MemoryEntry -> bool)
  (d : Py.dict MemoryEntry) : dict_ok d -> dict_ok (filter f d).
Proof.
  intros [Hk Hid]. split; [now apply keys_filter_NoDup|].
  rewrite Forall_forall in *. intros kv Hin. apply filter_In in Hin.
  apply Hid. tauto.
Qed.

Lemma dict_ok_set (e : MemoryEntry) (d : Py.dict MemoryEntry) :
  dict_ok d -> dict_ok (Py.set (id e) e d).
Proof.
  intros [Hk Hid]. split; [now apply set_keys_NoDup|].
  rewrite Forall_forall in *. intros kv Hin.
  apply In_set in Hin. destruct Hin as [->|Hin]; [reflexivity | auto].
Qed.

Lemma dict_ok_ids (d : Py.dict MemoryEntry) :
  dict_ok d -> map id (Py.values d) = Py.keys d.
Proof.
  intros [_ Hid]. unfold Py.values, Py.keys. rewrite map_map.
  apply map_ext_in. rewrite Forall_forall in Hid. auto.
Qed.

Lemma filter_split_length {A} (f : A -> bool) (l : list A) :
  (List.length (filter (fun x => negb (f x)) l) + List.length (filter f l)
   = List.length l)%nat.
Proof.
  induction l as [|x t IH]; simpl; [reflexivity|].
  destruct (f x); simpl; lia.
Qed.

(** Removing entries that are in the dictionary, no id twice, shortens it by
    their number. *)
Lemma without_length (removed : list MemoryEntry) (d : Py.dict MemoryEntry) :
  dict_ok d -> NoDup (map id removed) -> incl removed (Py.values d) ->
  (List.length (without removed d) + List.length removed = List.length d)%nat.
Proof.
  intros Hok Hnd Hincl. unfold without.
  rewrite <- (filter_split_length
                (fun kv => str_in_list (fst kv) (map id removed)) d).
  f_equal.
  rewrite <- (length_map id removed).
  rewrite <- (length_map fst
                (filter (fun kv => str_in_list (fst kv) (map id removed)) d)).
  apply Permutation_length, NoDup_Permutation.
  - exact Hnd.
  - apply keys_filter_NoDup, Hok.
  - intros k. split.
    + intros Hin. apply in_map_iff in Hin. destruct Hin as [m [<- Hm]].
      assert (Hk : In (id m) (Py.keys d)).
      { rewrite <- (dict_ok_ids Hok). apply in_map. now apply Hincl. }
      unfold Py.keys in Hk. apply in_map_iff in Hk.
      destruct Hk as [kv [Hfst Hkv]].
      apply in_map_iff. exists kv. split; [exact Hfst|].
      apply filter_In. split; [exact Hkv|].
      apply str_in_list_In. rewrite Hfst. now apply in_map.
    + intros Hin. apply in_map_iff in Hin. destruct Hin as [kv [<- Hkv]].
      apply filter_In in Hkv. now apply str_in_list_In.
Qed.

(** The common part of the two capacity managers: the first
    [len - capacity] entries of the sorted values are deleted. *)
Lemma evict_front (leb : MemoryEntry -> MemoryEntry -> bool) (capacity : Z)
  (s : InMemoryStore) :
  store_ok s ->
  capacity < Py.len (memories s) ->
  let sorted := Py.sort leb (Py.values (memories s)) in
  let removed := Py.slice_to (Py.len sorted - capacity) sorted in
  memories (delete_all removed s) = without removed (memories s)
  /\ store_ok (delete_all removed s)
  /\ (0 <= capacity -> Py.len (memories (delete_all removed s)) = capacity).
Proof.
  intros Hok Hover sorted removed.
  assert (Hmem : memories (delete_all removed s)
                 = without removed (memories s))
    by (apply delete_all_memories, Hok).
  split; [exact Hmem|]. split.
  - unfold store_ok. rewrite Hmem. now apply dict_ok_filter.
  - intros Hcap. rewrite Hmem.
    assert (Hlen : List.length sorted = List.length (memories s)).
    { unfold sorted, Py.values. now rewrite sort_length, length_map. }
    assert (Hrem : Z.of_nat (List.length removed)
                   = Py.len (memories s) - capacity).
    { unfold removed. rewrite slice_to_nonneg by (unfold Py.len in *; lia).
      rewrite length_firstn. unfold Py.len in *. lia. }
    pose proof (@without_length removed (memories s) Hok) as Hcount.
    unfold Py.len in *.
    assert (Hnd : NoDup (map id removed)).
    { unfold removed, Py.slice_to.
      assert (Hs : NoDup (map id sorted)).
      { apply (Permutation_NoDup (l := map id (Py.values (memories s)))).
        - apply Permutation_map. symmetry. apply sort_perm.
        - rewrite (dict_ok_ids Hok). exact (proj1 Hok). }
      destruct (0 <=? Z.of_nat (List.length sorted) - capacity);
        rewrite <- firstn_map; now apply NoDup_firstn. }
    assert (Hincl : incl removed (Py.values (memories s))).
    { intros m Hm. unfold removed in Hm. apply In_slice_to in Hm.
      now apply In_sort in Hm. }
    specialize (Hcount Hnd Hincl). lia.
Qed.

(** ** C2: the capacity invariant *)

Lemma store_add_ok (entry : MemoryEntry) (s : InMemoryStore) :
  store_ok s -> store_ok (snd (store_add entry s)).
Proof. intros H. unfold store_ok, store_add. simpl. now apply dict_ok_set. Qed.

Lemma manage_short_term_capacity_ok (self : LongShortTermMemory) :
  store_ok (short_term_store self) ->
  let self' := manage_short_term_capacity self in
  store_ok (short_term_store self')
  /\ long_term_store self' = long_term_store self
  /\ short_term_capacity self' = short_term_capacity self
  /\ long_term_capacity self' = long_term_capacity self
  /\ (0 <= short_term_capacity self ->
      Py.len (memories (short_term_store self')) <= short_term_capacity self).
Proof.
  intros Hok. unfold manage_short_term_capacity.
  destruct (Z.ltb_spec (short_term_capacity self)
                       (Py.len (memories (short_term_store self))))
    as [Hover|Hfits]; cbv zeta.
  - destruct (@evict_front short_key_leb _ _ Hok Hover) as (_ & Hok' & Hlen).
    simpl. split; [exact Hok'|]. do 3 (split; [reflexivity|]).
    intros Hcap. rewrite (Hlen Hcap). lia.
  - split; [exact Hok|]. do 3 (split; [reflexivity|]).
    intros _. exact Hfits.
Qed.

Lemma manage_long_term_capacity_ok (self : LongShortTermMemory) :
  store_ok (long_term_store self) ->
  let self' := manage_long_term_capacity self in
  store_ok (long_term_store self')
  /\ short_term_store self' = short_term_store self
  /\ short_term_capacity self' = short_term_capacity self
  /\ long_term_capacity self' = long_term_capacity self
  /\ (0 <= long_term_capacity self ->
      Py.len (memories (long_term_store self')) <= long_term_capacity self).
Proof.
  intros Hok. unfold manage_long_term_capacity.
  destruct (Z.ltb_spec (long_term_capacity self)
                       (Py.len (memories (long_term_store self))))
    as [Hover|Hfits]; cbv zeta.
  - destruct (@evict_front long_key_leb _ _ Hok Hover) as (_ & Hok' & Hlen).
    simpl. split; [exact Hok'|]. do 3 (split; [reflexivity|]).
    intros Hcap. rewrite (Hlen Hcap). lia.
  - split; [exact Hok|]. do 3 (split; [reflexivity|]).
    intros _. exact Hfits.
Qed.

Lemma add_memory_invariant (cs cl : Z) (content : string)
  (memory_type : MemoryType) (priority : MemoryPriority)
  (ctx : option context_dict) (tags : option (list string))
  (self : LongShortTermMemory) (w : World) :
  0 <= cs -> 0 <= cl -> add_invariant cs cl self ->
  add_invariant cs cl
    (snd (fst (add_memory content memory_type priority ctx tags self w))).
Proof.
  intros Hcs Hcl (Hs & Hl & Hcaps & Hcapl & Hws & Hwl).
  unfold add_memory. rewrite !bind_run. cbv zeta.
  destruct (MemoryType_eqb memory_type SHORT_TERM); unfold ret; cbn [fst snd].
  - match goal with
    | |- add_invariant _ _ (manage_short_term_capacity ?x) =>
        destruct (@manage_short_term_capacity_ok x)
          as (H1 & H2 & H3 & H4 & H5)
    end.
    { cbn [short_term_store long_term_store with_short with_long].
      now apply store_add_ok. }
    unfold add_invariant, within_capacity.
    rewrite H2, H3, H4. simpl in *.
    split; [exact H1|]. do 3 (split; [assumption|]).
    split; [|exact Hwl]. apply H5. lia.
  - match goal with
    | |- add_invariant _ _ (manage_long_term_capacity ?x) =>
        destruct (@manage_long_term_capacity_ok x)
          as (H1 & H2 & H3 & H4 & H5)
    end.
    { cbn [short_term_store long_term_store with_short with_long].
      now apply store_add_ok. }
    unfold add_invariant, within_capacity.
    rewrite H2, H3, H4. simpl in *.
    split; [exact Hs|]. split; [exact H1|]. do 2 (split; [assumption|]).
    split; [exact Hws|]. apply H5. lia.
Qed.

Lemma add_trace_invariant (cs cl : Z) (calls : list add_call) :
  0 <= cs -> 0 <= cl ->
  forall (self : LongShortTermMemory) (w : World),
    add_invariant cs cl self ->
    Forall (add_invariant cs cl) (fst (add_trace calls self w)).
Proof.
  intros Hcs Hcl. induction calls as [|c rest IH]; intros self w Hinv; simpl.
  - constructor.
  - rewrite !bind_run. unfold ret. cbn [fst snd].
    assert (Hstep : add_invariant cs cl (fst (run_call c self w))).
    { unfold run_call. rewrite bind_run. unfold ret. cbn [fst snd].
      now apply add_memory_invariant. }
    constructor; [exact Hstep | now apply IH].
Qed.

(** C2 for all capacities does not hold.  The constructor accepts a negative
    capacity, and no store holds fewer than 0 entries: with
    [short_term_capacity = -1] a first note is added and evicted at once, the
    short-term store is empty when [add_memory] returns, and 0 is more than
    the capacity. *)
Lemma capacity_minus_one :
  ~ (forall (short_capacity long_capacity : Z) (calls : list add_call)
            (w : World),
       let fresh := LongShortTermMemory_init short_capacity long_capacity w in
       Forall (fun self =>
                 Py.len (memories (short_term_store self)) <= short_capacity
                 /\ Py.len (memories (long_term_store self)) <= long_capacity)
              (fst (add_trace calls (fst fresh) (snd fresh)))).
Proof.
  intros H.
  pose proof (H (-1) 1000 [note "User: my name is Alice" MEDIUM] demo_world)
    as Hdemo.
  cbv zeta in Hdemo.
  assert (Hlen : map (fun self => Py.len (memories (short_term_store self)))
                   (fst (add_trace [note "User: my name is Alice" MEDIUM]
                           (fst (LongShortTermMemory_init (-1) 1000
                                   demo_world))
                           (snd (LongShortTermMemory_init (-1) 1000
                                   demo_world))))
                 = [0])
    by (vm_compute; reflexivity).
  destruct (fst (add_trace [note "User: my name is Alice" MEDIUM]
                   (fst (LongShortTermMemory_init (-1) 1000 demo_world))
                   (snd (LongShortTermMemory_init (-1) 1000 demo_world))))
    as [|self rest].
  - discriminate Hlen.
  - inversion Hdemo as [|? ? (Hshort & _) _]. injection Hlen as Hzero _.
    rewrite Hzero in Hshort. lia.
Qed.

(** C2, amended.  Start from a freshly constructed [LongShortTermMemory]
    whose two capacities are not negative (the defaults are 100 and 1000).
    After each call of any sequence of [add_memory] calls, in any world, the
    short-term store holds at most [short_term_capacity] entries and the
    long-term store at most [long_term_capacity]. *)
Theorem capacity_invariant (short_capacity long_capacity : Z)
  (calls : list add_call) (w : World) :
  0 <= short_capacity -> 0 <= long_capacity ->
  let fresh := LongShortTermMemory_init short_capacity long_capacity w in
  Forall (fun self =>
            Py.len (memories (short_term_store self)) <= short_capacity
            /\ Py.len (memories (long_term_store self)) <= long_capacity)
         (fst (add_trace calls (fst fresh) (snd fresh))).
Proof.
  intros Hs Hl fresh.
  assert (Hinit : add_invariant short_capacity long_capacity (fst fresh)).
  { unfold fresh, LongShortTermMemory_init. rewrite bind_run.
    unfold ret, add_invariant, within_capacity, store_ok, dict_ok.
    cbn. repeat split; try constructor; assumption. }
  pose proof (@add_trace_invariant _ _ calls Hs Hl _ (snd fresh) Hinit) as H.
  eapply Forall_impl; [|exact H].
  intros self (_ & _ & <- & <- & Hw). exact Hw.
Qed.

(** Three notes into a short-term store of capacity 2. *)
Lemma capacity_invariant_witness :
  Forall (fun self =>
            Py.len (memories (short_term_store self)) <= 2
            /\ Py.len (memories (long_term_store self)) <= 1000)
         (fst (add_trace demo_notes
                 (fst (LongShortTermMemory_init 2 1000 demo_world))
                 (snd (LongShortTermMemory_init 2 1000 demo_world)))).
Proof.
  exact (@capacity_invariant 2 1000 demo_notes demo_world
           ltac:(lia) ltac:(lia)).
Defined.

(** ** C4: which entries the short-term store evicts *)

Lemma add_memory_short_step (content : string) (priority : MemoryPriority)
  (ctx : option context_dict) (tags : option (list string))
  (self : LongShortTermMemory) (w : World) :
  let entry := new_entry content SHORT_TERM priority ctx tags self w in
  let r := add_memory content SHORT_TERM priority ctx tags self w in
  snd (fst r)
  = manage_short_term_capacity
      (with_short (snd (store_add entry (short_term_store self))) self)
  /\ fst (fst r) = id entry
  /\ snd r = tick w.
Proof.
  unfold add_memory. rewrite !bind_run. repeat split; reflexivity.
Qed.

Lemma manage_short_term_capacity_evicts (self : LongShortTermMemory) :
  store_ok (short_term_store self) ->
  short_term_capacity self < Py.len (memories (short_term_store self)) ->
  let stored := memories (short_term_store self) in
  let sorted := Py.sort short_key_leb (Py.values stored) in
  let evicted :=
    firstn (Z.to_nat (Py.len stored - short_term_capacity self)) sorted in
  memories (short_term_store (manage_short_term_capacity self))
  = without evicted stored.
Proof.
  intros Hok Hover stored sorted evicted.
  unfold manage_short_term_capacity.
  destruct (Z.ltb_spec (short_term_capacity self)
                       (Py.len (memories (short_term_store self))));
    [|lia].
  cbv zeta. cbn [short_term_store with_short].
  destruct (@evict_front short_key_leb _ _ Hok Hover) as (Hmem & _).
  rewrite Hmem. fold stored. f_equal.
  assert (Hlen : Py.len (Py.sort short_key_leb (Py.values stored))
                 = Py.len stored).
  { unfold Py.len, Py.values. now rewrite sort_length, length_map. }
  rewrite Hlen. apply slice_to_nonneg. unfold stored. lia.
Qed.

Lemma short_key_leb_total (x y : MemoryEntry) :
  short_key_leb x y = true \/ short_key_leb y x = true.
Proof.
  unfold short_key_leb.
  destruct (Z.ltb_spec (MemoryPriority_value (priority x))
                       (MemoryPriority_value (priority y))); [now left|].
  destruct (Z.ltb_spec (MemoryPriority_value (priority y))
                       (MemoryPriority_value (priority x))); [now right|].
  replace (MemoryPriority_value (priority y))
    with (MemoryPriority_value (priority x)) by lia.
  rewrite Z.eqb_refl. simpl.
  destruct (Qle_bool (timestamp x) (timestamp y)) eqn:Hxy; [now left|].
  right. apply Qle_bool_iff.
  destruct (Qlt_le_dec (timestamp x) (timestamp y)) as [Hlt|Hle];
    [|exact Hle].
  apply Qlt_le_weak, Qle_bool_iff in Hlt. congruence.
Qed.

Lemma short_key_leb_trans (x y z : MemoryEntry) :
  short_key_leb x y = true -> short_key_leb y z = true ->
  short_key_leb x z = true.
Proof.
  unfold short_key_leb. intros Hxy Hyz.
  apply orb_true_iff in Hxy, Hyz. apply orb_true_iff.
  rewrite !andb_true_iff, !Z.ltb_lt, !Z.eqb_eq, !Qle_bool_iff in *.
  destruct Hxy as [Hxy|[Hxy Hq1]], Hyz as [Hyz|[Hyz Hq2]];
    try (left; lia).
  right. split; [lia|]. now apply (Qle_trans _ (timestamp y)).
Qed.

Lemma eviction_general (content : string) (priority : MemoryPriority)
  (ctx : option context_dict) (tags : option (list string))
  (self : LongShortTermMemory) (w : World) :
  store_ok (short_term_store self) ->
  let entry := new_entry content SHORT_TERM priority ctx tags self w in
  let added := Py.set (id entry) entry (memories (short_term_store self)) in
  let sorted := Py.sort short_key_leb (Py.values added) in
  let evicted :=
    firstn (Z.to_nat (Py.len added - short_term_capacity self)) sorted in
  short_term_capacity self < Py.len added ->
  memories (short_term_store
              (snd (fst (add_memory content SHORT_TERM priority ctx tags
                           self w))))
  = without evicted added
  /\ StronglySorted (fun a b => short_key_leb a b = true) sorted
  /\ Permutation sorted (Py.values added).
Proof.
  intros Hok entry added sorted evicted Hover.
  destruct (add_memory_short_step content priority ctx tags self w)
    as (Hstep & _). rewrite Hstep.
  split; [|split].
  - apply manage_short_term_capacity_evicts.
    + cbn [short_term_store with_short]. now apply store_add_ok.
    + exact Hover.
  - apply sort_sorted;
      [apply short_key_leb_total | apply short_key_leb_trans].
  - apply sort_perm.
Qed.

(** An addition that stays within the capacity appends the new entry. *)
Lemma add_memory_short_fits (content : string) (priority : MemoryPriority)
  (ctx : option context_dict) (tags : option (list string))
  (self : LongShortTermMemory) (w : World) :
  ~ In (uuids w 0%nat) (Py.keys (memories (short_term_store self))) ->
  Py.len (memories (short_term_store self)) < short_term_capacity self ->
  let self' :=
    snd (fst (add_memory content SHORT_TERM priority ctx tags self w)) in
  memories (short_term_store self')
  = memories (short_term_store self)
    ++ [(uuids w 0%nat,
         new_entry content SHORT_TERM priority ctx tags self w)]
  /\ short_term_capacity self' = short_term_capacity self
  /\ current_session self' = current_session self.
Proof.
  intros Hfresh Hfits self'.
  destruct (add_memory_short_step content priority ctx tags self w)
    as (Hstep & _). unfold self'. rewrite Hstep.
  unfold manage_short_term_capacity.
  cbn [short_term_store short_term_capacity with_short store_add snd
       memories].
  change (id (new_entry content SHORT_TERM priority ctx tags self w))
    with (uuids w 0%nat).
  rewrite set_fresh by exact Hfresh.
  match goal with
  | |- context [?a <? ?b] => destruct (Z.ltb_spec a b) as [Hover|_]
  end.
  - unfold Py.len in *. rewrite length_app in Hover. simpl in Hover. lia.
  - repeat split; reflexivity.
Qed.

Lemma run_call_short (c : add_call) (self : LongShortTermMemory) (w : World) :
  run_call c self w
  = (snd (fst (add_memory (call_content c) (call_type c) (call_priority c)
                 (call_context c) (call_tags c) self w)),
     tick w).
Proof.
  unfold run_call. rewrite bind_run. unfold ret.
  unfold add_memory. rewrite !bind_run.
  now destruct (MemoryType_eqb (call_type c) SHORT_TERM).
Qed.

Lemma add_all_cons (c : add_call) (rest : list add_call)
  (self : LongShortTermMemory) (w : World) :
  add_all (c :: rest) self w
  = add_all rest (fst (run_call c self w)) (snd (run_call c self w)).
Proof. unfold add_all. simpl. now rewrite bind_run. Qed.

Lemma new_entry_session (content : string) (memory_type : MemoryType)
  (priority : MemoryPriority) (ctx : option context_dict)
  (tags : option (list string)) (self self' : LongShortTermMemory)
  (w : World) :
  current_session self' = current_session self ->
  new_entry content memory_type priority ctx tags self' w
  = new_entry content memory_type priority ctx tags self w.
Proof. intros H. unfold new_entry. now rewrite H. Qed.

Lemma eviction_low_low_high (self : LongShortTermMemory) (w : World)
  (c1 c2 c3 : string) (x1 x2 x3 : option context_dict)
  (g1 g2 g3 : option (list string)) :
  memories (short_term_store self) = [] ->
  short_term_capacity self = 2 ->
  uuids w 0%nat <> uuids w 1%nat ->
  uuids w 0%nat <> uuids w 2%nat ->
  uuids w 1%nat <> uuids w 2%nat ->
  let e1 := new_entry c1 SHORT_TERM LOW x1 g1 self w in
  let e2 := new_entry c2 SHORT_TERM LOW x2 g2 self (tick w) in
  let e3 := new_entry c3 SHORT_TERM HIGH x3 g3 self (tick (tick w)) in
  let final :=
    fst (add_all [ mkCall c1 SHORT_TERM LOW x1 g1;
                   mkCall c2 SHORT_TERM LOW x2 g2;
                   mkCall c3 SHORT_TERM HIGH x3 g3 ] self w) in
  exists evicted kept : MemoryEntry,
    (evicted = e1 /\ kept = e2 \/ evicted = e2 /\ kept = e1)
    /\ priority evicted = LOW
    /\ (timestamp evicted <= timestamp kept)%Q
    /\ Py.values (memories (short_term_store final)) = [kept; e3].
Proof.
  intros Hempty Hcap H01 H02 H12 e1 e2 e3 final.
  destruct (@add_memory_short_fits c1 LOW x1 g1 self w) as (M1 & C1 & S1).
  { rewrite Hempty. simpl. tauto. }
  { rewrite Hempty, Hcap. unfold Py.len. simpl. lia. }
  set (self1 := snd (fst (add_memory c1 SHORT_TERM LOW x1 g1 self w))) in *.
  destruct (@add_memory_short_fits c2 LOW x2 g2 self1 (tick w))
    as (M2 & C2 & S2).
  { rewrite M1, Hempty. simpl. intros [H|[]]. now apply H01. }
  { rewrite M1, Hempty, C1, Hcap. unfold Py.len. simpl. lia. }
  set (self2 := snd (fst (add_memory c2 SHORT_TERM LOW x2 g2 self1 (tick w))))
    in *.
  rewrite (@new_entry_session c2 SHORT_TERM LOW x2 g2 self self1 (tick w) S1)
    in M2. fold e1 in M1. fold e2 in M2.
  rewrite M1, Hempty in M2. simpl in M2.
  assert (Hok : store_ok (short_term_store self2)).
  { unfold store_ok, dict_ok. rewrite M2. split.
    - simpl. repeat constructor; simpl; intuition.
    - repeat constructor. }
  assert (S12 : current_session self2 = current_session self)
    by now rewrite S2.
  pose proof (@eviction_general c3 HIGH x3 g3 self2 (tick (tick w)) Hok)
    as Hev.
  rewrite (@new_entry_session c3 SHORT_TERM HIGH x3 g3 self self2
             (tick (tick w)) S12) in Hev. fold e3 in Hev.
  cbv zeta in Hev. rewrite M2, C2, C1, Hcap in Hev.
  change (id e3) with (uuids w 2%nat) in Hev.
  change (uuids (tick w) 0%nat) with (uuids w 1%nat) in Hev.
  assert (Hfinal : final
                   = snd (fst (add_memory c3 SHORT_TERM HIGH x3 g3 self2
                                 (tick (tick w))))).
  { unfold final. rewrite !add_all_cons, !run_call_short. reflexivity. }
  rewrite Hfinal. clear Hfinal final.
  assert (Hset : Py.set (uuids w 2%nat) e3
                   [(uuids w 0%nat, e1); (uuids w 1%nat, e2)]
                 = [(uuids w 0%nat, e1); (uuids w 1%nat, e2);
                    (uuids w 2%nat, e3)]).
  { apply set_fresh. simpl. intros [H|[H|[]]]; congruence. }
  rewrite Hset in Hev.
  destruct Hev as (Hmem & _); [unfold Py.len; simpl; lia|].
  rewrite Hmem.
  change (Z.to_nat (Py.len [(uuids w 0%nat, e1); (uuids w 1%nat, e2);
                            (uuids w 2%nat, e3)] - 2)) with 1%nat.
  assert (H23 : short_key_leb e2 e3 = true) by reflexivity.
  assert (H13 : short_key_leb e1 e3 = true) by reflexivity.
  assert (H12' : short_key_leb e1 e2
                 = Qle_bool (timestamp e1) (timestamp e2)) by reflexivity.
  assert (E10 : String.eqb (uuids w 1%nat) (uuids w 0%nat) = false)
    by (apply String.eqb_neq; congruence).
  assert (E20 : String.eqb (uuids w 2%nat) (uuids w 0%nat) = false)
    by (apply String.eqb_neq; congruence).
  assert (E01 : String.eqb (uuids w 0%nat) (uuids w 1%nat) = false)
    by (apply String.eqb_neq; congruence).
  assert (E21 : String.eqb (uuids w 2%nat) (uuids w 1%nat) = false)
    by (apply String.eqb_neq; congruence).
  unfold Py.values. cbn [map snd Py.sort Py.insert].
  rewrite H23. cbn [Py.insert]. rewrite H12'.
  destruct (Qle_bool (timestamp e1) (timestamp e2)) eqn:Hq.
  - exists e1, e2. split; [now left|]. split; [reflexivity|].
    split; [now apply Qle_bool_iff|].
    unfold without, str_in_list. cbn [firstn map existsb filter fst snd].
    change (id e1) with (uuids w 0%nat).
    rewrite String.eqb_refl, E10, E20. reflexivity.
  - rewrite H13. exists e2, e1. split; [now right|]. split; [reflexivity|].
    split.
    + destruct (Qlt_le_dec (timestamp e1) (timestamp e2)) as [Hlt|Hle];
        [|exact Hle].
      apply Qlt_le_weak, Qle_bool_iff in Hlt. congruence.
    + unfold without, str_in_list. cbn [firstn map existsb filter fst snd].
      change (id e2) with (uuids w 1%nat).
      rewrite String.eqb_refl, E01, E21. reflexivity.
Qed.

Lemma appended_session (calls : list add_call) :
  forall (self self' : LongShortTermMemory) (w : World),
    current_session self' = current_session self ->
    appended calls self' w = appended calls self w.
Proof.
  induction calls as [|c rest IH]; intros self self' w H; simpl;
    [reflexivity|].
  now rewrite (IH self self' (tick w) H),
    (@new_entry_session (call_content c) (call_type c) (call_priority c)
       (call_context c) (call_tags c) self self' w H).
Qed.

Lemma uuids_tick (w : World) (l : list nat) :
  map (uuids (tick w)) l = map (uuids w) (map S l).
Proof. rewrite map_map. reflexivity. Qed.

(** While the capacity is not exceeded and the identifiers are new, a
    sequence of short-term additions appends its entries in order. *)
Lemma add_all_fits (calls : list add_call) :
  forall (self : LongShortTermMemory) (w : World),
    Forall (fun c => call_type c = SHORT_TERM) calls ->
    NoDup (Py.keys (memories (short_term_store self))
           ++ map (uuids w) (seq 0 (List.length calls))) ->
    Py.len (memories (short_term_store self)) + Py.len calls
    <= short_term_capacity self ->
    let r := add_all calls self w in
    memories (short_term_store (fst r))
    = memories (short_term_store self) ++ appended calls self w
    /\ short_term_capacity (fst r) = short_term_capacity self
    /\ current_session (fst r) = current_session self
    /\ snd r = Nat.iter (List.length calls) tick w.
Proof.
  induction calls as [|c rest IH]; intros self w Htypes Hnd Hfit.
  - simpl. rewrite app_nil_r. repeat split; reflexivity.
  - inversion Htypes as [|? ? Hc Hrest]; subst.
    cbv zeta. rewrite add_all_cons, run_call_short. cbn [fst snd].
    rewrite Hc.
    simpl List.length in Hnd. rewrite <- cons_seq in Hnd.
    cbn [map] in Hnd.
    destruct (@add_memory_short_fits (call_content c) (call_priority c)
                (call_context c) (call_tags c) self w) as (M1 & C1 & S1).
    { apply NoDup_remove_2 in Hnd. intros Hin. apply Hnd.
      apply in_or_app. now left. }
    { unfold Py.len in *. simpl List.length in Hfit. lia. }
    set (self1 := snd (fst (add_memory (call_content c) SHORT_TERM
                              (call_priority c) (call_context c)
                              (call_tags c) self w))) in *.
    destruct (IH self1 (tick w) Hrest) as (M & C & S & W).
    { rewrite M1. unfold Py.keys. rewrite map_app. cbn [map fst].
      rewrite <- app_assoc. cbn [app].
      rewrite uuids_tick, seq_shift. exact Hnd. }
    { rewrite M1, C1. unfold Py.len in *. rewrite length_app.
      simpl List.length in *. lia. }
    rewrite M, M1, C, C1, S, S1, W, <- app_assoc.
    rewrite (appended_session rest self self1 (tick w) S1).
    cbn [appended app]. rewrite Hc.
    repeat split; try reflexivity.
    simpl List.length. now rewrite Nat.iter_succ_r.
Qed.

Lemma add_all_app (l1 l2 : list add_call) (self : LongShortTermMemory)
  (w : World) :
  add_all (l1 ++ l2) self w
  = add_all l2 (fst (add_all l1 self w)) (snd (add_all l1 self w)).
Proof.
  revert self w. induction l1 as [|c rest IH]; intros self w.
  - reflexivity.
  - rewrite <- app_comm_cons. now rewrite !add_all_cons, IH.
Qed.

Lemma short_key_leb_older (a b : MemoryEntry) :
  priority a = priority b -> (timestamp a < timestamp b)%Q ->
  short_key_leb a b = true.
Proof.
  intros Hp Ht. unfold short_key_leb. rewrite Hp, Z.ltb_irrefl, Z.eqb_refl.
  simpl. now apply Qle_bool_iff, Qlt_le_weak.
Qed.

Lemma eviction_six (self : LongShortTermMemory) (w : World)
  (p : MemoryPriority) (c : nat -> string) (x : nat -> option context_dict)
  (g : nat -> option (list string)) :
  memories (short_term_store self) = [] ->
  short_term_capacity self = 5 ->
  NoDup (map (uuids w) (seq 0 6)) ->
  (forall i j, (i < j < 6)%nat -> (clock w i < clock w j)%Q) ->
  let call i := mkCall (c i) SHORT_TERM p (x i) (g i) in
  let e i :=
    new_entry (c i) SHORT_TERM p (x i) (g i) self (Nat.iter i tick w) in
  let final := fst (add_all (map call (seq 0 6)) self w) in
  Py.values (memories (short_term_store final)) = map e (seq 1 5)
  /\ Py.len (memories (short_term_store final)) = 5
  /\ forall i, In i (seq 1 5) -> (timestamp (e 0%nat) < timestamp (e i))%Q.
Proof.
  intros Hempty Hcap Hids Hclock call e final.
  assert (Hsplit : map call (seq 0 6)
                   = map call (seq 0 5) ++ [call 5%nat]) by reflexivity.
  destruct (@add_all_fits (map call (seq 0 5)) self w) as (M & C & S & W).
  { repeat constructor. }
  { rewrite Hempty. cbn [Py.keys map app List.length].
    change (seq 0 6) with (seq 0 5 ++ [5%nat]) in Hids.
    rewrite map_app in Hids. now apply NoDup_app_remove_r in Hids. }
  { rewrite Hempty, Hcap. unfold Py.len. simpl. lia. }
  set (r5 := add_all (map call (seq 0 5)) self w) in *.
  assert (Hfinal : final
                   = snd (fst (add_memory (c 5%nat) SHORT_TERM p (x 5%nat)
                                 (g 5%nat) (fst r5) (snd r5)))).
  { unfold final. rewrite Hsplit, add_all_app. fold r5.
    now rewrite add_all_cons, run_call_short. }
  set (item := fun i : nat => (uuids w i, e i)).
  assert (M' : memories (short_term_store (fst r5)) = map item (seq 0 5)).
  { rewrite M, Hempty. reflexivity. }
  assert (Hids5 : NoDup (map (uuids w) (seq 0 5))).
  { change (seq 0 6) with (seq 0 5 ++ [5%nat]) in Hids.
    rewrite map_app in Hids. now apply NoDup_app_remove_r in Hids. }
  assert (Hok : store_ok (short_term_store (fst r5))).
  { unfold store_ok, dict_ok. rewrite M'. split.
    - exact Hids5.
    - repeat constructor. }
  pose proof (@eviction_general (c 5%nat) p (x 5%nat) (g 5%nat) (fst r5)
                (snd r5) Hok) as Hev.
  cbv zeta in Hev.
  rewrite (@new_entry_session (c 5%nat) SHORT_TERM p (x 5%nat) (g 5%nat)
             self (fst r5) (snd r5) S) in Hev.
  rewrite W in Hev, Hfinal.
  change (Nat.iter (List.length (map call (seq 0 5))) tick w)
    with (Nat.iter 5 tick w) in Hev, Hfinal.
  change (new_entry (c 5%nat) SHORT_TERM p (x 5%nat) (g 5%nat) self
            (Nat.iter 5 tick w)) with (e 5%nat) in Hev.
  change (id (e 5%nat)) with (uuids w 5%nat) in Hev.
  rewrite M', C, Hcap in Hev.
  assert (Hset : Py.set (uuids w 5%nat) (e 5%nat) (map item (seq 0 5))
                 = map item (seq 0 6)).
  { rewrite set_fresh; [reflexivity|].
    change (seq 0 6) with (seq 0 5 ++ [5%nat]) in Hids.
    rewrite map_app in Hids. apply NoDup_remove_2 in Hids.
    rewrite app_nil_r in Hids. exact Hids. }
  rewrite Hset in Hev.
  destruct Hev as (Hmem & _); [unfold Py.len; simpl; lia|].
  assert (Hvalues : Py.values (map item (seq 0 6)) = map e (seq 0 6))
    by reflexivity.
  assert (Hsorted : Py.sort short_key_leb (map e (seq 0 6))
                    = map e (seq 0 6)).
  { apply sort_of_sorted. cbn [map seq].
    repeat (constructor;
            [|repeat (constructor;
                      [apply short_key_leb_older;
                       [reflexivity | apply Hclock; lia]|]);
              constructor]).
    constructor. }
  rewrite Hvalues, Hsorted in Hmem.
  change (Z.to_nat (Py.len (map item (seq 0 6)) - 5)) with 1%nat in Hmem.
  assert (Hne : forall i, (0 < i < 6)%nat ->
                          String.eqb (uuids w i) (uuids w 0%nat) = false).
  { intros i Hi. apply String.eqb_neq. intros Heq.
    cbn [map seq] in Hids. apply NoDup_cons_iff in Hids.
    apply (proj1 Hids). rewrite <- Heq.
    change (In (uuids w i) (map (uuids w) (seq 1 5))).
    apply in_map, in_seq. lia. }
  rewrite Hfinal, Hmem.
  unfold without, str_in_list.
  cbn [firstn map seq existsb filter fst snd item Py.values].
  change (id (e 0%nat)) with (uuids w 0%nat).
  rewrite String.eqb_refl, !Hne by lia.
  cbn [orb negb map snd Py.len List.length].
  split; [reflexivity|]. split; [reflexivity|].
  intros i Hi. change (In i (seq 1 5)) in Hi. apply in_seq in Hi.
  change (clock w 0%nat < clock (Nat.iter i tick w) 0%nat)%Q.
  assert (Hc : forall n, clock (Nat.iter n tick w) 0%nat = clock w n).
  { clear. intros n.
    assert (H : forall m, clock (Nat.iter n tick w) m = clock w (m + n)%nat).
    { induction n as [|n IH]; intros m; simpl.
      - now rewrite Nat.add_0_r.
      - rewrite (IH (S m)). f_equal. lia. }
    apply H. }
  rewrite Hc. apply Hclock. lia.
Qed.

(** C4. (1) When an [add_memory] call makes the short-term store exceed its
    capacity, the store is left with the entries it had after the addition
    less the evicted ones, and the evicted ones are the first
    [len - capacity] entries (the excess) of the values sorted in ascending
    order of (priority value, timestamp).
    (2) Entries of priorities low, low, high added in that order to an empty
    store of capacity 2: the evicted entry is a low one whose timestamp is
    not later than that of the other low one, and the other low one and the
    high one remain.
    (3) Six entries of one priority with increasing timestamps added to an
    empty store of capacity 5: exactly five remain, the second to the sixth,
    and the removed first one has the earliest timestamp. *)
Theorem short_term_eviction_order :
  (forall (content : string) (priority : MemoryPriority)
          (ctx : option context_dict) (tags : option (list string))
          (self : LongShortTermMemory) (w : World),
      store_ok (short_term_store self) ->
      let entry := new_entry content SHORT_TERM priority ctx tags self w in
      let added :=
        Py.set (id entry) entry (memories (short_term_store self)) in
      let sorted := Py.sort short_key_leb (Py.values added) in
      let evicted :=
        firstn (Z.to_nat (Py.len added - short_term_capacity self)) sorted in
      short_term_capacity self < Py.len added ->
      memories (short_term_store
                  (snd (fst (add_memory content SHORT_TERM priority ctx tags
                               self w))))
      = without evicted added
      /\ StronglySorted (fun a b => short_key_leb a b = true) sorted
      /\ Permutation sorted (Py.values added)
      /\ (0 <= short_term_capacity self ->
          Py.len evicted = Py.len added - short_term_capacity self))
  /\ (forall (self : LongShortTermMemory) (w : World) (c1 c2 c3 : string)
             (x1 x2 x3 : option context_dict)
             (g1 g2 g3 : option (list string)),
         memories (short_term_store self) = [] ->
         short_term_capacity self = 2 ->
         uuids w 0%nat <> uuids w 1%nat ->
         uuids w 0%nat <> uuids w 2%nat ->
         uuids w 1%nat <> uuids w 2%nat ->
         let e1 := new_entry c1 SHORT_TERM LOW x1 g1 self w in
         let e2 := new_entry c2 SHORT_TERM LOW x2 g2 self (tick w) in
         let e3 := new_entry c3 SHORT_TERM HIGH x3 g3 self (tick (tick w)) in
         let final :=
           fst (add_all [ mkCall c1 SHORT_TERM LOW x1 g1;
                          mkCall c2 SHORT_TERM LOW x2 g2;
                          mkCall c3 SHORT_TERM HIGH x3 g3 ] self w) in
         exists evicted kept : MemoryEntry,
           (evicted = e1 /\ kept = e2 \/ evicted = e2 /\ kept = e1)
           /\ priority evicted = LOW
           /\ (timestamp evicted <= timestamp kept)%Q
           /\ Py.values (memories (short_term_store final)) = [kept; e3])
  /\ (forall (self : LongShortTermMemory) (w : World) (p : MemoryPriority)
             (c : nat -> string) (x : nat -> option context_dict)
             (g : nat -> option (list string)),
         memories (short_term_store self) = [] ->
         short_term_capacity self = 5 ->
         NoDup (map (uuids w) (seq 0 6)) ->
         (forall i j, (i < j < 6)%nat -> (clock w i < clock w j)%Q) ->
         let call i := mkCall (c i) SHORT_TERM p (x i) (g i) in
         let e i :=
           new_entry (c i) SHORT_TERM p (x i) (g i) self
             (Nat.iter i tick w) in
         let final := fst (add_all (map call (seq 0 6)) self w) in
         Py.values (memories (short_term_store final)) = map e (seq 1 5)
         /\ Py.len (memories (short_term_store final)) = 5
         /\ forall i, In i (seq 1 5) ->
                      (timestamp (e 0%nat) < timestamp (e i))%Q).
Proof.
  split; [|split].
  - intros content priority ctx tags self w Hok entry added sorted evicted
           Hover.
    destruct (@eviction_general content priority ctx tags self w Hok Hover)
      as (Hmem & Hsorted & Hperm).
    split; [exact Hmem|]. split; [exact Hsorted|]. split; [exact Hperm|].
    intros Hcap. unfold evicted, Py.len. rewrite length_firstn.
    assert (Hlen : List.length sorted = List.length added).
    { unfold sorted, Py.values. now rewrite sort_length, length_map. }
    unfold Py.len in Hover. lia.
  - apply eviction_low_low_high.
  - apply eviction_six.
Qed.

(** The third note into a store of capacity 2 evicts the first one. *)
Lemma short_term_eviction_order_witness :
  let r0 := LongShortTermMemory_init 2 1000 demo_world in
  let r2 := add_all (firstn 2 demo_notes) (fst r0) (snd r0) in
  Py.keys (memories
             (short_term_store
                (snd (fst (add_memory "User: a name tag" SHORT_TERM MEDIUM
                             None None (fst r2) (snd r2))))))
  = ["id-2"; "id-3"].
Proof.
  intros r0 r2.
  destruct (proj1 short_term_eviction_order "User: a name tag" MEDIUM None
              None (fst r2) (snd r2)) as (Hmem & _).
  - split; [|repeat constructor].
    vm_compute. repeat constructor; simpl; intuition discriminate.
  - vm_compute. reflexivity.
  - rewrite Hmem. vm_compute. reflexivity.
Defined.

(** ** The heap of list objects *)







Lemma NoDup_snoc {A} (l : list A) (x : A) :
  NoDup l -> ~ In x l -> NoDup (l ++ [x]).
Proof.
  intros Hnd Hout. apply NoDup_rev in Hnd.
  rewrite <- (rev_involutive (l ++ [x])). apply NoDup_rev.
  rewrite rev_app_distr. simpl. constructor; [|exact Hnd].
  now rewrite <- in_rev.
Qed.

Lemma ctx_val_eqb_refl (v : ctx_val) : ctx_val_eqb v v = true.
Proof.
  destruct v; simpl;
    [apply String.eqb_refl | apply eqb_reflx | apply Z.eqb_refl | reflexivity].
Qed.

(** ** The two embeddings of [compress_memories] agree *)










(** ** C8: four entries of one session *)








(** ** C3: saving and loading *)

Lemma MemoryEntry_init_constructed (i c : string) (t : MemoryType)
  (p : MemoryPriority) (ts : Q) (ac : Z) (la : Q)
  (ctx : option context_dict) (emb : option (list Q)) (s : option string)
  (tg : option (list string)) :
  constructed (MemoryEntry_init i c t p ts ac la ctx emb s tg).
Proof.
  unfold constructed, MemoryEntry_init. simpl.
  destruct (Qeq_bool la 0) eqn:H; [reflexivity | congruence].
Qed.

Lemma MemoryType_of_value_value (t : MemoryType) :
  MemoryType_of_value (JStr (MemoryType_value t)) = inr t.
Proof. destruct t; reflexivity. Qed.

Lemma MemoryPriority_of_value_value (p : MemoryPriority) :
  MemoryPriority_of_value (JInt (MemoryPriority_value p)) = inr p.
Proof. destruct p; reflexivity. Qed.

Lemma decode_list_map {A B} (enc : B -> A) (dec : A -> option B)
  (l : list B) :
  (forall b, dec (enc b) = Some b) ->
  decode_list dec (map enc l) = Some l.
Proof.
  intros H. induction l as [|b t IH]; simpl; [reflexivity|].
  now rewrite H, IH.
Qed.

Lemma json_to_context_encode (c : context_dict) :
  json_to_context
    (JObj (map (fun kv => (fst kv, ctx_val_to_json (snd kv))) c))
  = Some c.
Proof.
  unfold json_to_context. apply decode_list_map.
  intros [k v]. simpl. now destruct v.
Qed.

Lemma decode_optional_context (c : context_dict) :
  decode_optional json_to_context
    (Some (JObj (map (fun kv => (fst kv, ctx_val_to_json (snd kv))) c)))
  = Some (Some c).
Proof. unfold decode_optional. now rewrite json_to_context_encode. Qed.

Lemma decode_optional_embedding (emb : option (list Q)) :
  decode_optional json_to_floats
    (Some (opt_to_json (fun l => JArr (map JFloat l)) emb))
  = Some emb.
Proof.
  destruct emb as [l|]; simpl; [|reflexivity].
  now rewrite (decode_list_map JFloat json_to_float l (fun b => eq_refl)).
Qed.

Lemma decode_optional_summary (s : option string) :
  decode_optional json_to_str (Some (opt_to_json JStr s)) = Some s.
Proof. now destruct s. Qed.

Lemma decode_optional_tags (tg : list string) :
  decode_optional json_to_strs (Some (JArr (map JStr tg))) = Some (Some tg).
Proof.
  simpl.
  now rewrite (decode_list_map JStr json_to_str tg (fun b => eq_refl)).
Qed.

(** Decoding the dictionary of an entry gives the entry back. *)
Lemma from_dict_to_dict (e : MemoryEntry) :
  constructed e -> from_dict (to_dict e) = inr e.
Proof.
  intros Hc. destruct e as [i c t p ts ac la ctx emb s tg].
  unfold constructed in Hc. simpl in Hc.
  unfold from_dict, to_dict.
  cbn [Py.get String.eqb Ascii.eqb Bool.eqb id content memory_type priority
       timestamp access_count last_accessed context embedding summary tags].
  rewrite MemoryType_of_value_value, MemoryPriority_of_value_value.
  cbn [forallb fst str_in_list existsb field_names String.eqb Ascii.eqb
       Bool.eqb orb andb].
  unfold required, or_outside.
  cbn [Py.get String.eqb Ascii.eqb Bool.eqb json_to_str json_to_float
       json_to_int].
  rewrite decode_optional_context, decode_optional_embedding,
    decode_optional_summary, decode_optional_tags.
  unfold MemoryEntry_init. f_equal. f_equal.
  destruct (Qeq_bool la 0) eqn:Hla; [|reflexivity].
  symmetry. now apply Hc.
Qed.

Lemma load_entries_to_dict (l : list MemoryEntry) :
  Forall constructed l ->
  forall s, load_entries (map to_dict l) s
            = (None, fold_left (fun s e => snd (store_add e s)) l s).
Proof.
  induction 1 as [|e t He Ht IH]; intros s;
    cbn [map load_entries fold_left]; [reflexivity|].
  rewrite (from_dict_to_dict He). apply IH.
Qed.




(** *** The embedding over arbitrary contexts agrees with the typed one *)

Lemma json_dump_lifted_context (c : context_dict) :
  Any.json_dump
    (Any.PDict (map (fun kv => (Any.PStr (fst kv), lift_value (snd kv))) c))
  = inr (JObj (map (fun kv => (fst kv, ctx_val_to_json (snd kv))) c)).
Proof.
  cbn [Any.json_dump].
  match goal with
  | |- match ?F _ with _ => _ end = _ =>
      assert (H : F (map (fun kv => (Any.PStr (fst kv), lift_value (snd kv)))
                       c)
                  = inr (map (fun kv => (fst kv, ctx_val_to_json (snd kv)))
                           c))
  end.
  { induction c as [|[k v] t IH]; [reflexivity|].
    cbn [map fst snd Any.json_key]. rewrite IH.
    destruct v; reflexivity. }
  now rewrite H.
Qed.

(** On a typed entry [to_dict] followed by [json.dump] writes the document
    of the typed [to_dict]. *)
Lemma any_to_dict_lift (e : MemoryEntry) :
  Any.to_dict (lift e) = inr (to_dict e).
Proof.
  unfold Any.to_dict, lift. cbn [Any.context].
  now rewrite json_dump_lifted_context.
Qed.

Lemma fold_set_fresh {V} (items : Py.dict V) :
  forall acc : Py.dict V,
    NoDup (Py.keys acc ++ Py.keys items) ->
    fold_left (fun d kv => Py.set (fst kv) (snd kv) d) items acc
    = acc ++ items.
Proof.
  induction items as [|[k v] t IH]; intros acc Hnd; cbn [fold_left fst snd].
  - now rewrite app_nil_r.
  - assert (Hk : ~ In k (Py.keys acc)).
    { cbn [Py.keys map fst] in Hnd. apply NoDup_remove_2 in Hnd.
      intros H. apply Hnd. apply in_or_app. now left. }
    rewrite (@set_fresh _ k v acc Hk). rewrite IH.
    + now rewrite <- app_assoc.
    + unfold Py.keys in *. rewrite map_app, <- app_assoc. exact Hnd.
Qed.

Lemma json_load_written_context (c : context_dict) :
  NoDup (Py.keys c) ->
  Any.json_load (JObj (map (fun kv => (fst kv, ctx_val_to_json (snd kv))) c))
  = Any.PDict (map (fun kv => (Any.PStr (fst kv), lift_value (snd kv))) c).
Proof.
  intros Hnd. cbn [Any.json_load]. f_equal.
  rewrite fold_set_fresh.
  - rewrite app_nil_l, !map_map. apply map_ext. intros [k v]. cbn [fst snd].
    destruct v; reflexivity.
  - cbn [Py.keys map app]. unfold Py.keys in *. rewrite !map_map.
    cbn [fst]. exact Hnd.
Qed.

(** On the document of a typed entry whose context has each key once,
    [json.load] followed by [from_dict] builds the typed entry. *)
Lemma any_from_dict_lift (e : MemoryEntry) :
  constructed e -> NoDup (Py.keys (context e)) ->
  Any.from_dict (to_dict e) = inr (lift e).
Proof.
  intros Hc Hnd. destruct e as [i c t p ts ac la ctx emb s tg].
  unfold constructed in Hc. simpl in Hc. cbn [context] in Hnd.
  unfold Any.from_dict, to_dict.
  cbn [Py.get String.eqb Ascii.eqb Bool.eqb id content memory_type priority
       timestamp access_count last_accessed context embedding summary tags].
  rewrite MemoryType_of_value_value, MemoryPriority_of_value_value.
  cbn [forallb fst str_in_list existsb field_names String.eqb Ascii.eqb
       Bool.eqb orb andb].
  unfold Any.required, Any.or_outside.
  cbn [Py.get String.eqb Ascii.eqb Bool.eqb json_to_str json_to_float
       json_to_int].
  unfold Any.loaded_context. rewrite (@json_load_written_context ctx Hnd).
  rewrite decode_optional_embedding, decode_optional_summary,
    decode_optional_tags.
  unfold Any.MemoryEntry_init, lift.
  cbn [id content memory_type priority timestamp access_count last_accessed
       context embedding summary tags].
  f_equal. f_equal.
  destruct (Qeq_bool la 0) eqn:Hla; [|reflexivity].
  symmetry. now apply Hc.
Qed.



Lemma set_constructed (e : MemoryEntry) (d : Py.dict MemoryEntry) :
  constructed e -> Forall constructed (Py.values d) ->
  Forall constructed (Py.values (Py.set (id e) e d)).
Proof.
  intros He Hd. rewrite Forall_forall in *. intros x Hx.
  unfold Py.values in Hx. apply in_map_iff in Hx.
  destruct Hx as [kv [<- Hkv]]. apply In_set in Hkv.
  destruct Hkv as [->|Hkv]; [exact He|].
  apply Hd. unfold Py.values. now apply in_map.
Qed.

Lemma without_constructed (removed : list MemoryEntry)
  (d : Py.dict MemoryEntry) :
  Forall constructed (Py.values d) ->
  Forall constructed (Py.values (without removed d)).
Proof.
  intros Hd. rewrite Forall_forall in *. intros x Hx.
  unfold Py.values, without in Hx. apply in_map_iff in Hx.
  destruct Hx as [kv [<- Hkv]]. apply filter_In in Hkv.
  apply Hd. unfold Py.values. apply in_map. tauto.
Qed.

Lemma manage_short_term_capacity_persistable (self : LongShortTermMemory) :
  persistable self -> persistable (manage_short_term_capacity self).
Proof.
  intros (Hs & Hl & Hcs & Hcl). unfold manage_short_term_capacity.
  destruct (short_term_capacity self
            <? Py.len (memories (short_term_store self))); [|exact (conj Hs (conj Hl (conj Hcs Hcl)))].
  cbv zeta.
  match goal with
  | |- persistable (with_short (delete_all ?rm _) _) => set (removed := rm)
  end.
  pose proof (@delete_all_memories removed (short_term_store self)
                (proj1 Hs)) as Hmem.
  unfold persistable, store_ok.
  cbn [short_term_store long_term_store with_short]. rewrite Hmem.
  split; [now apply dict_ok_filter|]. split; [exact Hl|].
  split; [now apply without_constructed | exact Hcl].
Qed.

Lemma manage_long_term_capacity_persistable (self : LongShortTermMemory) :
  persistable self -> persistable (manage_long_term_capacity self).
Proof.
  intros (Hs & Hl & Hcs & Hcl). unfold manage_long_term_capacity.
  destruct (long_term_capacity self
            <? Py.len (memories (long_term_store self))); [|exact (conj Hs (conj Hl (conj Hcs Hcl)))].
  cbv zeta.
  match goal with
  | |- persistable (with_long (delete_all ?rm _) _) => set (removed := rm)
  end.
  pose proof (@delete_all_memories removed (long_term_store self)
                (proj1 Hl)) as Hmem.
  unfold persistable, store_ok.
  cbn [short_term_store long_term_store with_long]. rewrite Hmem.
  split; [exact Hs|]. split; [now apply dict_ok_filter|].
  split; [exact Hcs | now apply without_constructed].
Qed.

(** Constructed entries are all that [add_memory] ever stores. *)
Lemma add_memory_persistable (content : string) (memory_type : MemoryType)
  (priority : MemoryPriority) (ctx : option context_dict)
  (tags : option (list string)) (self : LongShortTermMemory) (w : World) :
  persistable self ->
  persistable
    (snd (fst (add_memory content memory_type priority ctx tags self w))).
Proof.
  intros (Hs & Hl & Hcs & Hcl).
  unfold add_memory. rewrite !bind_run. cbv zeta.
  destruct (MemoryType_eqb memory_type SHORT_TERM); unfold ret; cbn [fst snd].
  - apply manage_short_term_capacity_persistable.
    unfold persistable. cbn [short_term_store long_term_store with_short].
    split; [now apply store_add_ok|]. split; [exact Hl|].
    split; [|exact Hcl].
    apply set_constructed; [apply MemoryEntry_init_constructed | exact Hcs].
  - apply manage_long_term_capacity_persistable.
    unfold persistable. cbn [short_term_store long_term_store with_long].
    split; [exact Hs|]. split; [now apply store_add_ok|].
    split; [exact Hcs|].
    apply set_constructed; [apply MemoryEntry_init_constructed | exact Hcl].
Qed.

(** Every memory built by [add_memory] calls from a fresh object can be
    saved and loaded back. *)
Lemma add_all_persistable (calls : list add_call) :
  forall (self : LongShortTermMemory) (w : World),
    persistable self -> persistable (fst (add_all calls self w)).
Proof.
  induction calls as [|c rest IH]; intros self w H; [exact H|].
  rewrite add_all_cons. apply IH. unfold run_call. rewrite bind_run.
  unfold ret. cbn [fst snd]. now apply add_memory_persistable.
Qed.

Lemma fresh_persistable (short_capacity long_capacity : Z) (w : World) :
  persistable (fst (LongShortTermMemory_init short_capacity long_capacity w)).
Proof.
  unfold LongShortTermMemory_init. rewrite bind_run.
  unfold ret, persistable, store_ok, dict_ok. cbn.
  repeat split; constructor.
Qed.


(** ** C1: what consolidation leaves in the short-term store *)

Lemma consolidate_memories_unfold (self : LongShortTermMemory) (w : World) :
  consolidate_memories self w
  = if above_four_fifths
         (Py.len (Py.values (memories (short_term_store self))))
         (short_term_capacity self)
    then (fold_left (fun self memory => consolidate_step memory self)
            (fst (compress_memories (summarizer self) (to_consolidate self)
                    w))
            self,
          snd (compress_memories (summarizer self) (to_consolidate self) w))
    else (self, w).
Proof.
  unfold consolidate_memories, to_consolidate.
  destruct (above_four_fifths _ _); [|reflexivity].
  now rewrite bind_run.
Qed.

(** C1 on a store of capacity 14 that holds twelve notes of one session.
    Consolidation is triggered (12 > 0.8 * 14) and the four oldest notes,
    [floor(0.3 * 14) = 4], are handed to [compress_memories]; they form one
    group, so the long-term store receives a summary and the two notes that
    the compression keeps.  Only those two are deleted from the short-term
    store: the notes [id-3] and [id-4] were consolidated too and are still
    there, and the long-term store holds neither of them. *)
Theorem consolidate_keeps_summarized_entries :
  let before := fst (demo_twelve_notes demo_world) in
  let after := fst (demo_consolidated demo_world) in
  above_four_fifths (Py.len (memories (short_term_store before)))
                    (short_term_capacity before) = true
  /\ three_tenths (short_term_capacity before) = 4
  /\ map id (to_consolidate before) = ["id-1"; "id-2"; "id-3"; "id-4"]
  /\ map session_key (to_consolidate before)
     = [VStr "id-0"; VStr "id-0"; VStr "id-0"; VStr "id-0"]
  /\ Py.keys (memories (short_term_store after))
     = ["id-3"; "id-4"; "id-5"; "id-6"; "id-7"; "id-8"; "id-9"; "id-10";
        "id-11"; "id-12"]
  /\ map (fun kv => (fst kv, content (snd kv)))
         (memories (long_term_store after))
     = [("id-13", "Summary of 4 memories: note 1 | note 2 | note 3 | note 4");
        ("id-1", "note 1"); ("id-2", "note 2")].
Proof.
  vm_compute. repeat split; reflexivity.
Qed.

(** * Further properties of the memory system *)

(** ** Lookup in dictionaries *)

Section DictLookup.
Variable V : Type.
Implicit Types (d : Py.dict V) (k : string) (v : V).

Lemma get_set_same k v d : Py.get k (Py.set k v d) = Some v.
Proof.
  induction d as [|[k' v'] t IH]; simpl.
  - now rewrite String.eqb_refl.
  - destruct (String.eqb k k') eqn:H; simpl.
    + now rewrite String.eqb_refl.
    + now rewrite H.
Qed.

Lemma get_set_other k k' v d :
  k' <> k -> Py.get k' (Py.set k v d) = Py.get k' d.
Proof.
  intros Hne. induction d as [|[k0 v0] t IH]; simpl.
  - destruct (String.eqb_spec k' k); [congruence | reflexivity].
  - destruct (String.eqb_spec k k0) as [->|H]; simpl.
    + destruct (String.eqb_spec k' k0); [congruence | reflexivity].
    + now rewrite IH.
Qed.

Lemma get_In k v d : Py.get k d = Some v -> In (k, v) d.
Proof.
  induction d as [|[k' v'] t IH]; simpl; [discriminate|].
  destruct (String.eqb_spec k k') as [->|H].
  - intros [= ->]. now left.
  - intros Hg. right. now apply IH.
Qed.

Lemma In_get k v d : NoDup (Py.keys d) -> In (k, v) d -> Py.get k d = Some v.
Proof.
  induction d as [|[k' v'] t IH]; simpl; intros Hnd Hin; [contradiction|].
  inversion Hnd as [|? ? Hout Ht]; subst.
  destruct Hin as [[= -> ->]|Hin].
  - now rewrite String.eqb_refl.
  - destruct (String.eqb_spec k k') as [->|H]; [|now apply IH].
    exfalso. apply Hout. now apply (in_map fst) in Hin.
Qed.

Lemma get_del_same k d : NoDup (Py.keys d) -> Py.get k (Py.del k d) = None.
Proof.
  intros Hnd. apply get_None_keys. rewrite del_filter by exact Hnd.
  intros Hin. unfold Py.keys in Hin. apply in_map_iff in Hin.
  destruct Hin as [[k' v'] [Hk Hin]]. apply filter_In in Hin.
  simpl in *. subst k'. now rewrite String.eqb_refl in Hin.
Qed.

Lemma get_del_other k k' d :
  k' <> k -> Py.get k' (Py.del k d) = Py.get k' d.
Proof.
  intros Hne. induction d as [|[k0 v0] t IH]; simpl; [reflexivity|].
  destruct (String.eqb_spec k k0) as [->|H]; simpl.
  - destruct (String.eqb_spec k' k0); [congruence | reflexivity].
  - now rewrite IH.
Qed.

Lemma del_length k d :
  Py.mem k d = true -> S (List.length (Py.del k d)) = List.length d.
Proof.
  unfold Py.mem. induction d as [|[k0 v0] t IH]; simpl; [discriminate|].
  destruct (String.eqb k k0); simpl; [reflexivity|].
  intros H. now rewrite IH.
Qed.

End DictLookup.

(** ** [InMemoryStore]: add, get and delete *)

(** X1. After [add(entry)], [get(entry.id)] returns the entry with its access
    count one higher, the clock reading as [last_accessed] and every other
    field as it was, and stores it so; the call reads the clock once.  [add]
    always answers [True] and leaves every other id as it was.  [get] of an
    id that is not stored returns [None] and changes neither the store nor
    the clock. *)
Theorem store_add_then_get (entry : MemoryEntry) (s : InMemoryStore)
  (w : World) :
  let s1 := snd (store_add entry s) in
  let r := store_get (id entry) s1 w in
  fst (store_add entry s) = true
  /\ (exists e,
        fst (fst r) = Some e
        /\ Py.get (id entry) (memories (snd (fst r))) = Some e
        /\ access_count e = access_count entry + 1
        /\ last_accessed e = clock w 0%nat
        /\ id e = id entry
        /\ content e = content entry
        /\ memory_type e = memory_type entry
        /\ priority e = priority entry
        /\ timestamp e = timestamp entry
        /\ context e = context entry
        /\ embedding e = embedding entry
        /\ summary e = summary entry
        /\ tags e = tags entry)
  /\ (forall n, clock (snd r) n = clock w (S n))
  /\ Py.keys (memories (snd (fst r))) = Py.keys (memories s1)
  /\ (forall k, k <> id entry ->
                Py.get k (memories (snd (fst r))) = Py.get k (memories s))
  /\ (forall k s0, Py.get k (memories s0) = None ->
                   store_get k s0 w = (None, s0, w)).
Proof.
  intros s1 r.
  assert (Hget : Py.get (id entry) (memories s1) = Some entry)
    by apply get_set_same.
  unfold r, store_get. rewrite Hget, bind_run. unfold ret. cbn [fst snd].
  split; [reflexivity|]. split.
  { exists (touch (clock w 0%nat) entry).
    split; [reflexivity|]. split; [apply get_set_same|].
    repeat split; reflexivity. }
  split; [intros n; reflexivity|]. split.
  - cbn [memories]. rewrite set_keys.
    unfold Py.mem. now rewrite Hget.
  - split.
    + intros k Hk. cbn [memories]. rewrite get_set_other by exact Hk.
      unfold s1, store_add. cbn [snd memories].
      now apply get_set_other.
    + intros k s0 Hnone. unfold store_get. now rewrite Hnone.
Qed.

(** X2. [delete] answers whether the id was stored.  Deleting a stored id
    makes it unknown to [get], shortens the store by one and leaves every
    other id as it was; deleting an unknown id changes nothing.  The keyword
    index is never touched by [delete]. *)
Theorem store_delete_spec (k : string) (s : InMemoryStore) (w : World) :
  NoDup (Py.keys (memories s)) ->
  let r := store_delete k s in
  (fst r = true <-> In k (Py.keys (memories s)))
  /\ store_get k (snd r) w = (None, snd r, w)
  /\ (forall k', k' <> k ->
        Py.get k' (memories (snd r)) = Py.get k' (memories s))
  /\ (In k (Py.keys (memories s)) ->
      S (List.length (memories (snd r))) = List.length (memories s))
  /\ (~ In k (Py.keys (memories s)) -> snd r = s)
  /\ index (snd r) = index s.
Proof.
  intros Hnd r. unfold r, store_delete.
  destruct (Py.mem k (memories s)) eqn:Hm; cbn [fst snd memories index].
  - assert (Hin : In k (Py.keys (memories s))) by now apply mem_keys.
    split; [tauto|]. split.
    + unfold store_get. cbn [memories]. now rewrite get_del_same.
    + split; [intros k' Hk'; now apply get_del_other|].
      split; [intros _; now apply del_length|].
      split; [tauto | reflexivity].
  - assert (Hout : ~ In k (Py.keys (memories s))).
    { intros Hin. apply mem_keys in Hin. congruence. }
    split; [split; [discriminate | tauto]|]. split.
    + unfold store_get. apply get_None_keys in Hout. now rewrite Hout.
    + split; [reflexivity|]. split; [tauto|]. split; reflexivity.
Qed.

Lemma store_delete_spec_witness :
  let s := short_term_store (fst (demo_three_notes demo_world)) in
  fst (store_delete "id-2" s) = true
  /\ Py.keys (memories (snd (store_delete "id-2" s))) = ["id-1"; "id-3"].
Proof.
  intros s.
  destruct (@store_delete_spec "id-2" s demo_world) as (H & _).
  - vm_compute. repeat constructor; simpl; intuition discriminate.
  - split; [|vm_compute; reflexivity].
    apply H. vm_compute. tauto.
Defined.

(** ** The keyword index of a store *)

Lemma index_word_indexed (entry_id word : string)
  (idx : Py.dict (list string)) :
  indexed entry_id word (index_word entry_id idx word).
Proof.
  unfold indexed, index_word.
  set (idx1 := if Py.mem word idx then idx else Py.set word [] idx).
  assert (H1 : exists l, Py.get word idx1 = Some l).
  { unfold idx1, Py.mem. destruct (Py.get word idx) as [l|] eqn:Hg.
    - now exists l.
    - exists []. apply get_set_same. }
  destruct H1 as [l Hl]. rewrite Hl.
  destruct (str_in_list entry_id l) eqn:Hin.
  - exists l. split; [exact Hl | now apply str_in_list_In].
  - exists (l ++ [entry_id]). split; [apply get_set_same|].
    apply in_or_app. right. now left.
Qed.

Lemma index_word_keeps (entry_id word other : string) (e : string)
  (idx : Py.dict (list string)) :
  indexed e other idx -> indexed e other (index_word entry_id idx word).
Proof.
  intros (ids & Hget & Hin). unfold indexed, index_word.
  set (idx1 := if Py.mem word idx then idx else Py.set word [] idx).
  assert (H1 : Py.get other idx1 = Some ids).
  { unfold idx1, Py.mem. destruct (Py.get word idx) eqn:Hg; [exact Hget|].
    rewrite get_set_other; [exact Hget|]. intros ->. congruence. }
  destruct (Py.get word idx1) as [l|] eqn:Hl.
  - destruct (str_in_list entry_id l); [now exists ids|].
    destruct (String.eqb_spec other word) as [->|Hne].
    + exists (l ++ [entry_id]). split; [apply get_set_same|].
      apply in_or_app. left. congruence.
    + exists ids. split; [|exact Hin]. now rewrite get_set_other.
  - simpl. destruct (String.eqb_spec other word) as [->|Hne]; [congruence|].
    exists ids. split; [|exact Hin]. now rewrite get_set_other.
Qed.

Lemma index_word_fixed (entry_id word : string)
  (idx : Py.dict (list string)) :
  indexed entry_id word idx -> index_word entry_id idx word = idx.
Proof.
  intros (ids & Hget & Hin). unfold index_word, Py.mem.
  rewrite Hget. rewrite Hget.
  now rewrite (proj2 (str_in_list_In entry_id ids) Hin).
Qed.

Lemma index_word_ok (entry_id word : string) (idx : Py.dict (list string)) :
  index_ok idx -> index_ok (index_word entry_id idx word).
Proof.
  intros Hok. unfold index_word.
  set (idx1 := if Py.mem word idx then idx else Py.set word [] idx).
  assert (Hok1 : index_ok idx1).
  { unfold idx1. destruct (Py.mem word idx); [exact Hok|].
    intros w0 ids Hg. destruct (String.eqb_spec w0 word) as [->|Hne].
    - rewrite get_set_same in Hg. injection Hg as <-. constructor.
    - rewrite get_set_other in Hg by exact Hne. now apply (Hok w0). }
  destruct (Py.get word idx1) as [l|] eqn:Hl.
  - destruct (str_in_list entry_id l) eqn:Hin; [exact Hok1|].
    intros w0 ids Hg. destruct (String.eqb_spec w0 word) as [->|Hne].
    + rewrite get_set_same in Hg. injection Hg as <-.
      apply NoDup_snoc; [now apply (Hok1 word)|].
      intros H. apply str_in_list_In in H. congruence.
    + rewrite get_set_other in Hg by exact Hne. now apply (Hok1 w0).
  - simpl. intros w0 ids Hg.
    destruct (String.eqb_spec w0 word) as [->|Hne].
    + rewrite get_set_same in Hg. injection Hg as <-.
      repeat constructor. simpl. tauto.
    + rewrite get_set_other in Hg by exact Hne. now apply (Hok1 w0).
Qed.

Lemma index_fold_keeps (entry_id e other : string) (words : list string) :
  forall idx, indexed e other idx ->
              indexed e other (fold_left (index_word entry_id) words idx).
Proof.
  induction words as [|word t IH]; intros idx H; simpl; [exact H|].
  apply IH. now apply index_word_keeps.
Qed.

Lemma index_fold_fixed (entry_id : string) (words : list string) :
  forall idx, (forall word, In word words -> indexed entry_id word idx) ->
              fold_left (index_word entry_id) words idx = idx.
Proof.
  induction words as [|word t IH]; intros idx H; simpl; [reflexivity|].
  rewrite index_word_fixed by (apply H; now left).
  apply IH. intros w0 Hw. apply H. now right.
Qed.

(** X3. [_update_index] lists the entry id under every lower-cased word of
    the content, keeps whatever the index listed before, never lists an id
    twice under a word, and indexing the same entry a second time changes
    nothing. *)
Theorem update_index_spec (entry : MemoryEntry)
  (idx : Py.dict (list string)) :
  let idx' := update_index entry idx in
  (forall word, In word (Py.split_ws (Py.lower (content entry))) ->
                indexed (id entry) word idx')
  /\ (forall e word, indexed e word idx -> indexed e word idx')
  /\ (index_ok idx -> index_ok idx')
  /\ update_index entry idx' = idx'.
Proof.
  intros idx'. unfold idx', update_index.
  set (words := Py.split_ws (Py.lower (content entry))).
  assert (Hall : forall ws idx0 word,
             In word ws ->
             indexed (id entry) word (fold_left (index_word (id entry)) ws
                                        idx0)).
  { induction ws as [|w0 t IH]; intros idx0 word Hin; [contradiction|].
    simpl. destruct Hin as [->|Hin].
    - apply index_fold_keeps, index_word_indexed.
    - now apply IH. }
  split; [intros word Hin; now apply Hall|]. split.
  - intros e word H. now apply index_fold_keeps.
  - split.
    + generalize idx. induction words as [|w0 t IH]; intros idx0 Hok;
        simpl; [exact Hok|].
      apply IH. now apply index_word_ok.
    + apply index_fold_fixed. intros word Hin. now apply Hall.
Qed.

(** ** Searching a store *)

Lemma StronglySorted_firstn {A} (R : A -> A -> Prop) (n : nat) (l : list A) :
  StronglySorted R l -> StronglySorted R (firstn n l).
Proof.
  revert n. induction l as [|x t IH]; intros [|n] H; simpl;
    try constructor.
  - apply IH. now inversion H.
  - inversion H as [|? ? _ Hall]; subst. rewrite Forall_forall in *.
    intros y Hy. apply Hall. now apply In_firstn in Hy.
Qed.

Lemma StronglySorted_slice_to {A} (R : A -> A -> Prop) (n : Z) (l : list A) :
  StronglySorted R l -> StronglySorted R (Py.slice_to n l).
Proof.
  intros H. unfold Py.slice_to.
  destruct (0 <=? n); now apply StronglySorted_firstn.
Qed.

Lemma slice_to_length {A} (n : Z) (l : list A) :
  0 <= n -> Py.len (Py.slice_to n l) = Z.min n (Py.len l).
Proof.
  intros H. rewrite slice_to_nonneg by exact H.
  unfold Py.len. rewrite length_firstn. lia.
Qed.

Lemma slice_to_all {A} (n : Z) (l : list A) :
  Py.len l <= n -> Py.slice_to n l = l.
Proof.
  intros H. unfold Py.len in H. rewrite slice_to_nonneg by lia.
  apply firstn_all2. lia.
Qed.

Lemma search_key_geb_total (x y : MemoryEntry) :
  search_key_geb x y = true \/ search_key_geb y x = true.
Proof.
  unfold search_key_geb.
  rewrite !orb_true_iff, !andb_true_iff, !Z.ltb_lt, !Z.eqb_eq, !Z.leb_le.
  lia.
Qed.

Lemma search_key_geb_trans (x y z : MemoryEntry) :
  search_key_geb x y = true -> search_key_geb y z = true ->
  search_key_geb x z = true.
Proof.
  unfold search_key_geb.
  rewrite !orb_true_iff, !andb_true_iff, !Z.ltb_lt, !Z.eqb_eq, !Z.leb_le.
  lia.
Qed.

Lemma lower_char_idempotent (c : ascii) :
  Py.lower_char (Py.lower_char c) = Py.lower_char c.
Proof.
  destruct c as [[] [] [] [] [] [] [] []]; reflexivity.
Qed.

Lemma lower_idempotent (s : string) : Py.lower (Py.lower s) = Py.lower s.
Proof.
  induction s as [|c s IH]; simpl; [reflexivity|].
  now rewrite lower_char_idempotent, IH.
Qed.

Lemma matches_empty_query (e : MemoryEntry) : matches "" e = true.
Proof. unfold matches. now destruct (Py.lower (content e)). Qed.

Lemma store_search_matching (query : string) (limit : Z) (s : InMemoryStore)
  (e : MemoryEntry) :
  In e (store_search query limit s) ->
  In e (filter (matches (Py.lower query)) (Py.values (memories s))).
Proof.
  unfold store_search. intros He. now apply In_slice_to, In_sort in He.
Qed.

Lemma store_search_complete (query : string) (limit : Z) (s : InMemoryStore) :
  Py.len (filter (matches (Py.lower query)) (Py.values (memories s)))
  <= limit ->
  Permutation (store_search query limit s)
    (filter (matches (Py.lower query)) (Py.values (memories s))).
Proof.
  intros Hl. unfold store_search. rewrite slice_to_all.
  - apply sort_perm.
  - unfold Py.len in *. now rewrite sort_length.
Qed.

Lemma matches_mentions (query : string) (e : MemoryEntry) :
  matches (Py.lower query) e = true <-> mentions query e.
Proof.
  unfold matches, mentions. rewrite orb_true_iff, existsb_exists. tauto.
Qed.

Lemma search_key_geb_ranks (a b : MemoryEntry) :
  search_key_geb a b = true <-> ranks_before a b.
Proof.
  unfold search_key_geb, ranks_before.
  rewrite orb_true_iff, andb_true_iff, Z.ltb_lt, Z.eqb_eq, Z.leb_le. tauto.
Qed.

Lemma StronglySorted_impl {A} (R S : A -> A -> Prop) (l : list A) :
  (forall a b, R a b -> S a b) -> StronglySorted R l -> StronglySorted S l.
Proof.
  intros H. induction 1 as [|x t Hs IH Hall]; constructor; [exact IH|].
  rewrite Forall_forall in *. auto.
Qed.

Lemma filter_mentions (query : string) (f : MemoryEntry -> bool)
  (l : list MemoryEntry) :
  (forall e, f e = true <-> mentions query e) ->
  filter f l = filter (matches (Py.lower query)) l.
Proof.
  intros Hf. apply filter_ext. intros e.
  destruct (f e) eqn:He, (matches (Py.lower query) e) eqn:Hm;
    try reflexivity.
  - apply Hf, matches_mentions in He. congruence.
  - apply matches_mentions, Hf in Hm. congruence.
Qed.

(** X4. Every result of [search] is a stored entry whose lower-cased
    content or one of whose lower-cased tags contains the lower-cased query;
    the results come in descending order of (priority value, access count);
    a limit that is not negative gives [min(limit, number of matching
    entries)] results, and a limit that is at least the number of matching
    entries returns them all.  The empty query matches every entry, and the
    case of the query does not matter. *)
Theorem store_search_spec (query : string) (limit : Z) (s : InMemoryStore) :
  let results := store_search query limit s in
  let stored := Py.values (memories s) in
  (forall e, In e results -> In e stored /\ mentions query e)
  /\ StronglySorted ranks_before results
  /\ (forall f : MemoryEntry -> bool,
        (forall e, f e = true <-> mentions query e) ->
        (0 <= limit -> Py.len results = Z.min limit (Py.len (filter f stored)))
        /\ (Py.len (filter f stored) <= limit ->
            Permutation results (filter f stored)))
  /\ (Py.len stored <= limit ->
      Permutation (store_search "" limit s) stored)
  /\ (forall query', Py.lower query' = Py.lower query ->
                     store_search query' limit s = results).
Proof.
  intros results stored. unfold results, store_search. fold stored.
  split.
  { intros e He. apply In_slice_to, In_sort, filter_In in He.
    split; [tauto|]. now apply matches_mentions. }
  split.
  { apply StronglySorted_slice_to.
    apply (StronglySorted_impl (R := fun a b => search_key_geb a b = true)).
    - intros a b. apply search_key_geb_ranks.
    - apply sort_sorted;
        [apply search_key_geb_total | apply search_key_geb_trans]. }
  split.
  { intros f Hf. rewrite (@filter_mentions query f stored Hf). split.
    - intros Hl. rewrite slice_to_length by exact Hl.
      unfold Py.len. now rewrite sort_length.
    - intros Hl. rewrite slice_to_all.
      + apply sort_perm.
      + unfold Py.len in *. now rewrite sort_length. }
  split.
  - intros Hl. simpl Py.lower. rewrite filter_all.
    + rewrite slice_to_all; [apply sort_perm|].
      unfold Py.len in *. now rewrite sort_length.
    + intros e _. apply matches_empty_query.
  - intros query' Hq. now rewrite Hq.
Qed.

(** ** [retrieve_relevant] *)

(** X5. With a limit that is not negative, [retrieve_relevant] returns at
    most [limit] entries, each a stored entry that matches the query, and
    when no more than [limit] entries match it returns every one of them. *)
Theorem retrieve_relevant_spec (s : InMemoryStore) (query : string)
  (ctx : option context_dict) (limit : Z) (w : World) :
  0 <= limit ->
  let results := fst (retrieve_relevant s query ctx limit w) in
  let matching :=
    filter (matches (Py.lower query)) (Py.values (memories s)) in
  Py.len results <= limit
  /\ (forall e, In e results -> In e matching)
  /\ (Py.len matching <= limit -> Permutation results matching).
Proof.
  intros Hl results matching.
  unfold results, retrieve_relevant. rewrite bind_run. unfold ret.
  cbn [fst snd].
  set (scored := fst (for_each (store_search query (limit * 2) s) _ [] w)).
  assert (Hfst : map fst scored = store_search query (limit * 2) s).
  { unfold scored. now rewrite score_loop_fst. }
  split; [|split].
  - unfold Py.len. rewrite length_map.
    pose proof (@slice_to_length _ limit (Py.sort score_geb scored) Hl) as H.
    unfold Py.len in H. lia.
  - intros e He. apply in_map_iff in He. destruct He as [[m q] [<- He]].
    apply In_slice_to, In_sort in He. apply (in_map fst) in He.
    rewrite Hfst in He. simpl.
    now apply store_search_matching in He.
  - intros Hm.
    assert (Hperm : Permutation (store_search query (limit * 2) s) matching)
      by (apply store_search_complete; fold matching; lia).
    rewrite <- Hperm, <- Hfst.
    apply Permutation_map. rewrite slice_to_all; [apply sort_perm|].
    unfold Py.len. rewrite sort_length, <- (length_map fst), Hfst.
    rewrite (Permutation_length Hperm). exact Hm.
Qed.

Lemma retrieve_relevant_spec_witness :
  Py.len (fst (retrieve_relevant
                 (short_term_store (fst (demo_three_notes demo_world)))
                 "NAME" None 2 demo_world)) <= 2.
Proof.
  destruct (@retrieve_relevant_spec
              (short_term_store (fst (demo_three_notes demo_world)))
              "NAME" None 2 demo_world) as (H & _).
  - lia.
  - exact H.
Defined.

(** ** [get_recent_memories] *)

Lemma Qle_bool_total (a b : Q) : Qle_bool a b = true \/ Qle_bool b a = true.
Proof.
  rewrite !Qle_bool_iff.
  destruct (Qlt_le_dec a b) as [H|H]; [left; now apply Qlt_le_weak | now right].
Qed.

Lemma timestamp_geb_total (x y : MemoryEntry) :
  timestamp_geb x y = true \/ timestamp_geb y x = true.
Proof. unfold timestamp_geb. apply Qle_bool_total. Qed.

Lemma timestamp_geb_trans (x y z : MemoryEntry) :
  timestamp_geb x y = true -> timestamp_geb y z = true ->
  timestamp_geb x z = true.
Proof.
  unfold timestamp_geb. rewrite !Qle_bool_iff. intros H1 H2.
  now apply (Qle_trans _ (timestamp y)).
Qed.

(** X7. With a limit that is not negative, [get_recent_memories] returns
    [min(limit, number of stored entries)] entries of the two stores, newest
    first; a limit that is at least the number of stored entries returns
    them all. *)
Theorem get_recent_memories_spec (limit : Z) (self : LongShortTermMemory) :
  0 <= limit ->
  let results := get_recent_memories limit self in
  let stored := Py.values (memories (short_term_store self))
                ++ Py.values (memories (long_term_store self)) in
  Py.len results = Z.min limit (Py.len stored)
  /\ StronglySorted
       (fun a b => (timestamp b <= timestamp a)%Q) results
  /\ (forall e, In e results -> In e stored)
  /\ (Py.len stored <= limit -> Permutation results stored).
Proof.
  intros Hl results stored. unfold results, get_recent_memories.
  fold stored. split.
  { rewrite slice_to_length by exact Hl. unfold Py.len.
    now rewrite sort_length. }
  split.
  { apply StronglySorted_slice_to.
    pose proof (sort_sorted timestamp_geb timestamp_geb_total
                  timestamp_geb_trans stored) as Hs.
    clear -Hs. induction Hs as [|x t Hs IH Hall]; constructor;
      [exact IH|].
    rewrite Forall_forall in *. intros y Hy.
    apply Qle_bool_iff. now apply Hall. }
  split.
  { intros e He. now apply In_slice_to, In_sort in He. }
  intros Hall. rewrite slice_to_all; [apply sort_perm|].
  unfold Py.len in *. now rewrite sort_length.
Qed.

Lemma get_recent_memories_spec_witness :
  Py.len (get_recent_memories 2 (fst (demo_three_notes demo_world))) = 2.
Proof.
  destruct (@get_recent_memories_spec 2 (fst (demo_three_notes demo_world)))
    as (Hlen & _); [lia|].
  rewrite Hlen. vm_compute. reflexivity.
Defined.

(** ** Eviction and priority *)

Lemma StronglySorted_app_order {A} (R : A -> A -> Prop) (l1 l2 : list A) :
  StronglySorted R (l1 ++ l2) ->
  forall a b, In a l1 -> In b l2 -> R a b.
Proof.
  induction l1 as [|x t IH]; intros H a b Ha Hb; [contradiction|].
  simpl in H. inversion H as [|? ? Hs Hall]; subst.
  destruct Ha as [->|Ha].
  - rewrite Forall_forall in Hall. apply Hall, in_or_app. now right.
  - now apply IH.
Qed.

Lemma values_same_id (d : Py.dict MemoryEntry) (a b : MemoryEntry) :
  dict_ok d -> In a (Py.values d) -> In b (Py.values d) -> id a = id b ->
  a = b.
Proof.
  intros Hok Ha Hb Hid.
  assert (Hnd : NoDup (map id (Py.values d)))
    by (rewrite (dict_ok_ids Hok); apply Hok).
  clear Hok. induction (Py.values d) as [|x t IH]; [contradiction|].
  simpl in Hnd. inversion Hnd as [|? ? Hout Ht]; subst.
  destruct Ha as [->|Ha], Hb as [->|Hb]; try reflexivity.
  - exfalso. apply Hout. rewrite Hid. now apply in_map.
  - exfalso. apply Hout. rewrite <- Hid. now apply in_map.
  - now apply IH.
Qed.

Lemma In_values_without (removed : list MemoryEntry)
  (d : Py.dict MemoryEntry) (e : MemoryEntry) :
  dict_ok d ->
  (In e (Py.values (without removed d))
   <-> In e (Py.values d) /\ ~ In (id e) (map id removed)).
Proof.
  intros Hok. unfold Py.values, without. rewrite in_map_iff. split.
  - intros [[k v] [Hv Hin]]. simpl in Hv. subst v.
    apply filter_In in Hin. destruct Hin as [Hin Hf].
    assert (Hk : id e = k).
    { destruct Hok as [_ Hid]. rewrite Forall_forall in Hid.
      apply (Hid (k, e) Hin). }
    split; [apply in_map_iff; now exists (k, e)|].
    intros Hrm. apply str_in_list_In in Hrm. simpl in Hf.
    rewrite Hk in Hrm. now rewrite Hrm in Hf.
  - intros [Hin Hout]. apply in_map_iff in Hin.
    destruct Hin as [[k v] [Hv Hin]]. simpl in Hv. subst v.
    exists (k, e). split; [reflexivity|]. apply filter_In.
    split; [exact Hin|]. simpl.
    assert (Hk : id e = k).
    { destruct Hok as [_ Hid]. rewrite Forall_forall in Hid.
      apply (Hid (k, e) Hin). }
    destruct (str_in_list k (map id removed)) eqn:Hs; [|reflexivity].
    apply str_in_list_In in Hs. rewrite Hk in Hout. contradiction.
Qed.

(** Whatever the sort key, an entry that the capacity manager deletes
    stands before every entry it keeps. *)
Lemma evict_front_order (leb : MemoryEntry -> MemoryEntry -> bool)
  (capacity : Z) (s : InMemoryStore) :
  (forall x y, leb x y = true \/ leb y x = true) ->
  (forall x y z, leb x y = true -> leb y z = true -> leb x z = true) ->
  store_ok s ->
  let sorted := Py.sort leb (Py.values (memories s)) in
  let removed := Py.slice_to (Py.len sorted - capacity) sorted in
  forall e k,
    In e (Py.values (memories s)) ->
    ~ In e (Py.values (memories (delete_all removed s))) ->
    In k (Py.values (memories (delete_all removed s))) ->
    leb e k = true.
Proof.
  intros Htotal Htrans Hok sorted removed e k He Hgone Hkept.
  rewrite (@delete_all_memories removed s (proj1 Hok)) in Hgone, Hkept.
  rewrite (@In_values_without removed (memories s) e Hok) in Hgone.
  rewrite (@In_values_without removed (memories s) k Hok) in Hkept.
  destruct Hkept as [Hk Hkout].
  assert (Hsub : forall m, In m removed -> In m (Py.values (memories s))).
  { intros m Hm. unfold removed in Hm. apply In_slice_to in Hm.
    now apply In_sort in Hm. }
  assert (Herm : In e removed).
  { destruct (in_dec string_dec (id e) (map id removed)) as [Hin|Hout];
      [|tauto].
    apply in_map_iff in Hin. destruct Hin as [m [Hid Hm]].
    now rewrite <- (@values_same_id (memories s) m e Hok (Hsub m Hm) He Hid). }
  assert (Hsorted : StronglySorted (fun a b => leb a b = true) sorted)
    by now apply sort_sorted.
  assert (Hsplit : exists n, removed = firstn n sorted).
  { unfold removed, Py.slice_to. destruct (0 <=? _); eauto. }
  destruct Hsplit as [n Hn].
  rewrite <- (firstn_skipn n sorted) in Hsorted.
  apply (StronglySorted_app_order _ _ Hsorted); [now rewrite <- Hn|].
  assert (Hks : In k sorted) by now apply In_sort.
  rewrite <- (firstn_skipn n sorted) in Hks. apply in_app_or in Hks.
  destruct Hks as [Hks|Hks]; [|exact Hks].
  exfalso. apply Hkout. apply in_map. now rewrite Hn.
Qed.

Lemma long_key_leb_total (x y : MemoryEntry) :
  long_key_leb x y = true \/ long_key_leb y x = true.
Proof.
  unfold long_key_leb.
  rewrite !orb_true_iff, !andb_true_iff, !orb_true_iff, !andb_true_iff,
    !Z.ltb_lt, !Z.eqb_eq.
  destruct (Qle_bool_total (timestamp x) (timestamp y)) as [H|H];
    rewrite H; lia.
Qed.

Lemma long_key_leb_trans (x y z : MemoryEntry) :
  long_key_leb x y = true -> long_key_leb y z = true ->
  long_key_leb x z = true.
Proof.
  unfold long_key_leb.
  rewrite !orb_true_iff, !andb_true_iff, !orb_true_iff, !andb_true_iff,
    !Z.ltb_lt, !Z.eqb_eq, !Qle_bool_iff.
  intros H1 H2.
  assert (Hq : (timestamp x <= timestamp y)%Q ->
               (timestamp y <= timestamp z)%Q ->
               (timestamp x <= timestamp z)%Q)
    by (intros; now apply (Qle_trans _ (timestamp y))).
  destruct H1 as [H1|[H1 [H1'|[H1' H1'']]]],
           H2 as [H2|[H2 [H2'|[H2' H2'']]]];
    try (left; lia); right; (split; [lia|]);
    try (left; lia); right; split; [lia | now apply Hq].
Qed.

(** X8. The capacity managers never keep an entry of lower priority than one
    they delete.  In the short-term store a deleted entry has at most the
    priority of every kept entry, and among equal priorities it is not
    newer; in the long-term store, among equal priorities it has at most the
    access count of the kept entry. *)
Theorem eviction_respects_priority (self : LongShortTermMemory) :
  store_ok (short_term_store self) ->
  store_ok (long_term_store self) ->
  (forall e k,
      In e (Py.values (memories (short_term_store self))) ->
      ~ In e (Py.values (memories (short_term_store
                                     (manage_short_term_capacity self)))) ->
      In k (Py.values (memories (short_term_store
                                   (manage_short_term_capacity self)))) ->
      MemoryPriority_value (priority e) <= MemoryPriority_value (priority k)
      /\ (priority e = priority k -> (timestamp e <= timestamp k)%Q))
  /\ (forall e k,
         In e (Py.values (memories (long_term_store self))) ->
         ~ In e (Py.values (memories (long_term_store
                                        (manage_long_term_capacity self)))) ->
         In k (Py.values (memories (long_term_store
                                      (manage_long_term_capacity self)))) ->
         MemoryPriority_value (priority e) <= MemoryPriority_value (priority k)
         /\ (priority e = priority k ->
             access_count e <= access_count k)).
Proof.
  intros Hs Hl. split.
  - intros e k He Hgone Hkept. unfold manage_short_term_capacity in *.
    destruct (short_term_capacity self
              <? Py.len (memories (short_term_store self)));
      [|contradiction].
    cbv zeta in Hgone, Hkept. cbn [short_term_store with_short] in *.
    pose proof (@evict_front_order short_key_leb (short_term_capacity self)
                  (short_term_store self) short_key_leb_total
                  short_key_leb_trans Hs e k He Hgone Hkept) as H.
    unfold short_key_leb in H.
    rewrite orb_true_iff, andb_true_iff, Z.ltb_lt, Z.eqb_eq, Qle_bool_iff
      in H.
    split; [lia|]. intros Hp. rewrite Hp in H.
    destruct H as [H|[_ H]]; [lia | exact H].
  - intros e k He Hgone Hkept. unfold manage_long_term_capacity in *.
    destruct (long_term_capacity self
              <? Py.len (memories (long_term_store self)));
      [|contradiction].
    cbv zeta in Hgone, Hkept. cbn [long_term_store with_long] in *.
    pose proof (@evict_front_order long_key_leb (long_term_capacity self)
                  (long_term_store self) long_key_leb_total
                  long_key_leb_trans Hl e k He Hgone Hkept) as H.
    unfold long_key_leb in H.
    rewrite orb_true_iff, andb_true_iff, orb_true_iff, andb_true_iff,
      !Z.ltb_lt, !Z.eqb_eq in H.
    split; [lia|]. intros Hp. rewrite Hp in H. lia.
Qed.

(** The oldest of three notes of one priority is deleted at capacity 2 and
    is not newer than a kept one. *)
Lemma eviction_respects_priority_witness :
  MemoryPriority_value (priority (demo_note 0))
  <= MemoryPriority_value (priority (demo_note 1))
  /\ (priority (demo_note 0) = priority (demo_note 1) ->
      (timestamp (demo_note 0) <= timestamp (demo_note 1))%Q).
Proof.
  destruct (@eviction_respects_priority demo_over_capacity) as (H & _).
  - split; [|repeat constructor].
    vm_compute. repeat constructor; simpl; intuition discriminate.
  - split; constructor.
  - apply H.
    + vm_compute. left. reflexivity.
    + vm_compute. intuition discriminate.
    + vm_compute. left. reflexivity.
Defined.

(** ** [add_memory]: frames, the long-term rule and an evicted newcomer *)

Lemma MemoryType_eqb_short (t : MemoryType) :
  MemoryType_eqb t SHORT_TERM = true <-> t = SHORT_TERM.
Proof. destruct t; vm_compute; split; congruence. Qed.

Lemma manage_short_frame (self : LongShortTermMemory) :
  let self' := manage_short_term_capacity self in
  long_term_store self' = long_term_store self
  /\ short_term_capacity self' = short_term_capacity self
  /\ long_term_capacity self' = long_term_capacity self
  /\ summarizer self' = summarizer self
  /\ current_session self' = current_session self.
Proof.
  unfold manage_short_term_capacity.
  destruct (_ <? _); repeat split; reflexivity.
Qed.

Lemma manage_long_frame (self : LongShortTermMemory) :
  let self' := manage_long_term_capacity self in
  short_term_store self' = short_term_store self
  /\ short_term_capacity self' = short_term_capacity self
  /\ long_term_capacity self' = long_term_capacity self
  /\ summarizer self' = summarizer self
  /\ current_session self' = current_session self.
Proof.
  unfold manage_long_term_capacity.
  destruct (_ <? _); repeat split; reflexivity.
Qed.

Lemma add_memory_long_step (content : string) (memory_type : MemoryType)
  (priority : MemoryPriority) (ctx : option context_dict)
  (tags : option (list string)) (self : LongShortTermMemory) (w : World) :
  memory_type <> SHORT_TERM ->
  let entry := new_entry content memory_type priority ctx tags self w in
  snd (fst (add_memory content memory_type priority ctx tags self w))
  = manage_long_term_capacity
      (with_long (snd (store_add entry (long_term_store self))) self).
Proof.
  intros Hne.
  assert (Ht : MemoryType_eqb memory_type SHORT_TERM = false).
  { destruct (MemoryType_eqb memory_type SHORT_TERM) eqn:H; [|reflexivity].
    apply MemoryType_eqb_short in H. congruence. }
  unfold add_memory. rewrite !bind_run. cbv zeta. rewrite Ht. reflexivity.
Qed.

Lemma manage_long_term_capacity_evicts (self : LongShortTermMemory) :
  store_ok (long_term_store self) ->
  long_term_capacity self < Py.len (memories (long_term_store self)) ->
  let stored := memories (long_term_store self) in
  let sorted := Py.sort long_key_leb (Py.values stored) in
  let evicted :=
    firstn (Z.to_nat (Py.len stored - long_term_capacity self)) sorted in
  memories (long_term_store (manage_long_term_capacity self))
  = without evicted stored.
Proof.
  intros Hok Hover stored sorted evicted.
  unfold manage_long_term_capacity.
  destruct (Z.ltb_spec (long_term_capacity self)
                       (Py.len (memories (long_term_store self))));
    [|lia].
  cbv zeta. cbn [long_term_store with_long].
  destruct (@evict_front long_key_leb _ _ Hok Hover) as (Hmem & _).
  rewrite Hmem. fold stored. f_equal.
  assert (Hlen : Py.len (Py.sort long_key_leb (Py.values stored))
                 = Py.len stored).
  { unfold Py.len, Py.values. now rewrite sort_length, length_map. }
  rewrite Hlen. apply slice_to_nonneg. unfold stored. lia.
Qed.

(** X10. When an [add_memory] call of a type other than short-term makes
    the long-term store exceed its capacity, the store is left with the
    entries it had after the addition less the first [len - capacity]
    entries of the values sorted in ascending order of
    (priority value, access count, timestamp). *)
Theorem long_term_eviction_order (content : string)
  (memory_type : MemoryType) (priority : MemoryPriority)
  (ctx : option context_dict) (tags : option (list string))
  (self : LongShortTermMemory) (w : World) :
  memory_type <> SHORT_TERM ->
  store_ok (long_term_store self) ->
  let entry := new_entry content memory_type priority ctx tags self w in
  let added := Py.set (id entry) entry (memories (long_term_store self)) in
  let sorted := Py.sort long_key_leb (Py.values added) in
  let evicted :=
    firstn (Z.to_nat (Py.len added - long_term_capacity self)) sorted in
  long_term_capacity self < Py.len added ->
  memories (long_term_store
              (snd (fst (add_memory content memory_type priority ctx tags
                           self w))))
  = without evicted added
  /\ StronglySorted (fun a b => long_key_leb a b = true) sorted
  /\ Permutation sorted (Py.values added).
Proof.
  intros Hne Hok entry added sorted evicted Hover.
  split; [|split].
  - rewrite (@add_memory_long_step content memory_type priority ctx tags
               self w Hne).
    fold entry.
    apply manage_long_term_capacity_evicts.
    + cbn [long_term_store with_long store_add snd].
      unfold store_ok. cbn [memories]. now apply dict_ok_set.
    + exact Hover.
  - apply sort_sorted; [apply long_key_leb_total | apply long_key_leb_trans].
  - apply sort_perm.
Qed.

(** A low detail is added to a long-term store of capacity 1 that holds a
    rule of high priority: the detail is what the store drops. *)
Lemma long_term_eviction_order_witness :
  Py.keys (memories (long_term_store
             (snd (fst (add_memory "a detail" SEMANTIC LOW None None
                          (fst (demo_one_rule demo_world))
                          (snd (demo_one_rule demo_world)))))))
  = ["id-1"].
Proof.
  destruct (@long_term_eviction_order "a detail" SEMANTIC LOW None None
              (fst (demo_one_rule demo_world))
              (snd (demo_one_rule demo_world))) as (H & _).
  - discriminate.
  - vm_compute. split; repeat constructor; simpl; intuition discriminate.
  - vm_compute. reflexivity.
  - rewrite H. vm_compute. reflexivity.
Defined.

Lemma sort_snoc_least {A} (leb : A -> A -> bool) (l : list A) (e : A) :
  (forall x, In x l -> leb x e = false) ->
  Py.sort leb (l ++ [e]) = e :: Py.sort leb l.
Proof.
  induction l as [|x t IH]; simpl; intros H; [reflexivity|].
  rewrite IH by auto. simpl. now rewrite (H x (or_introl eq_refl)).
Qed.

Lemma without_last (d : Py.dict MemoryEntry) (e : MemoryEntry) :
  ~ In (id e) (Py.keys d) ->
  without [e] (d ++ [(id e, e)]) = d.
Proof.
  intros Hout. unfold without. rewrite filter_app.
  cbn [filter map fst]. unfold str_in_list at 2. cbn [existsb].
  rewrite String.eqb_refl. cbn [orb negb]. rewrite app_nil_r.
  apply filter_all. intros [k v] Hin. cbn [fst].
  destruct (str_in_list k [id e]) eqn:Hk; [|reflexivity].
  apply str_in_list_In in Hk. destruct Hk as [Hk|[]].
  exfalso. apply Hout. subst k. now apply (in_map fst) in Hin.
Qed.

(** X11. [add_memory] can drop the entry it has just added.  When the
    short-term store is exactly full and every entry in it has a strictly
    higher priority than the new one, the capacity manager deletes the new
    entry: the store is as it was before the call, and the identifier that
    the call returns names no stored entry. *)
Theorem add_memory_evicts_newcomer (content : string) (p : MemoryPriority)
  (ctx : option context_dict) (tags : option (list string))
  (self : LongShortTermMemory) (w : World) :
  store_ok (short_term_store self) ->
  Py.len (memories (short_term_store self)) = short_term_capacity self ->
  Py.get (uuids w 0%nat) (memories (short_term_store self)) = None ->
  (forall x, In x (Py.values (memories (short_term_store self))) ->
             MemoryPriority_value p < MemoryPriority_value (priority x)) ->
  let r := add_memory content SHORT_TERM p ctx tags self w in
  memories (short_term_store (snd (fst r)))
  = memories (short_term_store self)
  /\ Py.get (fst (fst r)) (memories (short_term_store (snd (fst r)))) = None.
Proof.
  intros Hok Hfull Hfresh Hlow r.
  destruct (add_memory_short_step content p ctx tags self w)
    as (Hstep & Hid & _).
  fold r in Hstep, Hid.
  set (entry := new_entry content SHORT_TERM p ctx tags self w) in *.
  assert (Hout : ~ In (id entry) (Py.keys (memories (short_term_store self)))).
  { now apply get_None_keys. }
  assert (Hmem : memories (short_term_store (snd (fst r)))
                 = memories (short_term_store self)).
  { rewrite Hstep. rewrite manage_short_term_capacity_evicts.
    - cbn [short_term_store with_short store_add snd memories
           short_term_capacity].
      rewrite (@set_fresh _ (id entry) entry _ Hout).
      unfold Py.values. rewrite map_app. cbn [map snd].
      rewrite sort_snoc_least.
      + unfold Py.len. rewrite length_app. cbn [List.length].
        replace (Z.to_nat (Z.of_nat (List.length
                                       (memories (short_term_store self)) + 1)
                           - short_term_capacity self)) with 1%nat
          by (unfold Py.len in Hfull; lia).
        cbn [firstn]. now apply without_last.
      + intros x Hx. specialize (Hlow x Hx). unfold short_key_leb.
        change (priority entry) with p.
        destruct (Z.ltb_spec (MemoryPriority_value (priority x))
                             (MemoryPriority_value p)); [lia|].
        destruct (Z.eqb_spec (MemoryPriority_value (priority x))
                             (MemoryPriority_value p)); [lia|].
        reflexivity.
    - cbn [short_term_store with_short]. now apply store_add_ok.
    - cbn [short_term_store with_short store_add snd memories
           short_term_capacity].
      rewrite (@set_fresh _ (id entry) entry _ Hout).
      unfold Py.len in *. rewrite length_app. cbn [List.length]. lia. }
  split; [exact Hmem|].
  rewrite Hmem, Hid. exact Hfresh.
Qed.

(** Small talk of low priority is added to a short-term store of capacity 1
    that holds a note of high priority. *)
Lemma add_memory_evicts_newcomer_witness :
  memories (short_term_store
              (snd (fst (add_memory "small talk" SHORT_TERM LOW None None
                           (fst (demo_one_note demo_world))
                           (snd (demo_one_note demo_world))))))
  = memories (short_term_store (fst (demo_one_note demo_world))).
Proof.
  destruct (@add_memory_evicts_newcomer "small talk" LOW None None
              (fst (demo_one_note demo_world))
              (snd (demo_one_note demo_world))) as (H & _).
  - vm_compute. split; repeat constructor; simpl; intuition discriminate.
  - vm_compute. reflexivity.
  - vm_compute. reflexivity.
  - intros x Hx. vm_compute in Hx. destruct Hx as [<-|[]].
    vm_compute. reflexivity.
  - exact H.
Defined.

(** ** [consolidate_memories]: what is moved and what is kept *)

(** The long-term dictionary after the loop of [consolidate_memories]. *)
Lemma consolidate_fold (l : list MemoryEntry) :
  forall self,
    let self' := fold_left (fun self memory => consolidate_step memory self)
                           l self in
    short_term_store self' = delete_all l (short_term_store self)
    /\ memories (long_term_store self')
       = fold_left (fun d m => Py.set (id m) (set_memory_type LONG_TERM m) d)
                   l (memories (long_term_store self))
    /\ short_term_capacity self' = short_term_capacity self
    /\ long_term_capacity self' = long_term_capacity self
    /\ summarizer self' = summarizer self
    /\ current_session self' = current_session self.
Proof.
  induction l as [|m t IH]; intros self; cbn [fold_left].
  - repeat split; reflexivity.
  - destruct (IH (consolidate_step m self)) as (H1 & H2 & H3 & H4 & H5 & H6).
    cbv zeta. rewrite H1, H2, H3, H4, H5, H6.
    unfold delete_all. cbn [fold_left].
    repeat split; reflexivity.
Qed.

Lemma get_fold_set_other (f : MemoryEntry -> MemoryEntry)
  (l : list MemoryEntry) (k : string) :
  forall d,
    ~ In k (map id l) ->
    Py.get k (fold_left (fun d m => Py.set (id m) (f m) d) l d)
    = Py.get k d.
Proof.
  induction l as [|m t IH]; intros d Hout; cbn [fold_left]; [reflexivity|].
  rewrite IH by (intros H; apply Hout; now right).
  apply get_set_other. intros ->. apply Hout. now left.
Qed.

Lemma get_fold_set_same (f : MemoryEntry -> MemoryEntry)
  (l : list MemoryEntry) (m : MemoryEntry) :
  forall d,
    In m l ->
    exists m', In m' l /\ id m' = id m
               /\ Py.get (id m)
                    (fold_left (fun d m => Py.set (id m) (f m) d) l d)
                  = Some (f m').
Proof.
  induction l as [|x t IH] using rev_ind; intros d Hin; [contradiction|].
  rewrite fold_left_app. cbn [fold_left].
  destruct (string_dec (id m) (id x)) as [Heq|Hne].
  - exists x. split; [apply in_or_app; right; now left|].
    split; [now symmetry|]. rewrite Heq. apply get_set_same.
  - apply in_app_or in Hin. destruct Hin as [Hin|[->|[]]]; [|congruence].
    destruct (IH d Hin) as (m' & Hm' & Hid & Hget).
    exists m'. split; [apply in_or_app; now left|]. split; [exact Hid|].
    rewrite get_set_other by exact Hne. exact Hget.
Qed.

(** The insertion sort keeps the order of the elements that the comparison
    cannot tell apart. *)
Lemma sort_stable {A} (leb : A -> A -> bool) (p : A -> bool) (l : list A) :
  (forall x y, p x = true -> p y = true -> leb x y = true) ->
  filter p (Py.sort leb l) = filter p l.
Proof.
  intros Hp.
  assert (Hins : forall x t,
            filter p (Py.insert leb x t) = filter p (x :: t)).
  { intros x t. induction t as [|y t IH]; [reflexivity|].
    cbn [Py.insert]. destruct (leb x y) eqn:Hxy; [reflexivity|].
    cbn [filter] in *. rewrite IH.
    destruct (p x) eqn:Hx; [|reflexivity].
    destruct (p y) eqn:Hy; [|reflexivity].
    rewrite (Hp x y Hx Hy) in Hxy. discriminate. }
  induction l as [|x t IH]; [reflexivity|].
  cbn [Py.sort]. rewrite Hins. cbn [filter]. now rewrite IH.
Qed.

(** X12. [consolidate_memories] does nothing, and reads neither clock nor
    identifiers, unless the short-term store holds more than 0.8 of its
    capacity.  Otherwise the entries of the short-term store are put in the
    order of their timestamps, oldest first, entries of one timestamp
    keeping the order of the store; [compress_memories] is run on the first
    [int(capacity * 0.3)] of them and returns the list [compressed].  The
    short-term store loses exactly the entries whose id is the id of an
    entry of [compressed], the others keep their order; each entry of
    [compressed] is filed in the long-term store under its id, with type
    LONG_TERM and every other field as it was; every other id of the
    long-term store is as before; and no id of the short-term store is lost
    from both stores.  Capacities, summarizer and session are unchanged. *)
Theorem consolidate_memories_spec (self : LongShortTermMemory) (w : World) :
  store_ok (short_term_store self) ->
  let r := consolidate_memories self w in
  let self' := fst r in
  let stored := Py.values (memories (short_term_store self)) in
  let n := Py.len (memories (short_term_store self)) in
  let capacity := short_term_capacity self in
  let retyped (m l : MemoryEntry) :=
    memory_type l = LONG_TERM
    /\ id l = id m /\ content l = content m /\ priority l = priority m
    /\ timestamp l = timestamp m /\ access_count l = access_count m
    /\ last_accessed l = last_accessed m /\ context l = context m
    /\ embedding l = embedding m /\ summary l = summary m
    /\ tags l = tags m in
  (5 * n <= 4 * capacity -> r = (self, w))
  /\ (4 * capacity < 5 * n ->
      exists oldest compressed,
        Permutation oldest stored
        /\ StronglySorted (fun a b => (timestamp a <= timestamp b)%Q) oldest
        /\ (forall t,
              filter (fun e => Qeq_bool (timestamp e) t) oldest
              = filter (fun e => Qeq_bool (timestamp e) t) stored)
        /\ compressed
           = fst (compress_memories (summarizer self)
                    (Py.slice_to (Z.quot (3 * capacity) 10) oldest) w)
        /\ memories (short_term_store self')
           = filter (fun kv => negb (existsb (String.eqb (fst kv))
                                       (map id compressed)))
               (memories (short_term_store self))
        /\ (forall m, In m compressed ->
              exists m' l, In m' compressed /\ id m' = id m
                /\ Py.get (id m) (memories (long_term_store self')) = Some l
                /\ retyped m' l)
        /\ (forall k, ~ In k (map id compressed) ->
              Py.get k (memories (long_term_store self'))
              = Py.get k (memories (long_term_store self)))
        /\ (forall k, In k (Py.keys (memories (short_term_store self))) ->
              In k (Py.keys (memories (short_term_store self')))
              \/ In k (Py.keys (memories (long_term_store self')))))
  /\ short_term_capacity self' = short_term_capacity self
  /\ long_term_capacity self' = long_term_capacity self
  /\ summarizer self' = summarizer self
  /\ current_session self' = current_session self.
Proof.
  intros Hok r self' stored n capacity retyped.
  assert (Hlen : Py.len stored = n).
  { unfold n, stored, Py.len, Py.values. now rewrite length_map. }
  set (triggered := above_four_fifths n capacity).
  set (compressed :=
         if triggered
         then fst (compress_memories (summarizer self) (to_consolidate self) w)
         else []).
  assert (Hr : self' = fold_left
                         (fun self memory => consolidate_step memory self)
                         compressed self
               /\ (triggered = false -> r = (self, w))).
  { unfold self', r, compressed, triggered.
    rewrite consolidate_memories_unfold. fold stored. rewrite Hlen.
    fold capacity.
    destruct (above_four_fifths _ _); split; try reflexivity; discriminate. }
  destruct Hr as (Hself & Hno).
  destruct (consolidate_fold compressed self)
    as (Hs & Hl & Hcs & Hcl & Hsum & Hses).
  cbv zeta in Hs, Hl, Hcs, Hcl, Hsum, Hses. rewrite <- Hself in *.
  assert (Hshort : memories (short_term_store self')
                   = without compressed (memories (short_term_store self))).
  { rewrite Hs. apply delete_all_memories, Hok. }
  assert (Hmoved : forall m, In m compressed ->
            exists m', In m' compressed /\ id m' = id m
                       /\ Py.get (id m) (memories (long_term_store self'))
                          = Some (set_memory_type LONG_TERM m')).
  { intros m Hm. rewrite Hl.
    now apply (get_fold_set_same (set_memory_type LONG_TERM)). }
  split.
  { intros Hle. apply Hno. unfold triggered, above_four_fifths.
    apply Z.ltb_ge. exact Hle. }
  split; [|repeat split; assumption].
  intros Hlt.
  assert (Htrig : triggered = true).
  { unfold triggered, above_four_fifths. apply Z.ltb_lt. exact Hlt. }
  exists (Py.sort timestamp_leb stored), compressed.
  split; [apply sort_perm|].
  split.
  { apply (@StronglySorted_impl _ (fun a b => timestamp_leb a b = true)).
    - intros a b Hab. now apply Qle_bool_iff.
    - apply sort_sorted.
      + intros x y. unfold timestamp_leb. apply Qle_bool_total.
      + intros x y z. unfold timestamp_leb. rewrite !Qle_bool_iff.
        intros H1 H2. now apply (Qle_trans _ (timestamp y)). }
  split.
  { intros t. apply sort_stable. intros x y Hx Hy.
    apply Qeq_bool_iff in Hx. apply Qeq_bool_iff in Hy.
    unfold timestamp_leb. apply Qle_bool_iff. rewrite Hx, Hy.
    apply Qle_refl. }
  split; [unfold compressed; rewrite Htrig; reflexivity|].
  split; [exact Hshort|].
  split.
  { intros m Hm. destruct (Hmoved m Hm) as (m' & Hm' & Hid & Hget).
    exists m', (set_memory_type LONG_TERM m').
    split; [exact Hm'|]. split; [exact Hid|]. split; [exact Hget|].
    unfold retyped. repeat split; reflexivity. }
  split.
  { intros k Hk. rewrite Hl.
    now apply (get_fold_set_other (set_memory_type LONG_TERM)). }
  intros k Hk.
  destruct (in_dec string_dec k (map id compressed)) as [Hin|Hout].
  - right. apply in_map_iff in Hin. destruct Hin as (m & <- & Hm).
    destruct (Hmoved m Hm) as (m' & _ & _ & Hget).
    apply get_In in Hget. now apply (in_map fst) in Hget.
  - left. rewrite Hshort. unfold Py.keys in *.
    apply in_map_iff in Hk. destruct Hk as ([k' e] & <- & Hin).
    apply in_map_iff. exists (k', e). split; [reflexivity|].
    unfold without. apply filter_In. split; [exact Hin|].
    cbn [fst] in *. destruct (str_in_list k' (map id compressed)) eqn:Hs';
      [|reflexivity].
    apply str_in_list_In in Hs'. contradiction.
Qed.

(** Twelve notes at capacity 14: consolidation is triggered, and every note
    is afterwards in the short-term or in the long-term store under its
    id. *)
Lemma consolidate_memories_spec_witness :
  let before := fst (demo_twelve_notes demo_world) in
  let after := fst (consolidate_memories (fst (demo_twelve_notes demo_world))
                      (snd (demo_twelve_notes demo_world))) in
  short_term_capacity after = short_term_capacity before
  /\ forall k, In k (Py.keys (memories (short_term_store before))) ->
       In k (Py.keys (memories (short_term_store after)))
       \/ In k (Py.keys (memories (long_term_store after))).
Proof.
  intros before after.
  destruct (@consolidate_memories_spec (fst (demo_twelve_notes demo_world))
              (snd (demo_twelve_notes demo_world))) as (_ & H & Hcap & _).
  - vm_compute. split; repeat constructor; simpl; intuition discriminate.
  - split; [exact Hcap|].
    destruct H as (oldest & compressed & _ & _ & _ & _ & _ & _ & _ & Hkeep).
    + vm_compute. reflexivity.
    + exact Hkeep.
Defined.

(** ** [to_dict] and [from_dict] *)

(** X13. [from_dict(to_dict(e))] rebuilds every field of [e], passing the
    entry through the constructor again: an entry whose [last_accessed] is 0
    gets its timestamp there, every other entry is given back as it is.  The
    dictionary of [to_dict] has exactly the eleven field names, in the order
    of their declaration. *)
Theorem to_dict_from_dict (e : MemoryEntry) :
  from_dict (to_dict e)
  = inr (MemoryEntry_init (id e) (content e) (memory_type e) (priority e)
           (timestamp e) (access_count e) (last_accessed e)
           (Some (context e)) (embedding e) (summary e) (Some (tags e)))
  /\ (constructed e -> from_dict (to_dict e) = inr e)
  /\ (exists o, to_dict e = JObj o /\ Py.keys o = field_names).
Proof.
  assert (H : from_dict (to_dict e)
              = inr (MemoryEntry_init (id e) (content e) (memory_type e)
                       (priority e) (timestamp e) (access_count e)
                       (last_accessed e) (Some (context e)) (embedding e)
                       (summary e) (Some (tags e)))).
  { destruct e as [i c t p ts ac la ctx emb s tg].
    unfold from_dict, to_dict.
    cbn [Py.get String.eqb Ascii.eqb Bool.eqb id content memory_type priority
         timestamp access_count last_accessed context embedding summary tags].
    rewrite MemoryType_of_value_value, MemoryPriority_of_value_value.
    cbn [forallb fst str_in_list existsb field_names String.eqb Ascii.eqb
         Bool.eqb orb andb].
    unfold required, or_outside.
    cbn [Py.get String.eqb Ascii.eqb Bool.eqb json_to_str json_to_float
         json_to_int].
    rewrite decode_optional_context, decode_optional_embedding,
      decode_optional_summary, decode_optional_tags.
    reflexivity. }
  split; [exact H|]. split.
  - intros Hc. now apply from_dict_to_dict.
  - eexists. split; reflexivity.
Qed.

Lemma forallb_false {A} (f : A -> bool) (l : list A) (x : A) :
  In x l -> f x = false -> forallb f l = false.
Proof.
  intros Hin Hf. destruct (forallb f l) eqn:H; [|reflexivity].
  rewrite forallb_forall in H. rewrite (H x Hin) in Hf. discriminate.
Qed.

Lemma from_dict_constructed (data : json) (e : MemoryEntry) :
  from_dict data = inr e -> constructed e.
Proof.
  unfold from_dict, required, or_outside. intros H.
  repeat match type of H with
         | context [match ?x with _ => _ end] =>
             destruct x eqn:?; try discriminate
         end.
  injection H as <-. apply MemoryEntry_init_constructed.
Qed.

(** X14. What [from_dict] raises.  A document that is not an object, an
    unknown key, or a missing [id], [content] or [timestamp] is a TypeError;
    a missing [memory_type] or [priority] is a KeyError of that name; a
    memory type that is none of the six values, or an integer priority
    outside 1..4, is a ValueError.  The memory type is looked at first, then
    the priority, then the keys.  Whatever [from_dict] returns is an entry as
    the constructor leaves it. *)
Theorem from_dict_errors (o : list (string * json)) :
  (forall data, (forall o', data <> JObj o') -> from_dict data = inl TypeError)
  /\ (Py.get "memory_type" o = None ->
      from_dict (JObj o) = inl (KeyError "memory_type"))
  /\ (forall s, Py.get "memory_type" o = Some (JStr s) ->
        (forall t, MemoryType_value t <> s) ->
        from_dict (JObj o) = inl ValueError)
  /\ (forall t, Py.get "memory_type" o = Some (JStr (MemoryType_value t)) ->
        (Py.get "priority" o = None ->
         from_dict (JObj o) = inl (KeyError "priority"))
        /\ (forall n, Py.get "priority" o = Some (JInt n) ->
              ~ 1 <= n <= 4 -> from_dict (JObj o) = inl ValueError)
        /\ (forall p, Py.get "priority" o
                      = Some (JInt (MemoryPriority_value p)) ->
              (forall k, In k (Py.keys o) -> ~ In k field_names ->
                         from_dict (JObj o) = inl TypeError)
              /\ (Py.get "id" o = None \/ Py.get "content" o = None
                  \/ Py.get "timestamp" o = None ->
                  from_dict (JObj o) = inl TypeError)))
  /\ (forall data e, from_dict data = inr e -> constructed e).
Proof.
  split.
  { intros data Hd. destruct data; try reflexivity. now elim (Hd o0). }
  split.
  { intros H. unfold from_dict. now rewrite H. }
  split.
  { intros s Hs Hno. unfold from_dict. rewrite Hs.
    assert (Hv : MemoryType_of_value (JStr s) = inl ValueError).
    { unfold MemoryType_of_value.
      destruct (String.eqb_spec s "short_term") as [->|_];
        [now elim (Hno SHORT_TERM)|].
      destruct (String.eqb_spec s "long_term") as [->|_];
        [now elim (Hno LONG_TERM)|].
      destruct (String.eqb_spec s "working") as [->|_];
        [now elim (Hno WORKING)|].
      destruct (String.eqb_spec s "episodic") as [->|_];
        [now elim (Hno EPISODIC)|].
      destruct (String.eqb_spec s "semantic") as [->|_];
        [now elim (Hno SEMANTIC)|].
      destruct (String.eqb_spec s "procedural") as [->|_];
        [now elim (Hno PROCEDURAL)|].
      reflexivity. }
    now rewrite Hv. }
  split.
  { intros t Ht. split.
    { intros Hp. unfold from_dict.
      now rewrite Ht, MemoryType_of_value_value, Hp. }
    split.
    { intros n Hp Hn. unfold from_dict.
      rewrite Ht, MemoryType_of_value_value, Hp.
      assert (Hv : MemoryPriority_of_value (JInt n) = inl ValueError).
      { unfold MemoryPriority_of_value, MemoryPriority_of_Z.
        destruct n as [|q|q]; try reflexivity.
        destruct q as [[[q|q|]|[q|q|]|]|[[q|q|]|[q|q|]|]|];
          try reflexivity; lia. }
      now rewrite Hv. }
    intros p Hp. split.
    { intros k Hk Hout. unfold from_dict.
      rewrite Ht, MemoryType_of_value_value, Hp,
        MemoryPriority_of_value_value.
      unfold Py.keys in Hk. apply in_map_iff in Hk.
      destruct Hk as (kv & <- & Hin).
      rewrite (forallb_false _ _ kv Hin); [reflexivity|].
      destruct (str_in_list (fst kv) field_names) eqn:Hs; [|reflexivity].
      apply str_in_list_In in Hs. contradiction. }
    intros Hmiss. unfold from_dict.
    rewrite Ht, MemoryType_of_value_value, Hp, MemoryPriority_of_value_value.
    destruct (forallb _ o); [|reflexivity].
    unfold required.
    destruct (Py.get "id" o) eqn:Hi; [|reflexivity].
    destruct (Py.get "content" o) eqn:Hc; [|reflexivity].
    destruct (Py.get "timestamp" o) eqn:Hts; [|reflexivity].
    destruct Hmiss as [H|[H|H]]; discriminate. }
  apply from_dict_constructed.
Qed.

(** ** [load_from_file]: malformed entries and existing contents *)

Lemma load_entries_stops (good : list MemoryEntry) (bad : json)
  (rest : list json) (err : exn) :
  Forall constructed good ->
  from_dict bad = inl err ->
  forall s,
    load_entries (map to_dict good ++ bad :: rest) s
    = (Some err, fold_left (fun s e => snd (store_add e s)) good s).
Proof.
  intros Hgood Hbad. induction Hgood as [|e t He Ht IH]; intros s;
    cbn [map fold_left].
  - simpl. now rewrite Hbad.
  - rewrite <- app_comm_cons. cbn [load_entries].
    rewrite (from_dict_to_dict He). apply IH.
Qed.

Lemma add_entries_fold (l : list MemoryEntry) :
  forall s,
    memories (fold_left (fun s e => snd (store_add e s)) l s)
    = fold_left (fun d e => Py.set (id e) e d) l (memories s).
Proof.
  induction l as [|e t IH]; intros s; cbn [fold_left]; [reflexivity|].
  now rewrite IH.
Qed.

Lemma fold_set_length (l : list MemoryEntry) :
  forall d : Py.dict MemoryEntry,
    (List.length d
     <= List.length (fold_left (fun d e => Py.set (id e) e d) l d))%nat.
Proof.
  induction l as [|e t IH]; intros d; cbn [fold_left]; [lia|].
  etransitivity; [|apply IH]. rewrite set_length.
  destruct (Py.mem (id e) d); lia.
Qed.

(** X15. An entry that [from_dict] rejects ends [load_from_file] with that
    exception and leaves the memory half loaded: the entries that precede it
    in its list have been added, nothing after it is read, and the session is
    the old one.  When the entry is in the short-term list the long-term
    store is untouched; when it is in the long-term list the short-term list
    has been loaded completely. *)
Theorem load_from_file_stops_at_bad_entry (filepath : string)
  (self : LongShortTermMemory) (w : World) (o : list (string * json))
  (good : list MemoryEntry) (bad : json) (rest : list json) (err : exn) :
  files w filepath = Some (JObj o) ->
  Forall constructed good ->
  from_dict bad = inl err ->
  let add_entries :=
    fold_left (fun s e => snd (store_add e s)) in
  (Py.get "short_term" o = Some (JArr (map to_dict good ++ bad :: rest)) ->
   load_from_file filepath self w
   = (Some err,
      with_short (add_entries good (short_term_store self)) self, w))
  /\ (forall shorts,
        Py.get "short_term" o = Some (JArr (map to_dict shorts)) ->
        Forall constructed shorts ->
        Py.get "long_term" o = Some (JArr (map to_dict good ++ bad :: rest)) ->
        load_from_file filepath self w
        = (Some err,
           with_long (add_entries good (long_term_store self))
             (with_short (add_entries shorts (short_term_store self)) self),
           w)).
Proof.
  intros Hfile Hgood Hbad add_entries. split.
  - intros Hs. unfold load_from_file, read_file. rewrite bind_run.
    cbn [fst snd]. rewrite Hfile. unfold entries_of. rewrite Hs.
    now rewrite (@load_entries_stops good bad rest err Hgood Hbad).
  - intros shorts Hs Hshorts Hl.
    unfold load_from_file, read_file. rewrite bind_run.
    cbn [fst snd]. rewrite Hfile. unfold entries_of. rewrite Hs.
    rewrite (load_entries_to_dict Hshorts). rewrite Hl.
    cbn [long_term_store with_short].
    now rewrite (@load_entries_stops good bad rest err Hgood Hbad).
Qed.

(** The file lists entry [a] and then an object without [memory_type]:
    KeyError, and [a] is in the short-term store. *)
Lemma load_from_file_stops_at_bad_entry_witness :
  let self := fst (LongShortTermMemory_init 100 1000 demo_world) in
  let r := load_from_file "memory.json" self demo_broken_file in
  fst (fst r) = Some (KeyError "memory_type")
  /\ Py.keys (memories (short_term_store (snd (fst r)))) = ["a"].
Proof.
  intros self r.
  destruct (@load_from_file_stops_at_bad_entry "memory.json" self
              demo_broken_file
              [("short_term",
                JArr [to_dict (session_entry "a" LOW 1);
                      JObj [("id", JStr "b")]])]
              [session_entry "a" LOW 1] (JObj [("id", JStr "b")]) []
              (KeyError "memory_type")) as (H & _).
  - reflexivity.
  - constructor; [apply MemoryEntry_init_constructed | constructor].
  - reflexivity.
  - unfold r. rewrite (H eq_refl). split; reflexivity.
Defined.

(** X16. Loading a saved memory into an instance that already holds entries
    merges the file into it.  The load raises nothing; every saved entry is
    afterwards stored under its id, replacing an entry of that id; every
    other entry of the instance is kept, whatever the capacities, which are
    not enforced and not changed; and the session becomes the saved one. *)
Theorem load_from_file_merges (saved self : LongShortTermMemory)
  (filepath : string) (w0 : World) :
  persistable saved ->
  let w := snd (save_to_file filepath saved w0) in
  let r := load_from_file filepath self w in
  let self' := snd (fst r) in
  fst (fst r) = None
  /\ (forall e, In e (Py.values (memories (short_term_store saved))) ->
        Py.get (id e) (memories (short_term_store self')) = Some e)
  /\ (forall k, ~ In k (Py.keys (memories (short_term_store saved))) ->
        Py.get k (memories (short_term_store self'))
        = Py.get k (memories (short_term_store self)))
  /\ (forall e, In e (Py.values (memories (long_term_store saved))) ->
        Py.get (id e) (memories (long_term_store self')) = Some e)
  /\ (forall k, ~ In k (Py.keys (memories (long_term_store saved))) ->
        Py.get k (memories (long_term_store self'))
        = Py.get k (memories (long_term_store self)))
  /\ Py.len (memories (short_term_store self))
     <= Py.len (memories (short_term_store self'))
  /\ Py.len (memories (long_term_store self))
     <= Py.len (memories (long_term_store self'))
  /\ current_session self' = current_session saved
  /\ short_term_capacity self' = short_term_capacity self
  /\ long_term_capacity self' = long_term_capacity self.
Proof.
  intros (Hs & Hl & Hcs & Hcl) w r self'.
  set (shorts := Py.values (memories (short_term_store saved))) in *.
  set (longs := Py.values (memories (long_term_store saved))) in *.
  set (add_entries := fold_left (fun s e => snd (store_add e s))).
  assert (Hr : r = (None,
                    with_session (current_session saved)
                      (with_long (add_entries longs (long_term_store self))
                         (with_short
                            (add_entries shorts (short_term_store self))
                            self)),
                    snd (uuid4 w))).
  { unfold r, load_from_file, read_file. rewrite bind_run. cbn [fst snd].
    assert (Hfile : files w filepath
                    = Some (JObj [ ("short_term", JArr (map to_dict shorts));
                                   ("long_term", JArr (map to_dict longs));
                                   ("current_session",
                                    JStr (current_session saved)) ])).
    { unfold w, save_to_file, write_file. cbn [snd files].
      now rewrite String.eqb_refl. }
    rewrite Hfile. unfold entries_of.
    cbn [Py.get String.eqb Ascii.eqb Bool.eqb].
    rewrite (load_entries_to_dict Hcs).
    cbn [long_term_store with_short].
    rewrite (load_entries_to_dict Hcl).
    rewrite bind_run. reflexivity. }
  unfold self'. rewrite Hr.
  cbn [fst snd short_term_store long_term_store with_session with_long
       with_short current_session short_term_capacity long_term_capacity].
  unfold add_entries. rewrite !add_entries_fold.
  assert (Hsame : forall d l0 e,
            dict_ok d -> In e (Py.values d) ->
            Py.get (id e)
              (fold_left (fun d0 e0 => Py.set (id e0) e0 d0) (Py.values d) l0)
            = Some e).
  { intros d l0 e Hok He.
    destruct (get_fold_set_same (fun e0 => e0) (Py.values d) e l0 He)
      as (m' & Hm' & Hid & Hget).
    rewrite Hget. f_equal. exact (@values_same_id d m' e Hok Hm' He Hid). }
  assert (Hother : forall d l0 k,
            dict_ok d -> ~ In k (Py.keys d) ->
            Py.get k
              (fold_left (fun d0 e0 => Py.set (id e0) e0 d0) (Py.values d) l0)
            = Py.get k l0).
  { intros d l0 k Hok Hk.
    apply (get_fold_set_other (fun e0 => e0)).
    now rewrite (dict_ok_ids Hok). }
  split; [reflexivity|].
  split; [intros e He; now apply Hsame|].
  split; [intros k Hk; now apply Hother|].
  split; [intros e He; now apply Hsame|].
  split; [intros k Hk; now apply Hother|].
  split; [unfold Py.len; apply inj_le, fold_set_length|].
  split; [unfold Py.len; apply inj_le, fold_set_length|].
  repeat split; reflexivity.
Qed.

(** Three saved notes are loaded into a memory of short-term capacity 1 that
    holds a note of its own. *)
Lemma load_from_file_merges_witness :
  let saved := fst (demo_three_notes demo_world) in
  let self := fst (demo_one_note demo_world) in
  let r := load_from_file "memory.json" self
             (snd (save_to_file "memory.json" saved demo_world)) in
  fst (fst r) = None
  /\ current_session (snd (fst r)) = current_session saved.
Proof.
  intros saved self r.
  destruct (@load_from_file_merges saved self "memory.json" demo_world)
    as (H1 & _ & _ & _ & _ & _ & _ & H8 & _).
  - unfold saved, demo_three_notes. rewrite bind_run.
    apply add_all_persistable, fresh_persistable.
  - split; [exact H1 | exact H8].
Defined.

(** ** [compress_memories] on any list *)

Lemma groups_append_perm (key : ctx_val) (m : MemoryEntry)
  (groups : groups_dict) :
  groups_mem key groups = true ->
  Permutation (List.concat (map snd (groups_append key m groups)))
              (m :: List.concat (map snd groups)).
Proof.
  unfold groups_mem. induction groups as [|[k g] t IH]; simpl;
    [discriminate|].
  destruct (ctx_val_eqb k key) eqn:Hk; simpl.
  - intros _. rewrite <- app_assoc. simpl.
    symmetry. apply Permutation_middle.
  - intros H. rewrite (IH H).
    change (m :: g ++ List.concat (map snd t))
      with ((m :: g) ++ List.concat (map snd t)).
    rewrite <- Permutation_middle. reflexivity.
Qed.

Lemma group_step_perm (groups : groups_dict) (m : MemoryEntry) :
  Permutation (List.concat (map snd (group_step groups m)))
              (m :: List.concat (map snd groups)).
Proof.
  unfold group_step. destruct (groups_mem (session_key m) groups) eqn:H.
  - now apply groups_append_perm.
  - rewrite groups_append_perm.
    + rewrite map_app, concat_app. simpl. now rewrite app_nil_r.
    + unfold groups_mem. rewrite existsb_app. simpl.
      rewrite ctx_val_eqb_refl. now rewrite orb_true_r.
Qed.

(** The groups partition the list. *)
Lemma group_by_session_perm (l : list MemoryEntry) :
  Permutation (List.concat (map snd (group_by_session l))) l.
Proof.
  unfold group_by_session.
  assert (H : forall groups,
             Permutation (List.concat (map snd (fold_left group_step l groups)))
                         (List.concat (map snd groups) ++ l)).
  { induction l as [|m t IH]; intros groups; simpl.
    - now rewrite app_nil_r.
    - rewrite IH, group_step_perm. simpl. apply Permutation_middle. }
  apply (H []).
Qed.

Lemma compress_group_spec (self : MemorySummarizer)
  (kg : ctx_val * list MemoryEntry) (acc : list MemoryEntry) (w : World) :
  exists added,
    fst (compress_group self kg acc w) = acc ++ added
    /\ (List.length added <= List.length (snd kg))%nat
    /\ (forall e, In e added -> In e (snd kg) \/ is_summary e)
    /\ ((List.length (snd kg) <= 3)%nat ->
        compress_group self kg acc w = (acc ++ snd kg, w)).
Proof.
  destruct kg as [k g]. unfold compress_group. cbn [snd].
  destruct (Z.ltb_spec 3 (Py.len g)) as [Hbig|Hsmall].
  - rewrite !bind_run. unfold ret. cbn [fst snd].
    eexists. split; [now rewrite <- app_assoc|]. split; [|split].
    + rewrite length_app. cbn [List.length].
      pose proof (@slice_to_length _ 2 (Py.sort priority_geb g)) as Hl.
      unfold Py.len in *. rewrite sort_length in Hl. lia.
    + intros e He. apply in_app_or in He. destruct He as [[<-|[]]|He].
      * right. unfold is_summary, MemoryEntry_init. cbn.
        repeat split; reflexivity.
      * left. now apply In_slice_to, In_sort in He.
    + unfold Py.len in Hbig. lia.
  - exists g. split; [reflexivity|]. split; [lia|].
    split; [intros e He; now left | reflexivity].
Qed.

Lemma compress_groups_spec (self : MemorySummarizer) (groups : groups_dict) :
  forall acc w,
    exists added,
      fst (for_each groups (compress_group self) acc w) = acc ++ added
      /\ (List.length added <= List.length (List.concat (map snd groups)))%nat
      /\ (forall e, In e added ->
                    In e (List.concat (map snd groups)) \/ is_summary e)
      /\ ((forall kg, In kg groups -> (List.length (snd kg) <= 3)%nat) ->
          for_each groups (compress_group self) acc w
          = (acc ++ List.concat (map snd groups), w)).
Proof.
  induction groups as [|kg t IH]; intros acc w.
  - exists []. cbn. rewrite app_nil_r. repeat split; try lia; tauto.
  - cbn [for_each]. rewrite bind_run.
    destruct (compress_group_spec self kg acc w)
      as (a1 & H1 & Hl1 & Hin1 & Hs1).
    destruct (IH (fst (compress_group self kg acc w))
                 (snd (compress_group self kg acc w)))
      as (a2 & H2 & Hl2 & Hin2 & Hs2).
    exists (a1 ++ a2). split; [|split; [|split]].
    + rewrite H2, H1. now rewrite app_assoc.
    + cbn [map List.concat]. rewrite !length_app. lia.
    + intros e He. cbn [map List.concat]. rewrite in_app_iff.
      apply in_app_or in He. destruct He as [He|He].
      * destruct (Hin1 e He); tauto.
      * destruct (Hin2 e He); tauto.
    + intros Hall. rewrite Hs1 in * by (apply Hall; now left).
      cbn [fst snd] in *. rewrite Hs2 by (intros kg' H; apply Hall; now right).
      cbn [map List.concat]. now rewrite app_assoc.
Qed.

(** X17. [compress_memories] never returns more entries than it is given,
    and every entry it returns is one of the given entries or a summary it
    has made (long-term, medium priority, marked as compressed).  A list of
    at most three entries is returned as it is.  When no session has more
    than three entries, the result holds the given entries, regrouped by
    session, and neither identifier nor clock is read. *)
Theorem compress_memories_spec (self : MemorySummarizer)
  (mems : list MemoryEntry) (w : World) :
  let r := compress_memories self mems w in
  Py.len (fst r) <= Py.len mems
  /\ (forall e, In e (fst r) -> In e mems \/ is_summary e)
  /\ (Py.len mems <= 3 -> r = (mems, w))
  /\ ((forall kg, In kg (group_by_session mems) -> Py.len (snd kg) <= 3) ->
      Permutation (fst r) mems /\ snd r = w).
Proof.
  intros r. unfold r, compress_memories.
  destruct (Z.leb_spec (Py.len mems) 3) as [Hsmall|Hbig].
  - unfold ret. cbn [fst snd].
    repeat split; try lia; try reflexivity; tauto.
  - destruct (compress_groups_spec self (group_by_session mems) [] w)
      as (added & Hr & Hl & Hin & Hs).
    change ([] ++ added) with added in Hr.
    change ([] ++ List.concat (map snd (group_by_session mems)))
      with (List.concat (map snd (group_by_session mems))) in Hs.
    rewrite Hr.
    pose proof (group_by_session_perm mems) as Hperm.
    split; [|split; [|split]].
    + unfold Py.len. apply inj_le.
      now rewrite <- (Permutation_length Hperm).
    + intros e He. destruct (Hin e He) as [H|H]; [left | now right].
      now apply (Permutation_in _ Hperm).
    + lia.
    + intros Hall.
      assert (Hall' : forall kg, In kg (group_by_session mems) ->
                                 (List.length (snd kg) <= 3)%nat).
      { intros kg Hkg. specialize (Hall kg Hkg). unfold Py.len in Hall. lia. }
      specialize (Hs Hall'). rewrite Hs in Hr. cbn [fst] in Hr. subst added.
      rewrite Hs. cbn [snd]. split; [exact Hperm | reflexivity].
Qed.

(** ** [AgentWithMemory] *)

Lemma for_each_uuids {A S} (l : list A) (body : A -> S -> M S) :
  (forall x s w, uuids (snd (body x s w)) = uuids w) ->
  forall s w, uuids (snd (for_each l body s w)) = uuids w.
Proof.
  intros Hbody. induction l as [|x t IH]; intros s w; cbn [for_each].
  - reflexivity.
  - rewrite bind_run, IH. apply Hbody.
Qed.

(** Retrieval reads the clock only. *)
Lemma retrieve_memories_uuids (query : string) (include_short_term : bool)
  (limit : Z) (self : LongShortTermMemory) (w : World) :
  uuids (snd (retrieve_memories query include_short_term limit self w))
  = uuids w.
Proof.
  unfold retrieve_memories, retrieve_relevant. rewrite !bind_run.
  unfold ret. cbn [fst snd].
  apply for_each_uuids. intros x s w0.
  unfold calculate_relevance_score. rewrite !bind_run. reflexivity.
Qed.

Lemma retrieve_memories_length (query : string) (include_short_term : bool)
  (limit : Z) (self : LongShortTermMemory) (w : World) :
  0 <= limit ->
  Py.len (fst (retrieve_memories query include_short_term limit self w))
  <= limit.
Proof.
  intros Hl. unfold retrieve_memories. rewrite bind_run.
  unfold ret. cbn [fst snd]. rewrite slice_to_length by exact Hl. lia.
Qed.

(** The three steps of [process_message]. *)
Lemma process_message_run (message : string) (user_id : option string)
  (self : AgentWithMemory) (w : World) :
  let found := retrieve_memories message true 5 (memory self) w in
  let r1 :=
    add_memory ("User said: " ++ message)%string SHORT_TERM MEDIUM
      (Some [("user_id", user_id_value user_id);
             ("type", VStr "user_message")])
      None (memory self) (snd found) in
  let r2 :=
    add_memory
      ("Agent responded: " ++ reply message (List.length (fst found)))%string
      SHORT_TERM MEDIUM
      (Some [("user_id", user_id_value user_id);
             ("type", VStr "agent_response")])
      None (snd (fst r1)) (snd r1) in
  process_message message user_id self w
  = (reply message (List.length (fst found)),
     {| memory := snd (fst r2); name := name self |}, snd r2).
Proof.
  unfold process_message. rewrite !bind_run. reflexivity.
Qed.

Lemma add_memory_short_frame (content : string) (p : MemoryPriority)
  (ctx : option context_dict) (tags : option (list string))
  (self : LongShortTermMemory) (w : World) :
  let self' := snd (fst (add_memory content SHORT_TERM p ctx tags self w)) in
  long_term_store self' = long_term_store self
  /\ short_term_capacity self' = short_term_capacity self
  /\ long_term_capacity self' = long_term_capacity self
  /\ summarizer self' = summarizer self
  /\ current_session self' = current_session self.
Proof.
  destruct (add_memory_short_step content p ctx tags self w) as (Hstep & _).
  cbv zeta in *. rewrite Hstep.
  match goal with
  | |- context [manage_short_term_capacity ?x] =>
      destruct (manage_short_frame x) as (H1 & H2 & H3 & H4 & H5)
  end.
  rewrite H1, H2, H3, H4, H5. repeat split; reflexivity.
Qed.

(** When there is room for two more entries and the two identifiers are new,
    the short-term store gains the message and the reply. *)
Lemma process_message_stores (message : string) (user_id : option string)
  (self : AgentWithMemory) (w : World) :
  Py.len (memories (short_term_store (memory self))) + 2
  <= short_term_capacity (memory self) ->
  NoDup (Py.keys (memories (short_term_store (memory self)))
         ++ [uuids w 0%nat; uuids w 1%nat]) ->
  let r := process_message message user_id self w in
  let n := List.length (fst (retrieve_memories message true 5 (memory self)
                               w)) in
  exists e1 e2,
    memories (short_term_store (memory (snd (fst r))))
    = memories (short_term_store (memory self))
      ++ [(uuids w 0%nat, e1); (uuids w 1%nat, e2)]
    /\ id e1 = uuids w 0%nat /\ id e2 = uuids w 1%nat
    /\ content e1 = ("User said: " ++ message)%string
    /\ content e2 = ("Agent responded: " ++ reply message n)%string
    /\ context e1 = [("user_id", user_id_value user_id);
                     ("type", VStr "user_message")]
    /\ context e2 = [("user_id", user_id_value user_id);
                     ("type", VStr "agent_response")]
    /\ memory_type e1 = SHORT_TERM /\ memory_type e2 = SHORT_TERM
    /\ priority e1 = MEDIUM /\ priority e2 = MEDIUM
    /\ tags e1 = [] /\ tags e2 = [].
Proof.
  intros Hfit Hnd r n. subst r n. rewrite process_message_run.
  cbv zeta. cbn [fst snd memory].
  set (found := retrieve_memories message true 5 (memory self) w).
  set (n := List.length (fst found)).
  assert (Hu : uuids (snd found) = uuids w)
    by apply retrieve_memories_uuids.
  set (c1 := ("User said: " ++ message)%string).
  set (x1 := Some [("user_id", user_id_value user_id);
                   ("type", VStr "user_message")]).
  set (c2 := ("Agent responded: " ++ reply message n)%string).
  set (x2 := Some [("user_id", user_id_value user_id);
                   ("type", VStr "agent_response")]).
  assert (Hout0 : ~ In (uuids w 0%nat)
                      (Py.keys (memories (short_term_store (memory self))))).
  { intros Hin. apply NoDup_remove_2 in Hnd. apply Hnd.
    apply in_or_app. now left. }
  destruct (@add_memory_short_fits c1 MEDIUM x1 None (memory self)
              (snd found)) as (Hm1 & Hc1 & _).
  { now rewrite Hu. }
  { lia. }
  destruct (add_memory_short_step c1 MEDIUM x1 None (memory self)
              (snd found)) as (_ & _ & Hw1).
  cbv zeta in Hw1.
  set (r1 := add_memory c1 SHORT_TERM MEDIUM x1 None (memory self)
               (snd found)) in *.
  assert (Hu1 : uuids (snd r1) 0%nat = uuids w 1%nat).
  { rewrite Hw1. unfold tick, time_time, uuid4. cbn [snd uuids].
    now rewrite Hu. }
  destruct (@add_memory_short_fits c2 MEDIUM x2 None (snd (fst r1))
              (snd r1)) as (Hm2 & _).
  { rewrite Hu1, Hm1. unfold Py.keys. rewrite map_app. cbn [map fst].
    rewrite Hu. intros Hin.
    assert (Hnd' : NoDup ((Py.keys (memories (short_term_store (memory self)))
                           ++ [uuids w 0%nat]) ++ [uuids w 1%nat])).
    { now rewrite <- app_assoc. }
    apply NoDup_remove_2 in Hnd'. rewrite app_nil_r in Hnd'.
    now apply Hnd'. }
  { rewrite Hm1, Hc1. unfold Py.len in *. rewrite length_app.
    cbn [List.length]. lia. }
  rewrite Hm2, Hm1, <- app_assoc.
  exists (new_entry c1 SHORT_TERM MEDIUM x1 None (memory self) (snd found)),
         (new_entry c2 SHORT_TERM MEDIUM x2 None (snd (fst r1)) (snd r1)).
  split; [cbn [app]; now rewrite Hu1, Hu|].
  unfold new_entry, MemoryEntry_init.
  cbn [id content context memory_type priority tags or_default x1 x2].
  rewrite Hu, Hu1. repeat split; reflexivity.
Qed.

Lemma lower_app (a b : string) :
  Py.lower (a ++ b) = (Py.lower a ++ Py.lower b)%string.
Proof. induction a as [|c a IH]; simpl; [reflexivity | now rewrite IH]. Qed.

Lemma prefix_app (a b : string) : String.prefix a (a ++ b) = true.
Proof.
  induction a as [|c a IH]; simpl; [now destruct b|].
  destruct (ascii_dec c c); [exact IH | congruence].
Qed.

Lemma contains_here (a b : string) : Py.contains a (a ++ b) = true.
Proof.
  pose proof (prefix_app a b) as H.
  destruct (a ++ b)%string; cbn [Py.contains]; now rewrite H.
Qed.

Lemma contains_app_r (a p b : string) :
  Py.contains a b = true -> Py.contains a (p ++ b) = true.
Proof.
  intros H. induction p as [|c p IH]; [exact H|].
  cbn [String.append Py.contains].
  now destruct (String.prefix a (String c (p ++ b))).
Qed.

(** An entry whose content mentions the query matches it. *)
Lemma matches_mention (query before after : string) (e : MemoryEntry) :
  content e = (before ++ query ++ after)%string ->
  matches (Py.lower query) e = true.
Proof.
  intros H. unfold matches. rewrite H, !lower_app.
  rewrite contains_app_r; [reflexivity | apply contains_here].
Qed.

(** X18. [process_message] answers
    ["Processed: <message>. Context: <n> memories retrieved."], where [n] is
    the number of memories that [retrieve_memories(message, limit=5)] finds
    before anything is stored, so at most 5.  It never changes the long-term
    store, the capacities, the session or the name.  When the short-term
    store has room for two more entries and the two identifiers drawn are
    new, it gains exactly two short-term entries of medium priority, in this
    order: the message and the reply, prefixed with ["User said: "] and
    ["Agent responded: "], whose contexts hold [user_id] and [type] and no
    session. *)
Theorem process_message_spec (message : string) (user_id : option string)
  (self : AgentWithMemory) (w : World) :
  let r := process_message message user_id self w in
  let n := List.length (fst (retrieve_memories message true 5 (memory self)
                               w)) in
  let agent := snd (fst r) in
  fst (fst r) = reply message n
  /\ (n <= 5)%nat
  /\ long_term_store (memory agent) = long_term_store (memory self)
  /\ short_term_capacity (memory agent) = short_term_capacity (memory self)
  /\ long_term_capacity (memory agent) = long_term_capacity (memory self)
  /\ current_session (memory agent) = current_session (memory self)
  /\ name agent = name self
  /\ (Py.len (memories (short_term_store (memory self))) + 2
      <= short_term_capacity (memory self) ->
      NoDup (Py.keys (memories (short_term_store (memory self)))
             ++ [uuids w 0%nat; uuids w 1%nat]) ->
      exists e1 e2,
        memories (short_term_store (memory agent))
        = memories (short_term_store (memory self))
          ++ [(uuids w 0%nat, e1); (uuids w 1%nat, e2)]
        /\ id e1 = uuids w 0%nat /\ id e2 = uuids w 1%nat
        /\ content e1 = ("User said: " ++ message)%string
        /\ content e2 = ("Agent responded: " ++ reply message n)%string
        /\ context e1 = [("user_id", user_id_value user_id);
                         ("type", VStr "user_message")]
        /\ context e2 = [("user_id", user_id_value user_id);
                         ("type", VStr "agent_response")]
        /\ memory_type e1 = SHORT_TERM /\ memory_type e2 = SHORT_TERM
        /\ priority e1 = MEDIUM /\ priority e2 = MEDIUM
        /\ tags e1 = [] /\ tags e2 = []).
Proof.
  intros r n agent.
  split; [unfold r; now rewrite process_message_run|].
  split.
  { pose proof (@retrieve_memories_length message true 5 (memory self) w)
      as H. unfold Py.len in H. unfold n. lia. }
  assert (Hframe :
            long_term_store (memory agent) = long_term_store (memory self)
            /\ short_term_capacity (memory agent)
               = short_term_capacity (memory self)
            /\ long_term_capacity (memory agent)
               = long_term_capacity (memory self)
            /\ current_session (memory agent) = current_session (memory self)
            /\ name agent = name self).
  { unfold agent, r. rewrite process_message_run. cbv zeta.
    cbn [fst snd memory name].
    match goal with
    | |- context [add_memory ?c SHORT_TERM ?p ?x ?t
                    (snd (fst (add_memory ?c0 SHORT_TERM ?p0 ?x0 ?t0 ?s0 ?w0)))
                    ?w1] =>
        destruct (add_memory_short_frame c p x t
                    (snd (fst (add_memory c0 SHORT_TERM p0 x0 t0 s0 w0))) w1)
          as (H1 & H2 & H3 & _ & H5);
        destruct (add_memory_short_frame c0 p0 x0 t0 s0 w0)
          as (G1 & G2 & G3 & _ & G5)
    end.
    cbv zeta in *. rewrite H1, H2, H3, H5, G1, G2, G3, G5.
    repeat split; reflexivity. }
  destruct Hframe as (F1 & F2 & F3 & F4 & F5).
  split; [exact F1|]. split; [exact F2|]. split; [exact F3|].
  split; [exact F4|]. split; [exact F5|].
  intros Hfit Hnd. now apply process_message_stores.
Qed.

(** X19. A freshly constructed agent remembers what it was told: the first
    message is answered with 0 retrieved memories and the same message sent
    again with 2, the stored message and the stored reply, whatever the
    message and the user ids are, provided the two identifiers drawn by the
    first call differ. *)
Theorem agent_recalls_repeated_message (message : string)
  (user_id user_id' : option string) (w : World) :
  uuids w 1%nat <> uuids w 2%nat ->
  let fresh := AgentWithMemory_init w in
  let first := process_message message user_id (fst fresh) (snd fresh) in
  let second :=
    process_message message user_id' (snd (fst first)) (snd first) in
  fst (fst first) = reply message 0
  /\ fst (fst second) = reply message 2.
Proof.
  intros Hne fresh first second.
  assert (Hfound0 : fst (retrieve_memories message true 5
                           (memory (fst fresh)) (snd fresh)) = []).
  { reflexivity. }
  assert (Hfirst : fst (fst first) = reply message 0).
  { unfold first. rewrite process_message_run. cbv zeta. cbn [fst].
    now rewrite Hfound0. }
  split; [exact Hfirst|].
  destruct (@process_message_stores message user_id (fst fresh) (snd fresh))
    as (e1 & e2 & Hmem & _ & _ & Hc1 & Hc2 & _).
  { cbn. lia. }
  { cbn. repeat constructor; simpl; intuition. }
  fold first in Hmem. rewrite Hfound0 in Hc2. cbn [List.length] in Hc2.
  assert (Hlong : long_term_store (memory (snd (fst first)))
                  = InMemoryStore_init).
  { unfold first. rewrite process_message_run. cbv zeta.
    cbn [fst snd memory].
    match goal with
    | |- context [add_memory ?c SHORT_TERM ?p ?x ?t
                    (snd (fst (add_memory ?c0 SHORT_TERM ?p0 ?x0 ?t0 ?s0 ?w0)))
                    ?w1] =>
        destruct (add_memory_short_frame c p x t
                    (snd (fst (add_memory c0 SHORT_TERM p0 x0 t0 s0 w0))) w1)
          as (H1 & _);
        destruct (add_memory_short_frame c0 p0 x0 t0 s0 w0) as (G1 & _)
    end.
    cbv zeta in *. now rewrite H1, G1. }
  unfold second. rewrite process_message_run. cbv zeta. cbn [fst].
  f_equal.
  unfold retrieve_memories, retrieve_relevant. rewrite !bind_run.
  unfold ret. cbn [fst snd]. rewrite Hlong.
  change (store_search message (5 * 2) InMemoryStore_init) with
    (@nil MemoryEntry).
  cbn [for_each ret fst snd Py.sort Py.slice_to map app Z.leb firstn].
  assert (Hlen : Py.len (Py.slice_to 5
                   (Py.sort search_key_geb
                      (store_search message (5 / 2)
                         (short_term_store (memory (snd (fst first)))))))
                 = 2).
  { rewrite slice_to_length by lia. unfold Py.len at 1.
    rewrite sort_length. fold (Py.len (store_search message (5 / 2)
                         (short_term_store (memory (snd (fst first)))))).
    unfold store_search. rewrite slice_to_length by (vm_compute; discriminate).
    unfold Py.len at 1. rewrite sort_length, Hmem.
    cbn [memory short_term_store fst fresh AgentWithMemory_init app
         Py.values map snd filter].
    change (memories (short_term_store (memory (fst fresh)))) with
      (@nil (string * MemoryEntry)).
    change (Py.values ([] ++ [(uuids (snd fresh) 0%nat, e1);
                              (uuids (snd fresh) 1%nat, e2)]))
      with [e1; e2].
    cbn [filter].
    rewrite (@matches_mention message "User said: " "" e1)
      by (now rewrite Hc1, string_app_nil_r).
    rewrite (@matches_mention message "Agent responded: Processed: "
               ". Context: 0 memories retrieved." e2)
      by (rewrite Hc2; unfold reply; cbn; now rewrite ?string_app_assoc).
    reflexivity. }
  change (([] ++ map fst (Py.slice_to 5 (@nil (MemoryEntry * float))))
          ++ store_search message (5 / 2)
               (short_term_store (memory (snd (fst first)))))
    with (store_search message (5 / 2)
            (short_term_store (memory (snd (fst first))))).
  unfold Py.len in Hlen. lia.
Qed.

(** The demo world draws the identifiers [id-1] and [id-2]. *)
Lemma agent_recalls_repeated_message_witness :
  let fresh := AgentWithMemory_init demo_world in
  let first := process_message "my name is Alice" None (fst fresh)
                 (snd fresh) in
  fst (fst (process_message "my name is Alice" None (snd (fst first))
              (snd first)))
  = reply "my name is Alice" 2.
Proof.
  intros fresh first.
  destruct (@agent_recalls_repeated_message "my name is Alice" None None
              demo_world) as (_ & H).
  - vm_compute. discriminate.
  - exact H.
Defined.

Lemma add_memory_long_fits (content : string) (memory_type : MemoryType)
  (p : MemoryPriority) (ctx : option context_dict)
  (tags : option (list string)) (self : LongShortTermMemory) (w : World) :
  memory_type <> SHORT_TERM ->
  ~ In (uuids w 0%nat) (Py.keys (memories (long_term_store self))) ->
  Py.len (memories (long_term_store self)) < long_term_capacity self ->
  let self' :=
    snd (fst (add_memory content memory_type p ctx tags self w)) in
  memories (long_term_store self')
  = memories (long_term_store self)
    ++ [(uuids w 0%nat, new_entry content memory_type p ctx tags self w)]
  /\ short_term_store self' = short_term_store self.
Proof.
  intros Hne Hfresh Hfits self'. unfold self'.
  rewrite (@add_memory_long_step content memory_type p ctx tags self w Hne).
  set (entry := new_entry content memory_type p ctx tags self w).
  assert (Hset : Py.set (id entry) entry (memories (long_term_store self))
                 = memories (long_term_store self)
                   ++ [(uuids w 0%nat, entry)]).
  { now apply set_fresh. }
  unfold manage_long_term_capacity.
  cbn [long_term_store long_term_capacity with_long store_add snd memories].
  rewrite Hset.
  destruct (Z.ltb_spec (long_term_capacity self)
              (Py.len (memories (long_term_store self)
                       ++ [(uuids w 0%nat, entry)]))) as [Hover|_].
  - unfold Py.len in *. rewrite length_app in Hover.
    cbn [List.length] in Hover. lia.
  - cbn [long_term_store short_term_store with_long memories].
    split; reflexivity.
Qed.

(** X20. [learn_from_interaction] never touches the short-term store or
    the name of the agent.  When the long-term store is below its capacity
    and the identifier drawn is new, it appends one long-term entry of high
    priority, tagged [learning] and [important], whose content is
    ["Learned: <learning> from observation: <observation>"] and whose
    context is the session of the memory.  A search of the long-term store
    for either tag, for the learning or for the observation, in any case of
    letters, finds the entry when the limit admits every match. *)
Theorem learn_from_interaction_spec (observation learning : string)
  (self : AgentWithMemory) (w : World) :
  let agent := fst (learn_from_interaction observation learning self w) in
  short_term_store (memory agent) = short_term_store (memory self)
  /\ name agent = name self
  /\ (~ In (uuids w 0%nat)
           (Py.keys (memories (long_term_store (memory self)))) ->
      Py.len (memories (long_term_store (memory self)))
      < long_term_capacity (memory self) ->
      exists e,
        memories (long_term_store (memory agent))
        = memories (long_term_store (memory self)) ++ [(uuids w 0%nat, e)]
        /\ id e = uuids w 0%nat
        /\ content e
           = ("Learned: " ++ learning ++ " from observation: "
              ++ observation)%string
        /\ memory_type e = LONG_TERM
        /\ priority e = HIGH
        /\ tags e = ["learning"; "important"]
        /\ context e = [("session", VStr (current_session (memory self)))]
        /\ timestamp e = clock w 0%nat
        /\ (forall q q' limit,
              In q ["learning"; "important"; learning; observation] ->
              Py.lower q' = Py.lower q ->
              Py.len (filter (matches (Py.lower q'))
                        (Py.values
                           (memories (long_term_store (memory agent)))))
              <= limit ->
              In e (store_search q' limit
                      (long_term_store (memory agent))))).
Proof.
  intros agent.
  set (c := ("Learned: " ++ learning ++ " from observation: "
             ++ observation)%string).
  set (e := new_entry c LONG_TERM HIGH None (Some ["learning"; "important"])
              (memory self) w).
  assert (Hne : LONG_TERM <> SHORT_TERM) by discriminate.
  assert (Hagent : memory agent
                   = snd (fst (add_memory c LONG_TERM HIGH None
                                 (Some ["learning"; "important"])
                                 (memory self) w))
                   /\ name agent = name self).
  { unfold agent, learn_from_interaction. rewrite bind_run.
    split; reflexivity. }
  destruct Hagent as (Hagent & Hname).
  split.
  { rewrite Hagent.
    rewrite (@add_memory_long_step c LONG_TERM HIGH None
               (Some ["learning"; "important"]) (memory self) w Hne).
    match goal with
    | |- context [manage_long_term_capacity ?x] =>
        destruct (manage_long_frame x) as (H1 & _)
    end.
    now rewrite H1. }
  split; [exact Hname|].
  intros Hfresh Hfits.
  destruct (@add_memory_long_fits c LONG_TERM HIGH None
              (Some ["learning"; "important"]) (memory self) w Hne Hfresh
              Hfits) as (Hmem & _).
  fold e in Hmem.
  exists e. rewrite Hagent.
  split; [exact Hmem|].
  do 7 (split; [reflexivity|]).
  intros q q' limit Hq Hlow Hlimit.
  apply (Permutation_in _ (Permutation_sym
                             (store_search_complete q' _ Hlimit))).
  apply filter_In. split.
  - rewrite Hmem. unfold Py.values. rewrite map_app. apply in_or_app.
    right. now left.
  - rewrite Hlow.
    destruct Hq as [<-|[<-|[<-|[<-|[]]]]].
    + unfold matches. apply orb_true_iff. right. reflexivity.
    + unfold matches. apply orb_true_iff. right. reflexivity.
    + apply (@matches_mention learning "Learned: "
               (" from observation: " ++ observation) e).
      reflexivity.
    + apply (@matches_mention observation ("Learned: " ++ learning
                                 ++ " from observation: ") "" e).
      change (content e) with c. unfold c.
      now rewrite string_app_nil_r, !string_app_assoc.
Qed.

(** ** [add_memory]: where the new entry is stored *)

(** X9. [add_memory] returns the identifier it drew and consumes one
    identifier and one clock reading.  A short-term entry never changes the
    long-term store, and when its identifier is new and the short-term
    store is below its capacity it is appended there; an entry of any other
    type (working, episodic, ...) never changes the short-term store, and
    when its identifier is new and the long-term store is below its capacity
    it is appended there.  The entry stored carries the identifier drawn,
    the content, type and priority given, the clock reading as timestamp and
    as last access, no accesses, the context given or else the session of the
    memory, and the tags given or else none.  Capacities, summarizer and
    session stay as they are. *)
Theorem add_memory_routing (text : string) (kind : MemoryType)
  (level : MemoryPriority) (ctx : option context_dict)
  (labels : option (list string)) (self : LongShortTermMemory) (w : World) :
  let r := add_memory text kind level ctx labels self w in
  let self' := snd (fst r) in
  let as_given (e : MemoryEntry) :=
    id e = uuids w 0%nat /\ content e = text /\ memory_type e = kind
    /\ priority e = level /\ timestamp e = clock w 0%nat
    /\ access_count e = 0 /\ last_accessed e = clock w 0%nat
    /\ context e = match ctx with
                   | Some (item :: items) => item :: items
                   | _ => [("session", VStr (current_session self))]
                   end
    /\ tags e = match labels with Some l => l | None => [] end
    /\ embedding e = None /\ summary e = None in
  fst (fst r) = uuids w 0%nat
  /\ (forall n, uuids (snd r) n = uuids w (S n))
  /\ (forall n, clock (snd r) n = clock w (S n))
  /\ stdout (snd r) = stdout w
  /\ files (snd r) = files w
  /\ (kind = SHORT_TERM ->
      long_term_store self' = long_term_store self
      /\ (~ In (uuids w 0%nat) (Py.keys (memories (short_term_store self))) ->
          Py.len (memories (short_term_store self))
          < short_term_capacity self ->
          exists e,
            memories (short_term_store self')
            = memories (short_term_store self) ++ [(uuids w 0%nat, e)]
            /\ as_given e))
  /\ (kind <> SHORT_TERM ->
      short_term_store self' = short_term_store self
      /\ (~ In (uuids w 0%nat) (Py.keys (memories (long_term_store self))) ->
          Py.len (memories (long_term_store self))
          < long_term_capacity self ->
          exists e,
            memories (long_term_store self')
            = memories (long_term_store self) ++ [(uuids w 0%nat, e)]
            /\ as_given e))
  /\ short_term_capacity self' = short_term_capacity self
  /\ long_term_capacity self' = long_term_capacity self
  /\ summarizer self' = summarizer self
  /\ current_session self' = current_session self.
Proof.
  intros r self' as_given.
  assert (Hnew : as_given (new_entry text kind level ctx labels self w)).
  { unfold as_given, new_entry.
    destruct ctx as [[|item items]|]; destruct labels as [[|l ls]|];
      repeat split; reflexivity. }
  assert (Hfst : fst (fst r) = uuids w 0%nat /\ snd r = tick w).
  { unfold r, add_memory. rewrite !bind_run. cbv zeta.
    destruct (MemoryType_eqb kind SHORT_TERM); split; reflexivity. }
  destruct Hfst as (Hfst & Hsnd).
  split; [exact Hfst|]. rewrite Hsnd.
  do 4 (split; [reflexivity|]).
  assert (Hframe :
    (kind = SHORT_TERM -> long_term_store self' = long_term_store self)
    /\ (kind <> SHORT_TERM -> short_term_store self' = short_term_store self)
    /\ short_term_capacity self' = short_term_capacity self
    /\ long_term_capacity self' = long_term_capacity self
    /\ summarizer self' = summarizer self
    /\ current_session self' = current_session self).
  { unfold self', r, add_memory. rewrite !bind_run. cbv zeta.
    destruct (MemoryType_eqb kind SHORT_TERM) eqn:Ht;
      unfold ret; cbn [fst snd].
    - apply MemoryType_eqb_short in Ht.
      match goal with
      | |- context [manage_short_term_capacity ?x] =>
          destruct (manage_short_frame x) as (H1 & H2 & H3 & H4 & H5)
      end.
      rewrite H1, H2, H3, H4, H5.
      repeat split; try reflexivity. congruence.
    - assert (Hne : kind <> SHORT_TERM).
      { intros H. apply MemoryType_eqb_short in H. congruence. }
      match goal with
      | |- context [manage_long_term_capacity ?x] =>
          destruct (manage_long_frame x) as (H1 & H2 & H3 & H4 & H5)
      end.
      rewrite H1, H2, H3, H4, H5.
      repeat split; try reflexivity. congruence. }
  destruct Hframe as (Hl & Hs & Hrest).
  split.
  { intros Hk. split; [now apply Hl|]. intros Hfresh Hfits. subst kind.
    destruct (@add_memory_short_fits text level ctx labels self w Hfresh
                Hfits) as (Hmem & _).
    exists (new_entry text SHORT_TERM level ctx labels self w).
    split; [exact Hmem | exact Hnew]. }
  split; [|exact Hrest].
  intros Hk. split; [now apply Hs|]. intros Hfresh Hfits.
  destruct (@add_memory_long_fits text kind level ctx labels self w Hk
              Hfresh Hfits) as (Hmem & _).
  exists (new_entry text kind level ctx labels self w).
  split; [exact Hmem | exact Hnew].
Qed.

(** ** Doubles *)

(** One step of the right shift of a mantissa halves it. *)
Lemma shr_1_m (mrs : shr_record) :
  0 <= shr_m mrs -> shr_m (shr_1 mrs) = shr_m mrs / 2.
Proof.
  destruct mrs as [m r s]. cbn [shr_m]. intros Hm.
  rewrite <- Z.div2_div.
  destruct m as [|[p|p|]|p]; try reflexivity; lia.
Qed.

Lemma iter_pos_shr_1 (p : positive) :
  forall mrs, 0 <= shr_m mrs ->
    shr_m (iter_pos shr_1 p mrs) = shr_m mrs / 2 ^ Zpos p.
Proof.
  induction p as [p IH|p IH|]; intros mrs Hm; cbn [iter_pos].
  - assert (H1 : 0 <= shr_m (shr_1 mrs)).
    { rewrite shr_1_m by exact Hm. apply Z.div_pos; lia. }
    assert (H2 : 0 <= shr_m (iter_pos shr_1 p (shr_1 mrs))).
    { rewrite IH by exact H1. apply Z.div_pos; [exact H1|].
      apply Z.pow_pos_nonneg; lia. }
    rewrite IH by exact H2. rewrite IH by exact H1.
    rewrite shr_1_m by exact Hm.
    rewrite !Z.div_div by (try apply Z.pow_pos_nonneg; lia).
    f_equal.
    assert (Hp : Zpos p~1 = 1 + Zpos p + Zpos p) by lia.
    rewrite Hp, !Z.pow_add_r by lia. rewrite Z.pow_1_r. ring.
  - assert (H2 : 0 <= shr_m (iter_pos shr_1 p mrs)).
    { rewrite IH by exact Hm. apply Z.div_pos; [exact Hm|].
      apply Z.pow_pos_nonneg; lia. }
    rewrite IH by exact H2. rewrite IH by exact Hm.
    rewrite !Z.div_div by (try apply Z.pow_pos_nonneg; lia).
    f_equal.
    assert (Hp : Zpos p~0 = Zpos p + Zpos p) by lia.
    rewrite Hp, Z.pow_add_r by lia. ring.
  - rewrite shr_1_m by exact Hm. reflexivity.
Qed.

Lemma digits2_pos_le (m : positive) :
  2 ^ (Zpos (digits2_pos m) - 1) <= Zpos m.
Proof.
  induction m as [m IH|m IH|]; cbn [digits2_pos].
  - rewrite Pos2Z.inj_succ.
    replace (Z.succ (Zpos (digits2_pos m)) - 1)
      with (1 + (Zpos (digits2_pos m) - 1)) by lia.
    rewrite Z.pow_add_r by lia. lia.
  - rewrite Pos2Z.inj_succ.
    replace (Z.succ (Zpos (digits2_pos m)) - 1)
      with (1 + (Zpos (digits2_pos m) - 1)) by lia.
    rewrite Z.pow_add_r by lia. lia.
  - reflexivity.
Qed.

Lemma shr_record_of_loc_m (m : Z) (l : location) :
  shr_m (shr_record_of_loc m l) = m.
Proof. destruct l as [|[]]; reflexivity. Qed.

(** Shifting a positive mantissa to the exponent of the format leaves a
    positive mantissa, when the exponent is not below [emin]: a double that
    is not zero is not rounded to zero. *)
Lemma shr_fexp_pos (m e : Z) (l : location) :
  0 < m -> emin <= e ->
  0 < shr_m (fst (shr_fexp prec emax m e l))
  /\ emin <= snd (shr_fexp prec emax m e l).
Proof.
  intros Hm He. unfold shr_fexp, shr.
  destruct m as [|p|p]; try lia. cbn [Zdigits2].
  pose proof (digits2_pos_le p) as Hd.
  unfold fexp. fold emin.
  destruct (Z.max (Zpos (digits2_pos p) + e - prec) emin - e) as [|n|n] eqn:Hn;
    cbn [fst snd]; rewrite ?shr_record_of_loc_m; try lia.
  split; [|lia].
  rewrite iter_pos_shr_1 by (rewrite shr_record_of_loc_m; lia).
  rewrite shr_record_of_loc_m.
  apply Z.div_str_pos. split; [apply Z.pow_pos_nonneg; lia|].
  etransitivity; [|exact Hd].
  apply Z.pow_le_mono_r; [lia|]. unfold prec in *. lia.
Qed.

Lemma round_nearest_even_le (m : Z) (l : location) :
  m <= round_nearest_even m l.
Proof.
  destruct l as [|[]]; cbn [round_nearest_even]; try destruct (Z.even m); lia.
Qed.

Lemma binary_round_aux_nonzero (s : bool) (m e : Z) (l : location) :
  0 < m -> emin <= e -> ~ is_zero_SF (binary_round_aux prec emax s m e l).
Proof.
  intros Hm He. unfold binary_round_aux.
  destruct (shr_fexp_pos l Hm He) as (H1 & H2).
  destruct (shr_fexp prec emax m e l) as [mrs' e']. cbn [fst snd] in H1, H2.
  pose proof (round_nearest_even_le (shr_m mrs') (loc_of_shr_record mrs'))
    as Hr.
  assert (Hm1 : 0 < round_nearest_even (shr_m mrs') (loc_of_shr_record mrs'))
    by lia.
  destruct (shr_fexp_pos loc_Exact Hm1 H2) as (H3 & _).
  destruct (shr_fexp prec emax _ e' loc_Exact) as [mrs'' e''].
  cbn [fst] in H3.
  destruct (shr_m mrs''); try lia.
  destruct (_ <=? _); intros [].
Qed.

Lemma binary_round_nonzero (s : bool) (m : positive) (e : Z) :
  emin <= e -> ~ is_zero_SF (binary_round prec emax s m e).
Proof.
  intros He. unfold binary_round, shl_align.
  destruct (fexp prec emax (Zpos (digits2_pos m) + e) - e) eqn:Hd;
    apply binary_round_aux_nonzero; try lia.
  unfold fexp in *. fold emin in *. lia.
Qed.

Lemma valid_binary_emin (s : bool) (m : positive) (e : Z) :
  valid_binary (S754_finite s m e) = true -> emin <= e.
Proof.
  cbn [SpecFloat.valid_binary]. unfold bounded, canonical_mantissa, fexp.
  fold emin. intros H. apply andb_prop in H. destruct H as (H & _).
  apply Z.eqb_eq in H. lia.
Qed.

(** A sum of doubles is [-0.0] only when both terms are. *)
Lemma add_neg_zero (u v : float) :
  Prim2SF (u + v) = S754_zero true -> Prim2SF u = S754_zero true.
Proof.
  rewrite add_spec. unfold SF64add, SFadd.
  pose proof (Prim2SF_valid u) as Hu. pose proof (Prim2SF_valid v) as Hv.
  destruct (Prim2SF u) as [[|]|[|]| |su mu eu];
    destruct (Prim2SF v) as [[|]|[|]| |sv mv ev];
    try discriminate; try reflexivity.
  apply valid_binary_emin in Hu, Hv.
  set (ez := Z.min eu ev). assert (He : emin <= ez) by (unfold ez; lia).
  unfold binary_normalize.
  destruct (_ + _)%Z as [|m|m]; [discriminate| |]; intros H.
  - elim (@binary_round_nonzero false m ez He). now rewrite H.
  - elim (@binary_round_nonzero true m ez He). now rewrite H.
Qed.

(** Adding [0.0] changes no double but [-0.0]. *)
Lemma add_zero_r (x : float) :
  Prim2SF x <> S754_zero true -> (x + 0)%float = x.
Proof.
  intros Hx. apply Prim2SF_inj. rewrite add_spec.
  change (Prim2SF 0) with (S754_zero false). unfold SF64add, SFadd.
  destruct (Prim2SF x) as [[|]|[|]| |s m e]; try reflexivity. congruence.
Qed.

Lemma add_zero_l (x : float) :
  Prim2SF x <> S754_zero true -> (0 + x)%float = x.
Proof.
  intros Hx. apply Prim2SF_inj. rewrite add_spec.
  change (Prim2SF 0) with (S754_zero false). unfold SF64add, SFadd.
  destruct (Prim2SF x) as [[|]|[|]| |s m e]; try reflexivity. congruence.
Qed.

Lemma binary_round_aux_sign (m e : Z) (l : location) :
  positive_sign (binary_round_aux prec emax false m e l).
Proof.
  unfold binary_round_aux.
  destruct (shr_fexp prec emax m e l) as [mrs' e'].
  destruct (shr_fexp prec emax _ e' loc_Exact) as [mrs'' e''].
  destruct (shr_m mrs''); [reflexivity| |exact I].
  destruct (_ <=? _); reflexivity.
Qed.

Lemma float_of_int_sign (n : Z) : positive_sign (Prim2SF (Py.float_of_int n)).
Proof.
  unfold Py.float_of_int. rewrite of_uint63_spec.
  unfold binary_normalize.
  pose proof (Uint63.to_Z_bounded (Uint63.of_Z n)) as Hb.
  destruct (Uint63.to_Z (Uint63.of_Z n)) as [|p|p]; [reflexivity| |lia].
  unfold binary_round. destruct (shl_align _ _ _).
  apply binary_round_aux_sign.
Qed.

Lemma mul_sign (x y : float) :
  positive_sign (Prim2SF x) -> positive_sign (Prim2SF y) ->
  positive_sign (Prim2SF (x * y)).
Proof.
  rewrite mul_spec. unfold SF64mul, SFmul.
  destruct (Prim2SF x) as [sx|sx| |sx mx ex];
    destruct (Prim2SF y) as [sy|sy| |sy my ey];
    cbn [positive_sign]; intros; subst; try reflexivity; try exact I.
  apply binary_round_aux_sign.
Qed.

Lemma positive_sign_not_neg_zero (x : spec_float) :
  positive_sign x -> x <> S754_zero true.
Proof. intros H ->. discriminate H. Qed.

(** ** C5: the relevance score *)

Lemma ctx_val_eqb_same_value (a b : ctx_val) :
  ctx_val_eqb a b = true <-> same_value a b.
Proof.
  unfold same_value.
  destruct a as [s|x|n|], b as [t|y|m|]; cbn [ctx_val_eqb bool_as_int];
    rewrite ?String.eqb_eq, ?Z.eqb_eq, ?eqb_true_iff;
    try (split; congruence).
  destruct x, y; split; congruence.
Qed.

(** C5. With the clock reading [now], the score of an entry is, in doubles
    and added from left to right,
    [overlap * 0.3 + priority.value * 0.2
     + max(0, 1 - (now - timestamp) / (30 * 86400)) * 0.2
     + min(1, access_count / 10) * 0.1 + equal_keys * 0.2].
    [overlap] is the number of distinct words that the lower-cased query
    and the lower-cased content share, the words of a text being what
    [split()] cuts at white space.  [equal_keys] is the number of items
    [k: v] of the caller's context for which the context of the entry
    holds [k] with a value equal to [v]; it is 0 when the caller gives no
    context or an empty one.  The only effect of the computation is one
    reading of the clock. *)
Theorem relevance_score_formula (query : string) (memory : MemoryEntry)
  (ctx : option context_dict) (w : World) :
  let now := clock w 0%nat in
  let r := calculate_relevance_score query memory ctx w in
  let caller := match ctx with Some c => c | None => [] end in
  exists (common : list string) (equal : string * ctx_val -> bool),
    NoDup common
    /\ (forall word, In word common <->
                     In word (Py.split_ws (Py.lower query))
                     /\ In word (Py.split_ws (Py.lower (content memory))))
    /\ (forall k v, equal (k, v) = true <->
                    exists v', Py.get k (context memory) = Some v'
                               /\ same_value v' v)
    /\ fst r = spec_relevance_score (Py.len common)
                 (Py.len (filter equal caller)) memory now
    /\ uuids (snd r) = uuids w
    /\ (forall n, clock (snd r) n = clock w (S n))
    /\ stdout (snd r) = stdout w
    /\ files (snd r) = files w.
Proof.
  intros now r caller.
  destruct (word_overlap_counts_common_words query memory)
    as (common & Hlen & Hnodup & Hcommon).
  set (equal := fun kv : string * ctx_val =>
                  match Py.get (fst kv) (context memory) with
                  | Some v' => ctx_val_eqb v' (snd kv)
                  | None => false
                  end).
  exists common, equal.
  split; [exact Hnodup|]. split; [exact Hcommon|].
  split.
  { intros k v. unfold equal. cbn [fst snd].
    destruct (Py.get k (context memory)) as [v'|].
    - rewrite ctx_val_eqb_same_value. split.
      + intros H. now exists v'.
      + intros (v0 & Hv0 & H). now injection Hv0 as ->.
    - split; [discriminate|]. intros (v0 & Hv0 & _). discriminate. }
  split; [|repeat split; reflexivity].
  subst r. unfold calculate_relevance_score, spec_relevance_score.
  rewrite bind_run. unfold ret, time_time. cbn [fst snd]. fold now.
  change (30 * 24 * 60 * 60) with 2592000.
  change (30 * 86400) with 2592000.
  rewrite Hlen.
  set (a := (Py.float_of_int (Py.len common) * 0.3)%float).
  set (b := (Py.float_of_int (MemoryPriority_value (priority memory))
             * 0.2)%float).
  set (c := (Py.max 0 (1 - (Py.float_of_Q now
                            - Py.float_of_Q (timestamp memory))
                           / Py.float_of_int 2592000) * 0.2)%float).
  set (d := (Py.min 1 (Py.true_div (access_count memory) 10) * 0.1)%float).
  assert (Ha : Prim2SF a <> S754_zero true).
  { apply positive_sign_not_neg_zero, mul_sign;
      [apply float_of_int_sign | reflexivity]. }
  rewrite (@add_zero_l a Ha).
  assert (Hsum : Prim2SF (a + b + c + d) <> S754_zero true).
  { intros H. now do 3 apply add_neg_zero in H. }
  assert (Hnone : forall l : context_dict,
            filter equal l = [] ->
            (a + b + c + d)%float
            = (a + b + c + d
               + Py.float_of_int (Py.len (filter equal l)) * 0.2)%float).
  { intros l ->.
    change (Py.float_of_int (Py.len (@nil (string * ctx_val))) * 0.2)%float
      with 0%float.
    symmetry. apply add_zero_r, Hsum. }
  assert (Hempty : context memory = [] ->
                   forall l : context_dict, filter equal l = []).
  { intros E l. unfold equal. rewrite E.
    induction l as [|x l IH]; [reflexivity | exact IH]. }
  destruct (truthy (Some (context memory))) eqn:Hm;
    destruct ctx as [[|kv t]|]; cbn [truthy andb];
    try (now apply Hnone); [reflexivity|].
  apply Hnone, Hempty. revert Hm.
  destruct (context memory); cbn;
    [intros _; reflexivity | intros H; discriminate H].
Qed.

(** ** The stable sort by priority and accesses *)

Lemma same_rank_geb (a x y : MemoryEntry) :
  same_rank a x = true -> same_rank a y = true -> search_key_geb x y = true.
Proof.
  unfold same_rank, search_key_geb.
  rewrite !andb_true_iff, !orb_true_iff, !andb_true_iff, !Z.eqb_eq,
    Z.ltb_lt, Z.leb_le.
  lia.
Qed.

(** The stable sort in descending order of (priority value, access count):
    a permutation, in that order, in which entries of one rank keep their
    order. *)
Lemma sort_by_rank (l : list MemoryEntry) :
  Permutation (Py.sort search_key_geb l) l
  /\ StronglySorted ranks_before (Py.sort search_key_geb l)
  /\ forall a, filter (same_rank a) (Py.sort search_key_geb l)
               = filter (same_rank a) l.
Proof.
  split; [apply sort_perm|]. split.
  - apply (StronglySorted_impl (R := fun a b => search_key_geb a b = true)).
    + intros a b. apply search_key_geb_ranks.
    + apply sort_sorted;
        [apply search_key_geb_total | apply search_key_geb_trans].
  - intros a. apply sort_stable. apply same_rank_geb.
Qed.

(** ** The order of the doubles *)

Lemma SFcompare_key (x y : spec_float) :
  x <> S754_nan -> y <> S754_nan ->
  (SFcompare x y = Some Lt <-> key_lt (SF_key x) (SF_key y))
  /\ (SFcompare x y = Some Eq <-> SF_key x = SF_key y).
Proof.
  intros Hx Hy. unfold key_lt.
  destruct x as [sx|[|]| |[|] mx ex]; destruct y as [sy|[|]| |[|] my ey];
    try congruence; cbn [SFcompare SF_key fst snd];
    try change (Pos.compare_cont Eq mx my) with (Pos.compare mx my);
    try (destruct (Z.compare_spec ex ey) as [He|He|He];
         [destruct (Pos.compare_spec mx my) as [Hm|Hm|Hm]| |];
         cbn [CompOpp]);
    split; split; intros H; try reflexivity; try discriminate H;
    try lia; try (injection H; intros; lia); try congruence.
Qed.

Lemma is_nan_Prim2SF (x : float) :
  is_nan x = false <-> Prim2SF x <> S754_nan.
Proof.
  unfold is_nan. rewrite eqb_spec. unfold SFeqb. split.
  - intros H E. rewrite E in H. discriminate H.
  - intros H. destruct (SFcompare_key H H) as (_ & He).
    rewrite (proj2 He eq_refl). reflexivity.
Qed.

Lemma ltb_key (x y : float) :
  is_nan x = false -> is_nan y = false ->
  (PrimFloat.ltb x y = true
   <-> key_lt (SF_key (Prim2SF x)) (SF_key (Prim2SF y))).
Proof.
  intros Hx Hy. apply is_nan_Prim2SF in Hx, Hy.
  rewrite ltb_spec. unfold SFltb.
  destruct (SFcompare_key Hx Hy) as (Hl & _). rewrite <- Hl.
  destruct (SFcompare (Prim2SF x) (Prim2SF y)) as [[| |]|];
    split; congruence.
Qed.

Lemma eqb_key (x y : float) :
  PrimFloat.eqb x y = true ->
  is_nan x = false /\ is_nan y = false
  /\ SF_key (Prim2SF x) = SF_key (Prim2SF y).
Proof.
  rewrite eqb_spec. unfold SFeqb. intros H.
  assert (Hx : Prim2SF x <> S754_nan).
  { intros E. rewrite E in H. discriminate H. }
  assert (Hy : Prim2SF y <> S754_nan).
  { intros E. rewrite E in H.
    destruct (Prim2SF x) as [|[|]| |[|]]; discriminate H. }
  split; [now apply is_nan_Prim2SF|]. split; [now apply is_nan_Prim2SF|].
  destruct (SFcompare_key Hx Hy) as (_ & He). apply He.
  destruct (SFcompare (Prim2SF x) (Prim2SF y)) as [[| |]|];
    congruence.
Qed.

(** [score_geb] is a total preorder on the pairs whose score is a number. *)
Lemma score_geb_total (x y : MemoryEntry * float) :
  is_nan (snd x) = false -> is_nan (snd y) = false ->
  score_geb x y = true \/ score_geb y x = true.
Proof.
  intros Hx Hy. unfold score_geb.
  destruct (PrimFloat.ltb (snd x) (snd y)) eqn:H1; [|now left].
  destruct (PrimFloat.ltb (snd y) (snd x)) eqn:H2; [|now right].
  apply (@ltb_key _ _ Hx Hy) in H1. apply (@ltb_key _ _ Hy Hx) in H2.
  unfold key_lt in *. lia.
Qed.

Lemma score_geb_trans (x y z : MemoryEntry * float) :
  is_nan (snd x) = false -> is_nan (snd y) = false ->
  is_nan (snd z) = false ->
  score_geb x y = true -> score_geb y z = true -> score_geb x z = true.
Proof.
  intros Hx Hy Hz. unfold score_geb. rewrite !negb_true_iff.
  intros H1 H2.
  destruct (PrimFloat.ltb (snd x) (snd z)) eqn:H3; [|reflexivity].
  apply (@ltb_key _ _ Hx Hz) in H3.
  assert (N1 : ~ key_lt (SF_key (Prim2SF (snd x))) (SF_key (Prim2SF (snd y)))).
  { intros H. apply (@ltb_key _ _ Hx Hy) in H. congruence. }
  assert (N2 : ~ key_lt (SF_key (Prim2SF (snd y))) (SF_key (Prim2SF (snd z)))).
  { intros H. apply (@ltb_key _ _ Hy Hz) in H. congruence. }
  unfold key_lt in *. lia.
Qed.

(** Two scores that [==] finds equal to a third are not below each other. *)
Lemma score_geb_equal (t : float) (x y : MemoryEntry * float) :
  PrimFloat.eqb (snd x) t = true -> PrimFloat.eqb (snd y) t = true ->
  score_geb x y = true.
Proof.
  intros Hx Hy. apply eqb_key in Hx, Hy.
  destruct Hx as (Nx & _ & Kx). destruct Hy as (Ny & _ & Ky).
  unfold score_geb. apply negb_true_iff.
  destruct (PrimFloat.ltb (snd x) (snd y)) eqn:H; [|reflexivity].
  apply (@ltb_key _ _ Nx Ny) in H. rewrite Kx, Ky in H.
  unfold key_lt in H. lia.
Qed.

(** The insertion sort sorts every list on whose elements the comparison is
    total and transitive. *)
Lemma sort_sorted_on {A} (leb : A -> A -> bool) (P : A -> Prop)
  (l : list A) :
  (forall x y, P x -> P y -> leb x y = true \/ leb y x = true) ->
  (forall x y z, P x -> P y -> P z ->
                 leb x y = true -> leb y z = true -> leb x z = true) ->
  Forall P l ->
  StronglySorted (fun a b => leb a b = true) (Py.sort leb l).
Proof.
  intros Htotal Htrans.
  assert (Hins : forall x t,
            P x -> Forall P t ->
            StronglySorted (fun a b => leb a b = true) t ->
            StronglySorted (fun a b => leb a b = true) (Py.insert leb x t)).
  { intros x t Hx Ht Hs. induction Hs as [|y t Hs IH Hall]; cbn [Py.insert].
    - repeat constructor.
    - inversion Ht as [|? ? Hy Ht']; subst.
      destruct (leb x y) eqn:Hxy.
      + constructor; [now constructor|].
        constructor; [exact Hxy|].
        rewrite Forall_forall in *. intros z Hz.
        apply (Htrans x y z); auto.
      + constructor; [now apply IH|].
        rewrite Forall_forall in *. intros z Hz.
        apply (Permutation_in _ (insert_perm leb x t)) in Hz.
        destruct Hz as [<-|Hz]; [|now apply Hall].
        destruct (Htotal x y Hx Hy) as [H|H]; congruence. }
  induction l as [|x t IH]; intros Hl; cbn [Py.sort]; [constructor|].
  inversion Hl as [|? ? Hx Ht]; subst.
  apply Hins; [exact Hx| |now apply IH].
  rewrite Forall_forall in *. intros z Hz. apply Ht.
  exact (proj1 (In_sort leb z t) Hz).
Qed.

(** The scoring loop of [retrieve_relevant]. *)
Lemma score_loop (query : string) (ctx : option context_dict)
  (candidates : list MemoryEntry) :
  forall (acc : list (MemoryEntry * float)) (w : World),
    fst (for_each candidates
           (fun memory scored =>
              score <- calculate_relevance_score query memory ctx ;;
              ret (scored ++ [(memory, score)]))
           acc w)
    = acc ++ scored_at query ctx candidates w.
Proof.
  induction candidates as [|m t IH]; intros acc w;
    cbn [for_each scored_at].
  - unfold ret. cbn [fst]. now rewrite app_nil_r.
  - rewrite !bind_run, IH. unfold ret. cbn [fst snd].
    rewrite <- app_assoc.
    assert (Hw : snd (calculate_relevance_score query m ctx w)
                 = snd (time_time w)).
    { unfold calculate_relevance_score. now rewrite bind_run. }
    now rewrite Hw.
Qed.

Lemma scored_at_nth (query : string) (ctx : option context_dict)
  (candidates : list MemoryEntry) :
  forall (w : World) (i : nat) (e : MemoryEntry) (x : float),
    nth_error (scored_at query ctx candidates w) i = Some (e, x) ->
    x = fst (calculate_relevance_score query e ctx (after_readings i w)).
Proof.
  induction candidates as [|m t IH]; intros w i e x H;
    cbn [scored_at] in H.
  - destruct i; discriminate H.
  - destruct i as [|i]; cbn [nth_error after_readings] in *.
    + now injection H as <- <-.
    + now apply IH.
Qed.

Lemma scored_at_fst (query : string) (ctx : option context_dict)
  (candidates : list MemoryEntry) :
  forall w, map fst (scored_at query ctx candidates w) = candidates.
Proof.
  induction candidates as [|m t IH]; intros w; cbn [scored_at map fst];
    [reflexivity | now rewrite IH].
Qed.

(** ** C6: [retrieve_memories] *)

Lemma score_loop_world (query : string) (ctx : option context_dict)
  (candidates : list MemoryEntry) :
  forall (acc : list (MemoryEntry * float)) (w : World),
    snd (for_each candidates
           (fun memory scored =>
              score <- calculate_relevance_score query memory ctx ;;
              ret (scored ++ [(memory, score)]))
           acc w)
    = after_readings (List.length candidates) w.
Proof.
  induction candidates as [|m t IH]; intros acc w;
    cbn [for_each List.length after_readings]; [reflexivity|].
  rewrite !bind_run, IH. unfold ret. cbn [fst snd].
  unfold calculate_relevance_score. now rewrite bind_run.
Qed.

(** [retrieve_relevant], step by step. *)
Lemma retrieve_relevant_run (s : InMemoryStore) (query : string)
  (ctx : option context_dict) (limit : Z) (w : World) :
  let candidates := store_search query (limit * 2) s in
  retrieve_relevant s query ctx limit w
  = (map fst (Py.slice_to limit
                (Py.sort score_geb (scored_at query ctx candidates w))),
     after_readings (List.length candidates) w).
Proof.
  intros candidates. unfold retrieve_relevant. rewrite bind_run.
  fold candidates. unfold ret.
  rewrite score_loop, score_loop_world. reflexivity.
Qed.

(** C6. [retrieve_memories] returns the first [limit] entries, as the slice
    [[:limit]] takes them, of the list [merged]: the results [long] of the
    retriever for the long-term store, the query and [limit], followed, when
    [include_short_term] holds, by the keyword search [short] of the
    short-term store, put in descending order of (priority value, access
    count) by a stable sort.

    The keyword search is the slice [[:limit // 2]] of [found], the
    short-term entries that mention the query, in descending order of
    (priority value, access count), entries of one rank in the order of the
    store.

    The results of the retriever are relevance-ranked: [matching] is the
    same list for the long-term store, its slice [[:limit * 2]] are the
    candidates, [scored] pairs each candidate with its relevance score, the
    score of the candidate at position [i] being computed without a caller
    context at reading [i] of the clock, and [ranked] is [scored] in
    descending order of the score, pairs of equal score in the order of
    [scored]; [long] is the slice [[:limit]] of [ranked].  The descending
    order is that of the doubles, and holds when no score is NaN.  Every
    result of the retriever is thus a long-term entry that mentions the
    query; they are at most [limit] when [limit] is not negative, and all
    the long-term entries that mention the query when these are at most
    [limit].  The call reads the clock once for each candidate and has no
    other effect. *)
Theorem retrieve_memories_spec (query : string) (include_short_term : bool)
  (limit : Z) (self : LongShortTermMemory) (w : World) :
  let r := retrieve_memories query include_short_term limit self w in
  let short_term := Py.values (memories (short_term_store self)) in
  let long_term := Py.values (memories (long_term_store self)) in
  exists (f : MemoryEntry -> bool)
         (found short matching long merged : list MemoryEntry)
         (scored ranked : list (MemoryEntry * float)),
    (forall e, f e = true <-> mentions query e)
    /\ Permutation found (filter f short_term)
    /\ StronglySorted ranks_before found
    /\ (forall a, filter (same_rank a) found
                  = filter (same_rank a) (filter f short_term))
    /\ short = (if include_short_term then Py.slice_to (limit / 2) found
                else [])
    /\ Permutation matching (filter f long_term)
    /\ StronglySorted ranks_before matching
    /\ (forall a, filter (same_rank a) matching
                  = filter (same_rank a) (filter f long_term))
    /\ map fst scored = Py.slice_to (limit * 2) matching
    /\ (forall i e x,
          nth_error scored i = Some (e, x) ->
          x = fst (calculate_relevance_score query e None
                     (after_readings i w)))
    /\ Permutation ranked scored
    /\ ((forall a, In a scored -> is_nan (snd a) = false) ->
        StronglySorted (fun a b => PrimFloat.ltb (snd a) (snd b) = false)
          ranked)
    /\ (forall t, filter (fun a => PrimFloat.eqb (snd a) t) ranked
                  = filter (fun a => PrimFloat.eqb (snd a) t) scored)
    /\ long = map fst (Py.slice_to limit ranked)
    /\ long = fst (retrieve_relevant (long_term_store self) query None
                     limit w)
    /\ Permutation merged (long ++ short)
    /\ StronglySorted ranks_before merged
    /\ (forall a, filter (same_rank a) merged
                  = filter (same_rank a) (long ++ short))
    /\ fst r = Py.slice_to limit merged
    /\ (forall e, In e long -> In e long_term /\ mentions query e)
    /\ (0 <= limit -> Py.len long <= limit)
    /\ (Py.len (filter f long_term) <= limit ->
        Permutation long (filter f long_term))
    /\ snd r = after_readings (List.length scored) w.
Proof.
  intros r short_term long_term.
  set (f := matches (Py.lower query)).
  set (found := Py.sort search_key_geb (filter f short_term)).
  set (short := if include_short_term then Py.slice_to (limit / 2) found
                else []).
  set (matching := Py.sort search_key_geb (filter f long_term)).
  set (candidates := store_search query (limit * 2) (long_term_store self)).
  set (scored := scored_at query None candidates w).
  set (ranked := Py.sort score_geb scored).
  set (long := map fst (Py.slice_to limit ranked)).
  assert (Hcand : candidates = Py.slice_to (limit * 2) matching)
    by reflexivity.
  assert (Hfst : map fst scored = candidates) by apply scored_at_fst.
  assert (Hrun : retrieve_relevant (long_term_store self) query None limit w
                 = (long, after_readings (List.length scored) w)).
  { rewrite retrieve_relevant_run. fold candidates. fold scored.
    fold ranked. fold long. f_equal.
    now rewrite <- (length_map fst scored), Hfst. }
  destruct (sort_by_rank (filter f short_term)) as (Hp1 & Hs1 & Hk1).
  destruct (sort_by_rank (filter f long_term)) as (Hp3 & Hs3 & Hk3).
  destruct (sort_by_rank (long ++ short)) as (Hp2 & Hs2 & Hk2).
  exists f, found, short, matching, long,
    (Py.sort search_key_geb (long ++ short)), scored, ranked.
  split; [intros e; apply matches_mentions|].
  split; [exact Hp1|]. split; [exact Hs1|]. split; [exact Hk1|].
  split; [reflexivity|].
  split; [exact Hp3|]. split; [exact Hs3|]. split; [exact Hk3|].
  split; [now rewrite Hfst|].
  split; [intros i e x H; now apply (scored_at_nth _ _ _ _ _ H)|].
  split; [apply sort_perm|].
  split.
  { intros Hnan.
    apply (StronglySorted_impl (R := fun a b => score_geb a b = true)).
    - intros a b H. unfold score_geb in H. now apply negb_true_iff in H.
    - apply (@sort_sorted_on _ score_geb
               (fun a => is_nan (snd a) = false)).
      + intros x y. apply score_geb_total.
      + intros x y z. apply score_geb_trans.
      + apply Forall_forall. exact Hnan. }
  split.
  { intros t. apply sort_stable. intros x y. apply score_geb_equal. }
  split; [reflexivity|].
  split; [now rewrite Hrun|].
  split; [exact Hp2|]. split; [exact Hs2|]. split; [exact Hk2|].
  assert (Hr : r = (Py.slice_to limit
                      (Py.sort search_key_geb (long ++ short)),
                    after_readings (List.length scored) w)).
  { unfold r, retrieve_memories. rewrite bind_run, Hrun. unfold ret.
    cbn [fst snd]. unfold short, found, f, short_term.
    destruct include_short_term; [reflexivity|].
    now rewrite app_nil_r. }
  split; [now rewrite Hr|].
  split.
  { intros e He. unfold long in He.
    apply in_map_iff in He. destruct He as [[m q] [<- He]].
    apply In_slice_to, In_sort in He. apply (in_map fst) in He.
    rewrite Hfst in He. cbn [fst].
    apply store_search_matching, filter_In in He.
    split; [tauto|]. apply matches_mentions. tauto. }
  split.
  { intros Hl. unfold long, Py.len. rewrite length_map.
    pose proof (@slice_to_length _ limit ranked Hl) as H.
    unfold Py.len in H. lia. }
  split; [|now rewrite Hr].
  intros Hm.
  assert (Hperm : Permutation candidates (filter f long_term)).
  { apply store_search_complete. fold long_term. fold f.
    assert (0 <= Py.len (filter f long_term)) by (unfold Py.len; lia).
    lia. }
  unfold long. rewrite <- Hperm, <- Hfst.
  apply Permutation_map. rewrite slice_to_all; [apply sort_perm|].
  unfold ranked, Py.len. rewrite sort_length, <- (length_map fst), Hfst.
  rewrite (Permutation_length Hperm). exact Hm.
Qed.
